(** * faas-netes bootstrap (main.go): a shallow embedding and its properties

    The program under study is the composition root of faas-netes: [main]
    checks an expiry date and a license, builds the cluster clients, the
    [DeploymentConfig], three shared informer factories and the function
    factory, reads two environment variables for the metrics client, and
    then runs either the imperative controller or the CRD operator.

    The embedding is a writer/exit monad: a process is the list of the
    calls it made into other packages, in program order, together with
    either a returned value or the way the process ended (log.Fatalf,
    panic, os.Exit).  Everything the program learns from outside (clock,
    flags, files, the license library, the cluster, the environment) is a
    field of [World].  The constructors of the collaborating packages
    (handlers, informers, factories) are records of their arguments. *)

From Stdlib Require Import ZArith List String Ascii Bool Lia.
Import ListNotations.
Open Scope string_scope.
Open Scope Z_scope.

(* ================================================================= *)
(** ** Go standard library pieces used by main.go *)

(** [strconv.Atoi], after the Go sources (strconv/atoi.go), on a 64-bit
    platform.  The only call site passes base 10, so the base-0 prefix and
    underscore branches of [ParseUint] are not reachable and are left out. *)
Module strconv.

Inductive NumError := ErrSyntax | ErrRange.

Definition intSize : Z := 64.
Definition maxUint64 : Z := 2 ^ 64 - 1.

Definition byte (c : ascii) : Z := Z.of_N (N_of_ascii c).

(** [lower(c)] is [c | ('x' - 'X')]. *)
Definition lower (c : Z) : Z := Z.lor c 32.

(** The digit loop of [ParseUint]; [n] is the accumulator. *)
Fixpoint parseUintLoop (base cutoff maxVal : Z) (s : string) (n : Z)
  : Z * option NumError :=
  match s with
  | EmptyString => (n, None)
  | String ch rest =>
      let c := byte ch in
      let d := if (48 <=? c) && (c <=? 57) then Some (c - 48)
               else if (97 <=? lower c) && (lower c <=? 122)
                    then Some (lower c - 97 + 10)
                    else None in
      match d with
      | None => (0, Some ErrSyntax)
      | Some d =>
          if base <=? d then (0, Some ErrSyntax)
          else if cutoff <=? n then (maxVal, Some ErrRange)
          else
            let n := n * base in
            let n1 := (n + d) mod 2 ^ 64 in
            if (n1 <? n) || (maxVal <? n1) then (maxVal, Some ErrRange)
            else parseUintLoop base cutoff maxVal rest n1
      end
  end.

Definition ParseUint (s : string) (base bitSize : Z) : Z * option NumError :=
  if (String.length s =? 0)%nat then (0, Some ErrSyntax)
  else
    let bitSize := if bitSize =? 0 then intSize else bitSize in
    let cutoff := maxUint64 / base + 1 in
    let maxVal := 2 ^ bitSize - 1 in
    parseUintLoop base cutoff maxVal s 0.

Definition ParseInt (s : string) (base bitSize : Z) : Z * option NumError :=
  match s with
  | EmptyString => (0, Some ErrSyntax)
  | String c0 rest =>
      let neg := byte c0 =? 45 in
      let s := if (byte c0 =? 43) || (byte c0 =? 45) then rest else s in
      let '(un, err) := ParseUint s base bitSize in
      match err with
      | Some ErrSyntax => (0, err)
      | _ =>
          let bitSize := if bitSize =? 0 then intSize else bitSize in
          let cutoff := 2 ^ (bitSize - 1) in
          if negb neg && (cutoff <=? un) then (cutoff - 1, Some ErrRange)
          else if neg && (cutoff <? un) then (- cutoff, Some ErrRange)
          else ((if neg then - un else un), err)
      end
  end.

(** The fast-path loop of [Atoi]: [ch -= '0'] wraps in a byte. *)
Fixpoint atoiFast (s : string) (n : Z) : option Z :=
  match s with
  | EmptyString => Some n
  | String ch rest =>
      let ch := (byte ch - 48) mod 256 in
      if 9 <? ch then None else atoiFast rest (n * 10 + ch)
  end.

Definition Atoi (s : string) : Z * option NumError :=
  let sLen := Z.of_nat (String.length s) in
  if (0 <? sLen) && (sLen <? 19) then
    match s with
    | EmptyString => (0, Some ErrSyntax)
    | String c0 rest =>
        let signed := (byte c0 =? 45) || (byte c0 =? 43) in
        if signed && (String.length rest <? 1)%nat then (0, Some ErrSyntax)
        else
          match atoiFast (if signed then rest else s) 0 with
          | None => (0, Some ErrSyntax)
          | Some n => ((if byte c0 =? 45 then - n else n), None)
          end
    end
  else ParseInt s 10 0.

End strconv.

(** The fragment of package [time] that main.go touches.  An instant is
    the number of nanoseconds since the Unix epoch; [Date] is given for
    in-range calendar fields in UTC. *)
Module time.

Definition Time := Z.
Definition Duration := Z.

Definition Second : Duration := 1000000000.
Definition Minute : Duration := 60 * Second.

Definition March : Z := 3.

(** Days between 1970-01-01 and the given proleptic Gregorian date. *)
Definition daysSinceEpoch (year month day : Z) : Z :=
  let y := if month <=? 2 then year - 1 else year in
  let era := y / 400 in
  let yoe := y - era * 400 in
  let mp := if 2 <? month then month - 3 else month + 9 in
  let doy := (153 * mp + 2) / 5 + day - 1 in
  let doe := yoe * 365 + yoe / 4 - yoe / 100 + doy in
  era * 146097 + doe - 719468.

Definition Date (year month day hour min sec nsec : Z) : Time :=
  (daysSinceEpoch year month day * 86400 + hour * 3600 + min * 60 + sec)
  * Second + nsec.

(** [t.After(u)]: strictly later. *)
Definition After (t u : Time) : bool := u <? t.

End time.

(** Go's [int32(x)] conversion of an [int]: the low 32 bits, signed. *)
Definition int32 (x : Z) : Z := (x + 2 ^ 31) mod 2 ^ 32 - 2 ^ 31.

(* ================================================================= *)
(** ** Data of the collaborating packages

    main.go is the only Go source at hand: the packages of the repository
    that it imports (config, k8s, handlers, controller, server, the
    generated informers) and the libraries are known here by the calls
    main.go makes.  A constructor of theirs is a record of exactly the
    arguments main.go passes to it, so that a value tells what it was
    built from. *)

(** What a fallible call returns: Go's [(value, err)]. *)
Inductive result (A : Type) : Type :=
| Ok (a : A)
| Err (err : string).
Arguments Ok {A} a.
Arguments Err {A} err.

Module licensev1.
Record LicenseToken := {
  Name : string;
  Email : string;
  Products : list string;
  Expires : time.Time
}.
End licensev1.

Module rest.
Record Config := { Host : string; QPS : Z; Burst : Z }.
End rest.

Module kubernetes.
Record Clientset := { config : rest.Config }.
End kubernetes.

Module clientset.
Record Clientset := { config : rest.Config }.
End clientset.

Module providertypes.
Record FaaSConfig := {
  TCPPort : Z;
  ReadTimeout : time.Duration;
  WriteTimeout : time.Duration
}.
End providertypes.

(** Modelled from the spec: [config.BootstrapConfig] is declared in
    pkg/config, which is not among the sources.  These are the settings
    main.go reads from it: the process-wide settings the spec lists for the
    DeploymentConfig, the two namespaces, the cluster-wide scope and the
    provider's own configuration.  The probe timings are Go [int]. *)
Module config.
Record BootstrapConfig := {
  HTTPProbe : bool;
  SetNonRootUser : bool;
  ReadinessProbeInitialDelaySeconds : Z;
  ReadinessProbeTimeoutSeconds : Z;
  ReadinessProbePeriodSeconds : Z;
  LivenessProbeInitialDelaySeconds : Z;
  LivenessProbeTimeoutSeconds : Z;
  LivenessProbePeriodSeconds : Z;
  ImagePullPolicy : string;
  ProfilesNamespace : string;
  DefaultFunctionNamespace : string;
  ClusterRole : bool;
  FaaSConfig : providertypes.FaaSConfig
}.
End config.

Module kubeinformers.
Record SharedInformerFactory := {
  client : kubernetes.Clientset;
  defaultResync : time.Duration;
  namespace : string           (* WithNamespace *)
}.
End kubeinformers.

Module informers.
Record SharedInformerFactory := {
  client : clientset.Clientset;
  defaultResync : time.Duration;
  namespace : string           (* WithNamespace *)
}.
End informers.

(** [f.Apps().V1().Deployments()] and its [Lister()]. *)
Module v1apps.
Record DeploymentInformer := { factory : kubeinformers.SharedInformerFactory }.
Record DeploymentLister := { informer : DeploymentInformer }.
End v1apps.

(** [f.Core().V1().Endpoints()] and its [Lister()]. *)
Module v1core.
Record EndpointsInformer := { factory : kubeinformers.SharedInformerFactory }.
Record EndpointsLister := { informer : EndpointsInformer }.
End v1core.

(** [f.Openfaas().V1().Functions()], [f.Openfaas().V1().Profiles()]. *)
Module v1.
Record FunctionInformer := { factory : informers.SharedInformerFactory }.
Record ProfileInformer := { profileFactory : informers.SharedInformerFactory }.
Record ProfileLister := { informer : ProfileInformer }.
End v1.

(** The four resource kinds of the cache layer. *)
Inductive ResourceKind := Deployments | Endpoints | Functions | Profiles.

(** [x.Informer()]: the shared index informer behind a typed informer. *)
Module cache.
Inductive SharedIndexInformer :=
| OfDeployments (i : v1apps.DeploymentInformer)
| OfEndpoints (i : v1core.EndpointsInformer)
| OfFunctions (i : v1.FunctionInformer)
| OfProfiles (i : v1.ProfileInformer).

Definition kind (i : SharedIndexInformer) : ResourceKind :=
  match i with
  | OfDeployments _ => Deployments
  | OfEndpoints _ => Endpoints
  | OfFunctions _ => Functions
  | OfProfiles _ => Profiles
  end.

(** The namespace the informer lists and watches. *)
Definition scope (i : SharedIndexInformer) : string :=
  match i with
  | OfDeployments d => kubeinformers.namespace (v1apps.factory d)
  | OfEndpoints e => kubeinformers.namespace (v1core.factory e)
  | OfFunctions f => informers.namespace (v1.factory f)
  | OfProfiles p => informers.namespace (v1.profileFactory p)
  end.

Definition resync (i : SharedIndexInformer) : time.Duration :=
  match i with
  | OfDeployments d => kubeinformers.defaultResync (v1apps.factory d)
  | OfEndpoints e => kubeinformers.defaultResync (v1core.factory e)
  | OfFunctions f => informers.defaultResync (v1.factory f)
  | OfProfiles p => informers.defaultResync (v1.profileFactory p)
  end.
End cache.

(** Modelled from the spec: package k8s is not among the sources.
    [DeploymentConfig] has the fields main.go sets (the spec's HTTP probe
    toggle, non-root enforcement, image pull policy, probe timing and
    invocation port); the other types record the arguments of their
    constructors. *)
Module k8s.
Record ProbeConfig := {
  InitialDelaySeconds : Z;
  TimeoutSeconds : Z;
  PeriodSeconds : Z
}.

Record DeploymentConfig := {
  RuntimeHTTPPort : Z;
  HTTPProbe : bool;
  SetNonRootUser : bool;
  ReadinessProbe : ProbeConfig;
  LivenessProbe : ProbeConfig;
  ImagePullPolicy : string;
  ProfilesNamespace : string
}.

(** [NewFunctionFactory(clientset, config, profiles)]. *)
Record FunctionFactory := {
  Client : kubernetes.Clientset;
  Config : DeploymentConfig;
  Profiles : v1.ProfileLister
}.

(** [NewPrometheusQuery(host, port, http.DefaultClient)]. *)
Record PrometheusQuery := { Host : string; Port : Z }.

(** [NewFunctionLookup(ns, lister)]. *)
Record FunctionLookup := {
  DefaultNamespace : string;
  EndpointLister : v1core.EndpointsLister
}.

(** [NewLogRequestor(client, functionNamespace)]. *)
Record LogRequestor := {
  logClient : kubernetes.Clientset;
  functionNamespace : string
}.
End k8s.

(** Modelled from the spec: the handlers of packages handlers, proxy and
    logs, which are not among the sources - the spec's imperative
    handlers, router and replica reader and updater.  Each is named after
    the constructor main.go calls and holds that call's arguments. *)
Inductive HandlerFunc :=
| proxy_NewHandlerFunc (c : providertypes.FaaSConfig) (resolver : k8s.FunctionLookup)
| handlers_MakeDeleteHandler (ns : string) (c : kubernetes.Clientset)
| handlers_MakeDeployHandler (ns : string) (f : k8s.FunctionFactory)
| handlers_MakeFunctionReader (ns : string) (l : v1apps.DeploymentLister)
| handlers_MakeReplicaReader (ns : string) (l : v1apps.DeploymentLister)
                             (q : k8s.PrometheusQuery)
| handlers_MakeReplicaUpdater (ns : string) (c : kubernetes.Clientset)
| handlers_MakeUpdateHandler (ns : string) (f : k8s.FunctionFactory)
| handlers_MakeHealthHandler
| handlers_MakeInfoHandler (version sha : string)
| handlers_MakeSecretHandler (ns : string) (c : kubernetes.Clientset)
| logs_NewLogHandlerFunc (r : k8s.LogRequestor) (timeout : time.Duration)
| handlers_MakeNamespacesLister (ns : string) (clusterRole : bool)
                                (c : kubernetes.Clientset).

Module FaaSHandlers.
Record t := {
  FunctionProxy : HandlerFunc;
  DeleteHandler : HandlerFunc;
  DeployHandler : HandlerFunc;
  FunctionReader : HandlerFunc;
  ReplicaReader : HandlerFunc;
  ReplicaUpdater : HandlerFunc;
  UpdateHandler : HandlerFunc;
  HealthHandler : HandlerFunc;
  InfoHandler : HandlerFunc;
  SecretHandler : HandlerFunc;
  LogHandler : HandlerFunc;
  ListNamespaceHandler : HandlerFunc
}.
End FaaSHandlers.

(** Modelled from the spec: the reconciler of package controller, which
    is not among the sources, as what main.go builds it from. *)
Module controller.
(** The operator's wrapper around the function factory. *)
Record FunctionFactory := { Factory : k8s.FunctionFactory }.

(** [NewController(kube, faas, kubeInformers, faasInformers, factory)]. *)
Record Controller := {
  kubeclientset : kubernetes.Clientset;
  faasclientset : clientset.Clientset;
  kubeInformerFactory : kubeinformers.SharedInformerFactory;
  faasInformerFactory : informers.SharedInformerFactory;
  factory : FunctionFactory
}.
End controller.

(** Modelled from the spec: the operator's HTTP server of package server,
    which is not among the sources, as what main.go builds it from. *)
Module server.
(** [New(client, kube, endpointsInformer, deploymentLister, clusterRole,
    cfg, query)]. *)
Record Server := {
  client : clientset.Clientset;
  kube : kubernetes.Clientset;
  endpointsInformer : v1core.EndpointsInformer;
  deploymentLister : v1apps.DeploymentLister;
  clusterRole : bool;
  cfg : config.BootstrapConfig;
  query : k8s.PrometheusQuery
}.
End server.

(** main.go's own types. *)
Record customInformers := {
  EndpointsInformer : v1core.EndpointsInformer;
  DeploymentInformer : v1apps.DeploymentInformer;
  FunctionsInformer : option v1.FunctionInformer   (* nil outside operator mode *)
}.

Module serverSetup.
Record t := {
  config : config.BootstrapConfig;
  kubeClient : kubernetes.Clientset;
  faasClient : clientset.Clientset;
  functionFactory : k8s.FunctionFactory;
  kubeInformerFactory : kubeinformers.SharedInformerFactory;
  faasInformerFactory : informers.SharedInformerFactory;
  profileInformerFactory : informers.SharedInformerFactory
}.
End serverSetup.

(* ================================================================= *)
(** ** Processes: recorded calls and the way a process ends *)

(** An argument of a format string. *)
Inductive Arg :=
| str (s : string)
| daysUntil (t : time.Time).     (* time.Until(t).Hours()/24 *)

(** The value a panic is raised with. *)
Inductive PanicValue :=
| text (s : string)                                  (* a string, an error *)
| fmt_Errorf (format : string) (args : list Arg).    (* fmt.Errorf(..).Error() *)

(** The calls main.go makes into other packages, with their arguments.
    Format strings are kept as they are spelled in the source.  A [go]
    statement is recorded as the call it starts; the boolean of
    [cache_WaitForNamedCacheSync] is what the wait returned. *)
Inductive Event :=
| log_Printf (format : string) (args : list Arg)
| log_Println (msg : string)
| fmt_Fprintf_Stderr (format : string) (args : list Arg)
| flag_Parse
| ioutil_ReadFile (path : string)
| licensev1_LoadLicenseToken (license publicKey : string)
| clientcmd_BuildConfigFromFlags (masterURL kubeconfig : string)
| kubernetes_NewForConfig (c : rest.Config)
| clientset_NewForConfig (c : rest.Config)
| config_Read
| config_Fprint (verbose : bool)
| kubeinformers_NewSharedInformerFactoryWithOptions
    (f : kubeinformers.SharedInformerFactory)
| informers_NewSharedInformerFactoryWithOptions
    (f : informers.SharedInformerFactory)
| k8s_NewFunctionFactory (f : k8s.FunctionFactory)
| os_LookupEnv (key : string)
| k8s_NewPrometheusQuery (q : k8s.PrometheusQuery)
| signals_SetupSignalHandler
| go_Informer_Run (i : cache.SharedIndexInformer)
| cache_WaitForNamedCacheSync (controllerName : string)
                              (i : cache.SharedIndexInformer) (ok : bool)
| k8s_NewFunctionLookup (l : k8s.FunctionLookup)
| make_handler (h : HandlerFunc)
| faasProvider_Serve (handlers : FaaSHandlers.t) (c : providertypes.FaaSConfig)
| call_setupLogging                (* main.go's own setupLogging() *)
| controller_NewController (c : controller.Controller)
| server_New (s : server.Server)
| go_srv_Start (s : server.Server)
| ctrl_Run (c : controller.Controller) (threadiness : Z).

(** How the process can end before [main] returns. *)
Inductive Exit :=
| log_Fatalf (format : string) (args : list Arg)
| glog_Fatalf (format : string) (args : list Arg)
| panic (v : PanicValue)
| os_Exit (code : Z).

Inductive Outcome (A : Type) : Type :=
| Returned (a : A)
| Exited (e : Exit).
Arguments Returned {A} a.
Arguments Exited {A} e.

Definition Proc (A : Type) : Type := (list Event * Outcome A)%type.

Definition trace {A} (p : Proc A) : list Event := fst p.
Definition outcome {A} (p : Proc A) : Outcome A := snd p.

Definition ret {A} (a : A) : Proc A := ([], Returned a).

Definition bind {A B} (p : Proc A) (k : A -> Proc B) : Proc B :=
  match p with
  | (tr, Returned a) => let (tr', o) := k a in ((tr ++ tr')%list, o)
  | (tr, Exited e) => (tr, Exited e)
  end.

Definition call (e : Event) : Proc unit := ([e], Returned tt).

Definition exit {A} (e : Exit) : Proc A := ([], Exited e).

Definition when (b : bool) (p : Proc unit) : Proc unit :=
  if b then p else ret tt.

Notation "x <- p ;; k" := (bind p (fun x => k))
  (at level 61, p at next level, right associativity).
Notation "p ;; k" := (bind p (fun _ => k))
  (at level 61, right associativity).

Definition len (s : string) : Z := Z.of_nat (String.length s).

(* ================================================================= *)
(** ** The world the process runs in *)

Record Flags := {
  kubeconfig : string;
  masterURL : string;
  license : string;
  licenseFile : string;
  operator : bool;
  verbose : bool
}.

(** [flag.Parse()] with [flag.ExitOnError]: the parsed flags, or the exit
    status with which the flag package ended the process. *)
Inductive ParsedFlags :=
| FlagsOk (f : Flags)
| FlagsExit (code : Z).

Record World := {
  now : time.Time;                                     (* time.Now() *)
  PublicKey : string;                                  (* set at link time *)
  commandLine : ParsedFlags;
  releaseInfo : string * string;                       (* (sha, release) *)
  buildVersion : string;
  gitCommit : string;
  readFile : string -> result string;
  trimSpace : string -> string;                        (* strings.TrimSpace *)
  loadLicenseToken : string -> string -> result licensev1.LicenseToken;
  buildConfigFromFlags : string -> string -> result rest.Config;
  kubernetesNewForConfig : rest.Config -> option string;   (* the error *)
  clientsetNewForConfig : rest.Config -> option string;    (* the error *)
  readConfig : result config.BootstrapConfig;
  lookupEnv : string -> option string;                 (* (v, ok) *)
  waitForCacheSync : cache.SharedIndexInformer -> bool;
  controllerRun : option string                        (* the error of Run *)
}.

(* ================================================================= *)
(** ** main.go *)

Definition sku : string := "openfaas-pro".

Fixpoint hasProduct (sku : string) (list : list string) : bool :=
  match list with
  | [] => false
  | p :: list' => if String.eqb p sku then true else hasProduct sku list'
  end.

Section Program.

Variable w : World.

Definition startInformers (setup : serverSetup.t) (operator : bool)
  : Proc customInformers :=
  let kubeInformerFactory := serverSetup.kubeInformerFactory setup in
  let faasInformerFactory := serverSetup.faasInformerFactory setup in

  functions <-
    (if operator then
       let functions := {| v1.factory := faasInformerFactory |} in
       call (go_Informer_Run (cache.OfFunctions functions)) ;;
       let ok := waitForCacheSync w (cache.OfFunctions functions) in
       call (cache_WaitForNamedCacheSync "faas-netes:functions"
               (cache.OfFunctions functions) ok) ;;
       when (negb ok)
         (exit (log_Fatalf "failed to wait for cache to sync" [])) ;;
       ret (Some functions)
     else ret None) ;;

  let deployments := {| v1apps.factory := kubeInformerFactory |} in
  call (go_Informer_Run (cache.OfDeployments deployments)) ;;
  let ok := waitForCacheSync w (cache.OfDeployments deployments) in
  call (cache_WaitForNamedCacheSync "faas-netes:deployments"
          (cache.OfDeployments deployments) ok) ;;
  when (negb ok) (exit (log_Fatalf "failed to wait for cache to sync" [])) ;;

  let endpoints := {| v1core.factory := kubeInformerFactory |} in
  call (go_Informer_Run (cache.OfEndpoints endpoints)) ;;
  let ok := waitForCacheSync w (cache.OfEndpoints endpoints) in
  call (cache_WaitForNamedCacheSync "faas-netes:endpoints"
          (cache.OfEndpoints endpoints) ok) ;;
  when (negb ok) (exit (log_Fatalf "failed to wait for cache to sync" [])) ;;

  let profileInformerFactory := serverSetup.profileInformerFactory setup in
  let profiles := {| v1.profileFactory := profileInformerFactory |} in
  call (go_Informer_Run (cache.OfProfiles profiles)) ;;
  let ok := waitForCacheSync w (cache.OfProfiles profiles) in
  call (cache_WaitForNamedCacheSync "faas-netes:profiles"
          (cache.OfProfiles profiles) ok) ;;
  when (negb ok) (exit (log_Fatalf "failed to wait for cache to sync" [])) ;;

  ret {| EndpointsInformer := endpoints;
         DeploymentInformer := deployments;
         FunctionsInformer := functions |}.

(** A handler constructor call: recorded, and its value returned. *)
Definition make (h : HandlerFunc) : Proc HandlerFunc :=
  call (make_handler h) ;; ret h.

(** runController runs the faas-netes imperative controller *)
Definition runController (setup : serverSetup.t) (query : k8s.PrometheusQuery)
  : Proc unit :=
  let cfg := serverSetup.config setup in
  let kubeClient := serverSetup.kubeClient setup in
  let factory := serverSetup.functionFactory setup in
  let ns := config.DefaultFunctionNamespace cfg in

  call signals_SetupSignalHandler ;;
  let operator := false in
  listers <- startInformers setup operator ;;

  let deploymentLister :=
    {| v1apps.informer := DeploymentInformer listers |} in
  let functionLookup :=
    {| k8s.DefaultNamespace := ns;
       k8s.EndpointLister :=
         {| v1core.informer := EndpointsInformer listers |} |} in
  call (k8s_NewFunctionLookup functionLookup) ;;

  functionProxy <-
    make (proxy_NewHandlerFunc (config.FaaSConfig cfg) functionLookup) ;;
  deleteHandler <- make (handlers_MakeDeleteHandler ns kubeClient) ;;
  deployHandler <- make (handlers_MakeDeployHandler ns factory) ;;
  functionReader <- make (handlers_MakeFunctionReader ns deploymentLister) ;;
  replicaReader <-
    make (handlers_MakeReplicaReader ns deploymentLister query) ;;
  replicaUpdater <- make (handlers_MakeReplicaUpdater ns kubeClient) ;;
  updateHandler <- make (handlers_MakeUpdateHandler ns factory) ;;
  healthHandler <- make handlers_MakeHealthHandler ;;
  infoHandler <-
    make (handlers_MakeInfoHandler (buildVersion w) (gitCommit w)) ;;
  secretHandler <- make (handlers_MakeSecretHandler ns kubeClient) ;;
  logHandler <-
    make (logs_NewLogHandlerFunc
            {| k8s.logClient := kubeClient; k8s.functionNamespace := ns |}
            (providertypes.WriteTimeout (config.FaaSConfig cfg))) ;;
  listNamespaceHandler <-
    make (handlers_MakeNamespacesLister ns (config.ClusterRole cfg)
            kubeClient) ;;
  let bootstrapHandlers :=
    {| FaaSHandlers.FunctionProxy := functionProxy;
       FaaSHandlers.DeleteHandler := deleteHandler;
       FaaSHandlers.DeployHandler := deployHandler;
       FaaSHandlers.FunctionReader := functionReader;
       FaaSHandlers.ReplicaReader := replicaReader;
       FaaSHandlers.ReplicaUpdater := replicaUpdater;
       FaaSHandlers.UpdateHandler := updateHandler;
       FaaSHandlers.HealthHandler := healthHandler;
       FaaSHandlers.InfoHandler := infoHandler;
       FaaSHandlers.SecretHandler := secretHandler;
       FaaSHandlers.LogHandler := logHandler;
       FaaSHandlers.ListNamespaceHandler := listNamespaceHandler |} in

  call (faasProvider_Serve bootstrapHandlers (config.FaaSConfig cfg)).

(** runOperator runs the CRD Operator *)
Definition runOperator (setup : serverSetup.t) (cfg : config.BootstrapConfig)
           (query : k8s.PrometheusQuery) : Proc unit :=
  let kubeClient := serverSetup.kubeClient setup in
  let faasClient := serverSetup.faasClient setup in
  let kubeInformerFactory := serverSetup.kubeInformerFactory setup in
  let faasInformerFactory := serverSetup.faasInformerFactory setup in

  let factory :=
    {| controller.Factory := serverSetup.functionFactory setup |} in

  call call_setupLogging ;;
  call signals_SetupSignalHandler ;;

  let operator := true in
  listers <- startInformers setup operator ;;

  let ctrl :=
    {| controller.kubeclientset := kubeClient;
       controller.faasclientset := faasClient;
       controller.kubeInformerFactory := kubeInformerFactory;
       controller.faasInformerFactory := faasInformerFactory;
       controller.factory := factory |} in
  call (controller_NewController ctrl) ;;

  let srv :=
    {| server.client := faasClient;
       server.kube := kubeClient;
       server.endpointsInformer := EndpointsInformer listers;
       server.deploymentLister :=
         {| v1apps.informer := DeploymentInformer listers |};
       server.clusterRole := config.ClusterRole cfg;
       server.cfg := cfg;
       server.query := query |} in
  call (server_New srv) ;;

  call (go_srv_Start srv) ;;
  call (ctrl_Run ctrl 1) ;;
  match controllerRun w with
  | Some err => exit (glog_Fatalf "Error running controller: %s" [str err])
  | None => ret tt
  end.

(** The external calls of [main]: the call is recorded and the world
    gives its result. *)
Definition flag_parse : Proc Flags :=
  call flag_Parse ;;
  match commandLine w with
  | FlagsOk f => ret f
  | FlagsExit code => exit (os_Exit code)
  end.

Definition ReadFile (path : string) : Proc (result string) :=
  call (ioutil_ReadFile path) ;; ret (readFile w path).

Definition LoadLicenseToken (license publicKey : string)
  : Proc (result licensev1.LicenseToken) :=
  call (licensev1_LoadLicenseToken license publicKey) ;;
  ret (loadLicenseToken w license publicKey).

Definition BuildConfigFromFlags (masterURL kubeconfig : string)
  : Proc (result rest.Config) :=
  call (clientcmd_BuildConfigFromFlags masterURL kubeconfig) ;;
  ret (buildConfigFromFlags w masterURL kubeconfig).

Definition kubernetes_newForConfig (c : rest.Config)
  : Proc (result kubernetes.Clientset) :=
  call (kubernetes_NewForConfig c) ;;
  ret (match kubernetesNewForConfig w c with
       | Some err => Err err
       | None => Ok {| kubernetes.config := c |}
       end).

Definition clientset_newForConfig (c : rest.Config)
  : Proc (result clientset.Clientset) :=
  call (clientset_NewForConfig c) ;;
  ret (match clientsetNewForConfig w c with
       | Some err => Err err
       | None => Ok {| clientset.config := c |}
       end).

Definition LookupEnv (key : string) : Proc (option string) :=
  call (os_LookupEnv key) ;; ret (lookupEnv w key).

Definition main : Proc unit :=
  when (time.After (now w) (time.Date 2022 time.March 14 0 0 0 0))
    (exit (log_Fatalf
      "This demo has expired. Please email contact@openfaas.com for more information."
      [])) ;;

  flags <- flag_parse ;;
  let kubeconfig := kubeconfig flags in
  let masterURL := masterURL flags in
  let license := license flags in
  let licenseFile := licenseFile flags in
  let operator := operator flags in
  let verbose := verbose flags in

  call (log_Printf "Public key: %s" [str (PublicKey w)]) ;;
  when ((len license =? 0) && (len licenseFile =? 0))
    (exit (log_Fatalf
      "A license is required via --license or --license-file" [])) ;;

  let '(sha, release) := releaseInfo w in
  call (log_Printf "Version: %s\tcommit: %s\n" [str release; str sha]) ;;

  license <-
    (if 0 <? len licenseFile then
       res <- ReadFile licenseFile ;;
       match res with
       | Err err => exit (panic (text err))
       | Ok res => ret (trimSpace w res)
       end
     else ret license) ;;

  when (len license =? 0)
    (exit (panic (text
      "provide an argument of -license or -license-file to continue using this product"))) ;;

  loaded <- LoadLicenseToken license (PublicKey w) ;;
  licenseToken <-
    match loaded with
    | Err err =>
        call (fmt_Fprintf_Stderr "%s\n" [str err]) ;;
        call (fmt_Fprintf_Stderr "PublicKey: %s\n" [str (PublicKey w)]) ;;
        exit (os_Exit 1)
    | Ok t => ret t
    end ;;

  let validForProduct := hasProduct sku (licensev1.Products licenseToken) in
  when (negb validForProduct)
    (exit (panic (fmt_Errorf
      "this license is not valid for %q, contact support@openfaas.com"
      [str sku]))) ;;

  call (log_Printf "Licensed to: %s <%s>, expires: %.0f day(s)\n"
          [str (licensev1.Name licenseToken);
           str (licensev1.Email licenseToken);
           daysUntil (licensev1.Expires licenseToken)]) ;;

  built <- BuildConfigFromFlags masterURL kubeconfig ;;
  clientCmdConfig <-
    match built with
    | Err err => exit (log_Fatalf "Error building kubeconfig: %s" [str err])
    | Ok c => ret c
    end ;;

  let kubeconfigQPS := 100 in
  let kubeconfigBurst := 250 in

  let clientCmdConfig :=
    {| rest.Host := rest.Host clientCmdConfig;
       rest.QPS := kubeconfigQPS;
       rest.Burst := kubeconfigBurst |} in

  res <- kubernetes_newForConfig clientCmdConfig ;;
  kubeClient <-
    match res with
    | Err err =>
        exit (log_Fatalf "Error building Kubernetes clientset: %s" [str err])
    | Ok c => ret c
    end ;;

  res <- clientset_newForConfig clientCmdConfig ;;
  faasClient <-
    match res with
    | Err err =>
        exit (log_Fatalf "Error building OpenFaaS clientset: %s" [str err])
    | Ok c => ret c
    end ;;

  call config_Read ;;
  cfg <-
    match readConfig w with
    | Err err => exit (log_Fatalf "Error reading config: %s" [str err])
    | Ok c => ret c
    end ;;

  call (config_Fprint verbose) ;;

  let deployConfig :=
    {| k8s.RuntimeHTTPPort := 8080;
       k8s.HTTPProbe := config.HTTPProbe cfg;
       k8s.SetNonRootUser := config.SetNonRootUser cfg;
       k8s.ReadinessProbe :=
         {| k8s.InitialDelaySeconds :=
              int32 (config.ReadinessProbeInitialDelaySeconds cfg);
            k8s.TimeoutSeconds :=
              int32 (config.ReadinessProbeTimeoutSeconds cfg);
            k8s.PeriodSeconds :=
              int32 (config.ReadinessProbePeriodSeconds cfg) |};
       k8s.LivenessProbe :=
         {| k8s.InitialDelaySeconds :=
              int32 (config.LivenessProbeInitialDelaySeconds cfg);
            k8s.TimeoutSeconds :=
              int32 (config.LivenessProbeTimeoutSeconds cfg);
            k8s.PeriodSeconds :=
              int32 (config.LivenessProbePeriodSeconds cfg) |};
       k8s.ImagePullPolicy := config.ImagePullPolicy cfg;
       k8s.ProfilesNamespace := config.ProfilesNamespace cfg |} in

  let defaultResync := time.Minute * 5 in

  let namespaceScope :=
    if config.ClusterRole cfg then EmptyString
    else config.DefaultFunctionNamespace cfg in

  let kubeInformerFactory :=
    {| kubeinformers.client := kubeClient;
       kubeinformers.defaultResync := defaultResync;
       kubeinformers.namespace := namespaceScope |} in
  call (kubeinformers_NewSharedInformerFactoryWithOptions
          kubeInformerFactory) ;;

  let faasInformerFactory :=
    {| informers.client := faasClient;
       informers.defaultResync := defaultResync;
       informers.namespace := namespaceScope |} in
  call (informers_NewSharedInformerFactoryWithOptions faasInformerFactory) ;;

  let profileInformerFactory :=
    {| informers.client := faasClient;
       informers.defaultResync := defaultResync;
       informers.namespace := config.ProfilesNamespace cfg |} in
  call (informers_NewSharedInformerFactoryWithOptions
          profileInformerFactory) ;;

  let profileLister :=
    {| v1.informer := {| v1.profileFactory := profileInformerFactory |} |} in
  let factory :=
    {| k8s.Client := kubeClient;
       k8s.Config := deployConfig;
       k8s.Profiles := profileLister |} in
  call (k8s_NewFunctionFactory factory) ;;

  let setup :=
    {| serverSetup.config := cfg;
       serverSetup.functionFactory := factory;
       serverSetup.kubeInformerFactory := kubeInformerFactory;
       serverSetup.faasInformerFactory := faasInformerFactory;
       serverSetup.profileInformerFactory := profileInformerFactory;
       serverSetup.kubeClient := kubeClient;
       serverSetup.faasClient := faasClient |} in

  let prometheusHost := "prometheus" in
  let prometheusPort := 9090 in

  looked <- LookupEnv "prometheus_host" ;;
  let prometheusHost :=
    match looked with
    | Some v => if 0 <? len v then v else prometheusHost
    | None => prometheusHost
    end in

  looked <- LookupEnv "prometheus_port" ;;
  let prometheusPort :=
    match looked with
    | Some v => if 0 <? len v then fst (strconv.Atoi v) else prometheusPort
    | None => prometheusPort
    end in

  let query :=
    {| k8s.Host := prometheusHost; k8s.Port := prometheusPort |} in
  call (k8s_NewPrometheusQuery query) ;;

  if operator then
    call (log_Println "Starting operator") ;;
    runOperator setup cfg query
  else
    call (log_Println "Starting controller") ;;
    runController setup query.

End Program.

(* ================================================================= *)
(** ** Vocabulary of the properties *)

(** [triple I p R Q]: started after a history satisfying [I], the process
    [p] either returns [a] with a history satisfying [R a], or ends the
    process by [x] with a history satisfying [Q x]. *)
Definition triple {A} (I : list Event -> Prop) (p : Proc A)
           (R : A -> list Event -> Prop) (Q : Exit -> list Event -> Prop)
  : Prop :=
  forall h, I h ->
    match outcome p with
    | Returned a => R a (h ++ trace p)%list
    | Exited x => Q x (h ++ trace p)%list
    end.

(** *** The cache layer *)

(** An informer of kind [k] was started. *)
Definition watches (tr : list Event) (k : ResourceKind) : Prop :=
  exists i, cache.kind i = k /\ In (go_Informer_Run i) tr.

(** The wait for the initial sync of an informer of kind [k] succeeded. *)
Definition synced (k : ResourceKind) (tr : list Event) : Prop :=
  exists name i,
    cache.kind i = k /\ In (cache_WaitForNamedCacheSync name i true) tr.

(** An informer of kind [k] was started and its cache has synced. *)
Definition mirrors (tr : list Event) (k : ResourceKind) : Prop :=
  exists name i,
    cache.kind i = k /\ In (go_Informer_Run i) tr /\
    In (cache_WaitForNamedCacheSync name i true) tr.

(** The informers [startInformers] starts in each mode. *)
Definition started (operator : bool) : list ResourceKind :=
  if operator then [Functions; Deployments; Endpoints; Profiles]
  else [Deployments; Endpoints; Profiles].

(** Calls that build or start a handler, the router or the reconciler. *)
Definition wires (e : Event) : bool :=
  match e with
  | k8s_NewFunctionLookup _ | make_handler _ | faasProvider_Serve _ _
  | controller_NewController _ | server_New _ | go_srv_Start _
  | ctrl_Run _ _ => true
  | _ => false
  end.

(** Every wiring call comes after the successful sync of every informer
    the mode starts. *)
Definition wiredAfterSync (operator : bool) (tr : list Event) : Prop :=
  forall pre e post,
    tr = (pre ++ e :: post)%list -> wires e = true ->
    forall k, In k (started operator) -> synced k pre.

Definition kind_eqb (a b : ResourceKind) : bool :=
  match a, b with
  | Deployments, Deployments | Endpoints, Endpoints
  | Functions, Functions | Profiles, Profiles => true
  | _, _ => false
  end.

(** A decision procedure for [wiredAfterSync]: [seen] are the kinds whose
    sync has succeeded so far. *)
Fixpoint wiredAfterSyncb (need seen : list ResourceKind) (tr : list Event)
  : bool :=
  match tr with
  | [] => true
  | e :: tr' =>
      (if wires e
       then forallb (fun k => existsb (kind_eqb k) seen) need
       else true)
      && wiredAfterSyncb need
           (match e with
            | cache_WaitForNamedCacheSync _ i true => cache.kind i :: seen
            | _ => seen
            end) tr'
  end.

(** The function of the collaborating package a recorded call went to. *)
Definition callId (e : Event) : nat :=
  match e with
  | log_Printf _ _ => 0
  | log_Println _ => 1
  | fmt_Fprintf_Stderr _ _ => 2
  | flag_Parse => 3
  | ioutil_ReadFile _ => 4
  | licensev1_LoadLicenseToken _ _ => 5
  | clientcmd_BuildConfigFromFlags _ _ => 6
  | kubernetes_NewForConfig _ => 7
  | clientset_NewForConfig _ => 8
  | config_Read => 9
  | config_Fprint _ => 10
  | kubeinformers_NewSharedInformerFactoryWithOptions _ => 11
  | informers_NewSharedInformerFactoryWithOptions _ => 12
  | k8s_NewFunctionFactory _ => 13
  | os_LookupEnv _ => 14
  | k8s_NewPrometheusQuery _ => 15
  | signals_SetupSignalHandler => 16
  | go_Informer_Run _ => 17
  | cache_WaitForNamedCacheSync _ _ _ => 18
  | k8s_NewFunctionLookup _ => 19
  | make_handler _ => 20
  | faasProvider_Serve _ _ => 21
  | call_setupLogging => 22
  | controller_NewController _ => 23
  | server_New _ => 24
  | go_srv_Start _ => 25
  | ctrl_Run _ _ => 26
  end%nat.

Definition sameCall (e e' : Event) : bool := Nat.eqb (callId e) (callId e').

(** *** Function factories in recorded calls *)

Definition factoriesOfHandler (h : HandlerFunc) : list k8s.FunctionFactory :=
  match h with
  | handlers_MakeDeployHandler _ f | handlers_MakeUpdateHandler _ f => [f]
  | _ => []
  end.

(** The function factories a call is given. *)
Definition factoriesOf (e : Event) : list k8s.FunctionFactory :=
  match e with
  | k8s_NewFunctionFactory f => [f]
  | make_handler h => factoriesOfHandler h
  | faasProvider_Serve hs _ =>
      flat_map factoriesOfHandler
        [FaaSHandlers.FunctionProxy hs; FaaSHandlers.DeleteHandler hs;
         FaaSHandlers.DeployHandler hs; FaaSHandlers.FunctionReader hs;
         FaaSHandlers.ReplicaReader hs; FaaSHandlers.ReplicaUpdater hs;
         FaaSHandlers.UpdateHandler hs; FaaSHandlers.HealthHandler hs;
         FaaSHandlers.InfoHandler hs; FaaSHandlers.SecretHandler hs;
         FaaSHandlers.LogHandler hs; FaaSHandlers.ListNamespaceHandler hs]
  | controller_NewController c | ctrl_Run c _ =>
      [controller.Factory (controller.factory c)]
  | _ => []
  end.

Definition isNewFunctionFactory (e : Event) : bool :=
  match e with k8s_NewFunctionFactory _ => true | _ => false end.

(** How many times a function factory (and with it the [DeploymentConfig]
    it holds) is constructed. *)
Definition constructions (tr : list Event) : nat :=
  List.length (filter isNewFunctionFactory tr).

(** *** The two modes *)

(** Calls only the imperative controller makes. *)
Definition imperativeCall (e : Event) : bool :=
  match e with
  | k8s_NewFunctionLookup _ | make_handler _ | faasProvider_Serve _ _ => true
  | _ => false
  end.

(** Calls only the operator makes. *)
Definition reconcilerCall (e : Event) : bool :=
  match e with
  | call_setupLogging | controller_NewController _ | server_New _
  | go_srv_Start _ | ctrl_Run _ _ => true
  | _ => false
  end.

(** The handler was given the function factory [f]. *)
Definition givenFactory (h : HandlerFunc) (f : k8s.FunctionFactory) : Prop :=
  match h with
  | handlers_MakeDeployHandler _ f' | handlers_MakeUpdateHandler _ f' => f' = f
  | _ => False
  end.

(** The handler was given only a namespace and the Kubernetes client that
    the factory [f] also holds. *)
Definition givenClientOnly (h : HandlerFunc) (f : k8s.FunctionFactory) : Prop :=
  exists ns, h = handlers_MakeDeleteHandler ns (k8s.Client f).

(** The factory of the informer was created by [main]. *)
Definition fromCreatedFactory (tr : list Event) (i : cache.SharedIndexInformer)
  : Prop :=
  match i with
  | cache.OfDeployments d =>
      In (kubeinformers_NewSharedInformerFactoryWithOptions (v1apps.factory d)) tr
  | cache.OfEndpoints e =>
      In (kubeinformers_NewSharedInformerFactoryWithOptions (v1core.factory e)) tr
  | cache.OfFunctions f =>
      In (informers_NewSharedInformerFactoryWithOptions (v1.factory f)) tr
  | cache.OfProfiles p =>
      In (informers_NewSharedInformerFactoryWithOptions (v1.profileFactory p)) tr
  end.

(** The imperative controller: no reconciler call, and the served deploy,
    update and delete handlers relate to the one function factory as
    [deleteHandler] and [givenFactory] say. *)
Definition controllerMode
           (deleteHandler : HandlerFunc -> k8s.FunctionFactory -> Prop)
           (tr : list Event) : Prop :=
  Forall (fun e => reconcilerCall e = false) tr /\
  forall hs c, In (faasProvider_Serve hs c) tr ->
    exists f,
      In (k8s_NewFunctionFactory f) tr /\
      givenFactory (FaaSHandlers.DeployHandler hs) f /\
      givenFactory (FaaSHandlers.UpdateHandler hs) f /\
      deleteHandler (FaaSHandlers.DeleteHandler hs) f.

(** The operator: no imperative call, and the controller that is run is
    the one built from the factories and the function factory of [main]. *)
Definition operatorMode (tr : list Event) : Prop :=
  Forall (fun e => imperativeCall e = false) tr /\
  forall c n, In (ctrl_Run c n) tr ->
    In (controller_NewController c) tr /\
    In (k8s_NewFunctionFactory (controller.Factory (controller.factory c))) tr /\
    In (kubeinformers_NewSharedInformerFactoryWithOptions
          (controller.kubeInformerFactory c)) tr /\
    In (informers_NewSharedInformerFactoryWithOptions
          (controller.faasInformerFactory c)) tr.

(** Both modes run informers of the factories [main] created, and the
    function factory is constructed once at most: what a handler or the
    controller is given ([controllerMode], [operatorMode]) is that one
    construction. *)
Definition sharedSetup (tr : list Event) : Prop :=
  (forall i, In (go_Informer_Run i) tr -> fromCreatedFactory tr i) /\
  (constructions tr <= 1)%nat.

(** The mode that runs is the one the operator flag selects; a run that
    returns has served the handlers, or has run the controller loop with
    the Function informer started. *)
Definition dualMode (deleteHandler : HandlerFunc -> k8s.FunctionFactory -> Prop)
           (w : World) : Prop :=
  forall fl, commandLine w = FlagsOk fl ->
    (if operator fl then operatorMode (trace (main w))
     else controllerMode deleteHandler (trace (main w))) /\
    sharedSetup (trace (main w)) /\
    (outcome (main w) = Returned tt ->
     if operator fl
     then (exists c, In (ctrl_Run c 1) (trace (main w))) /\
          watches (trace (main w)) Functions
     else exists hs c, In (faasProvider_Serve hs c) (trace (main w))).

(** *** The license gate *)

(** Calls that use the cluster configuration or a cluster client. *)
Definition contactsCluster (e : Event) : bool :=
  match e with
  | clientcmd_BuildConfigFromFlags _ _ | kubernetes_NewForConfig _
  | clientset_NewForConfig _
  | kubeinformers_NewSharedInformerFactoryWithOptions _
  | informers_NewSharedInformerFactoryWithOptions _
  | k8s_NewFunctionFactory _ | go_Informer_Run _
  | cache_WaitForNamedCacheSync _ _ _ | k8s_NewFunctionLookup _
  | make_handler _ | faasProvider_Serve _ _ | controller_NewController _
  | server_New _ | go_srv_Start _ | ctrl_Run _ _ => true
  | _ => false
  end.

(** Conditions (b), (c) and (d): a license is supplied by flag or by file,
    it loads against the public key, and it lists the product. *)
Definition licensed (w : World) : Prop :=
  exists fl lic tok,
    commandLine w = FlagsOk fl /\
    (0 < len (license fl) \/ 0 < len (licenseFile fl)) /\
    (lic = license fl \/
     exists res, readFile w (licenseFile fl) = Ok res /\ lic = trimSpace w res) /\
    loadLicenseToken w lic (PublicKey w) = Ok tok /\
    hasProduct sku (licensev1.Products tok) = true.

(** The process ended before any call that contacts the cluster. *)
Definition haltedBeforeCluster (w : World) : Prop :=
  (exists x, outcome (main w) = Exited x) /\
  Forall (fun e => contactsCluster e = false) (trace (main w)).

(** Startup is gated: with [inTime] as condition (a). *)
Definition gated (inTime : time.Time -> Prop) (w : World) : Prop :=
  (inTime (now w) /\ licensed w) \/ haltedBeforeCluster w.

(** *** prometheus_port *)

Definition isDigit (c : ascii) : bool :=
  (48 <=? strconv.byte c) && (strconv.byte c <=? 57).

Fixpoint allDigits (s : string) : bool :=
  match s with
  | EmptyString => true
  | String c rest => isDigit c && allDigits rest
  end.

(** A decimal integer literal: an optional sign and one digit or more. *)
Definition isInteger (s : string) : bool :=
  match s with
  | EmptyString => false
  | String c rest =>
      if (strconv.byte c =? 43) || (strconv.byte c =? 45)
      then negb (len rest =? 0) && allDigits rest
      else allDigits s
  end.

(** *** A world for examples

    A licensed start at instant [t], in the mode [op], with the
    environment variable prometheus_port as [port] and the outcome of the
    initial cache syncs as [sync]. *)
Module Example.

Definition token : licensev1.LicenseToken :=
{| licensev1.Name := "Ada";
   licensev1.Email := "ada@example.com";
   licensev1.Products := ["openfaas-pro"];
   licensev1.Expires := time.Date 2022 time.March 1 0 0 0 0 |}.

Definition cfg (clusterRole : bool) : config.BootstrapConfig :=
{| config.HTTPProbe := true;
   config.SetNonRootUser := false;
   config.ReadinessProbeInitialDelaySeconds := 2;
   config.ReadinessProbeTimeoutSeconds := 1;
   config.ReadinessProbePeriodSeconds := 2;
   config.LivenessProbeInitialDelaySeconds := 2;
   config.LivenessProbeTimeoutSeconds := 1;
   config.LivenessProbePeriodSeconds := 2;
   config.ImagePullPolicy := "Always";
   config.ProfilesNamespace := "openfaas";
   config.DefaultFunctionNamespace := "openfaas-fn";
   config.ClusterRole := clusterRole;
   config.FaaSConfig :=
     {| providertypes.TCPPort := 8081;
        providertypes.ReadTimeout := 60 * time.Second;
        providertypes.WriteTimeout := 60 * time.Second |} |}.

Definition flags (op : bool) : Flags :=
{| kubeconfig := EmptyString;
   masterURL := EmptyString;
   license := "signed.license.token";
   licenseFile := EmptyString;
   operator := op;
   verbose := false |}.

Definition world (t : time.Time) (op clusterRole : bool) (port : option string)
         (sync : cache.SharedIndexInformer -> bool) : World :=
{| now := t;
   PublicKey := "public-key";
   commandLine := FlagsOk (flags op);
   releaseInfo := ("0a1b2c3", "0.14.2");
   buildVersion := "0.14.2";
   gitCommit := "0a1b2c3";
   readFile := fun _ => Err "open: no such file or directory";
   trimSpace := fun s => s;
   loadLicenseToken :=
     fun l _ => if String.eqb l "signed.license.token" then Ok token
                else Err "token is malformed";
   buildConfigFromFlags :=
     fun _ _ => Ok {| rest.Host := "https://10.96.0.1:443";
                      rest.QPS := 5; rest.Burst := 10 |};
   kubernetesNewForConfig := fun _ => None;
   clientsetNewForConfig := fun _ => None;
   readConfig := Ok (cfg clusterRole);
   lookupEnv :=
     fun key => if String.eqb key "prometheus_port" then port else None;
   waitForCacheSync := sync;
   controllerRun := None |}.

Definition allSync : cache.SharedIndexInformer -> bool := fun _ => true.

(** A start in 2022-01-01, before the expiry date. *)
Definition newYear : time.Time := time.Date 2022 1 1 0 0 0 0.

Definition controllerWorld : World := world newYear false false None allSync.
Definition operatorWorld : World := world newYear true true None allSync.

(** A start at the very instant of the expiry date. *)
Definition expiryInstantWorld : World :=
world (time.Date 2022 time.March 14 0 0 0 0) false false None allSync.

(** A start with prometheus_port set to digits that overflow an [int],
  followed by a letter. *)
Definition overflowPortWorld : World :=
world newYear false false (Some "99999999999999999999x") allSync.

(** A start in which the Endpoints informer never syncs. *)
Definition endpointsNeverSync (i : cache.SharedIndexInformer) : bool :=
match cache.kind i with Endpoints => false | _ => true end.

Definition unsyncedWorld : World :=
world newYear false false None endpointsNeverSync.

Definition query : k8s.PrometheusQuery :=
{| k8s.Host := "prometheus"; k8s.Port := 9090 |}.

Definition setup : serverSetup.t :=
let kube := {| kubernetes.config := {| rest.Host := "https://10.96.0.1:443";
                                       rest.QPS := 100; rest.Burst := 250 |} |} in
let faas := {| clientset.config := kubernetes.config kube |} in
let profiles :=
  {| informers.client := faas;
     informers.defaultResync := time.Minute * 5;
     informers.namespace := "openfaas" |} in
{| serverSetup.config := cfg false;
   serverSetup.kubeClient := kube;
   serverSetup.faasClient := faas;
   serverSetup.functionFactory :=
     {| k8s.Client := kube;
        k8s.Config :=
          {| k8s.RuntimeHTTPPort := 8080;
             k8s.HTTPProbe := true;
             k8s.SetNonRootUser := false;
             k8s.ReadinessProbe :=
               {| k8s.InitialDelaySeconds := 2; k8s.TimeoutSeconds := 1;
                  k8s.PeriodSeconds := 2 |};
             k8s.LivenessProbe :=
               {| k8s.InitialDelaySeconds := 2; k8s.TimeoutSeconds := 1;
                  k8s.PeriodSeconds := 2 |};
             k8s.ImagePullPolicy := "Always";
             k8s.ProfilesNamespace := "openfaas" |};
        k8s.Profiles :=
          {| v1.informer := {| v1.profileFactory := profiles |} |} |};
   serverSetup.kubeInformerFactory :=
     {| kubeinformers.client := kube;
        kubeinformers.defaultResync := time.Minute * 5;
        kubeinformers.namespace := "openfaas-fn" |};
   serverSetup.faasInformerFactory :=
     {| informers.client := faas;
        informers.defaultResync := time.Minute * 5;
        informers.namespace := "openfaas-fn" |};
   serverSetup.profileInformerFactory := profiles |}.

End Example.

(** *** Namespaces, resync interval, worker count *)

(** The scope [main] computes for the Deployment, Endpoints and Function
    informers. *)
Definition functionScope (cfg : config.BootstrapConfig) : string :=
  if config.ClusterRole cfg then EmptyString
  else config.DefaultFunctionNamespace cfg.

(** What C4 says of one recorded call, for the configuration [cfg]. *)
Definition namespaceScoped (cfg : config.BootstrapConfig) (e : Event) : Prop :=
  match e with
  | kubeinformers_NewSharedInformerFactoryWithOptions f =>
      kubeinformers.namespace f = functionScope cfg
  | go_Informer_Run i | cache_WaitForNamedCacheSync _ i _ =>
      cache.kind i <> Profiles -> cache.scope i = functionScope cfg
  | k8s_NewFunctionLookup l
  | make_handler (proxy_NewHandlerFunc _ l) =>
      k8s.DefaultNamespace l = config.DefaultFunctionNamespace cfg
  | server_New s =>
      server.cfg s = cfg /\ server.clusterRole s = config.ClusterRole cfg
  | _ => True
  end.

(** What C9 says of one recorded call: Profiles are watched in, and the
    function factory resolves them from, the profiles namespace. *)
Definition profilesScoped (cfg : config.BootstrapConfig) (e : Event) : Prop :=
  match e with
  | go_Informer_Run i | cache_WaitForNamedCacheSync _ i _ =>
      cache.kind i = Profiles -> cache.scope i = config.ProfilesNamespace cfg
  | k8s_NewFunctionFactory f =>
      cache.scope (cache.OfProfiles (v1.informer (k8s.Profiles f)))
      = config.ProfilesNamespace cfg /\
      k8s.ProfilesNamespace (k8s.Config f) = config.ProfilesNamespace cfg
  | _ => True
  end.

(** What C7 says of one recorded call: factories are created with, and
    informers run with, a resync interval of five minutes. *)
Definition resyncFiveMinutes (e : Event) : Prop :=
  match e with
  | kubeinformers_NewSharedInformerFactoryWithOptions f =>
      kubeinformers.defaultResync f = 5 * time.Minute
  | informers_NewSharedInformerFactoryWithOptions f =>
      informers.defaultResync f = 5 * time.Minute
  | go_Informer_Run i => cache.resync i = 5 * time.Minute
  | _ => True
  end.

(** *** What a run has created once it has come far enough *)

(** The configuration has been read and printed. *)
Definition configured (tr : list Event) : bool :=
  existsb (fun e => match e with config_Fprint _ => true | _ => false end) tr.

(** Some call that builds or starts a handler, the router or the
    reconciler has been made. *)
Definition wired (tr : list Event) : bool := existsb wires tr.

Definition isInformerFactory (e : Event) : bool :=
  match e with
  | kubeinformers_NewSharedInformerFactoryWithOptions _
  | informers_NewSharedInformerFactoryWithOptions _ => true
  | _ => false
  end.

(** The creations of informer factories, in their order. *)
Definition informerFactories (tr : list Event) : list Event :=
  filter isInformerFactory tr.

(** C7 of a run: three informer factories are created - for Kubernetes
    resources, for Function resources and for Profile resources - and
    each with a resync interval of five minutes. *)
Definition threeFactoriesEveryFiveMinutes (tr : list Event) : Prop :=
  exists kube faas profile,
    informerFactories tr
    = [kubeinformers_NewSharedInformerFactoryWithOptions kube;
       informers_NewSharedInformerFactoryWithOptions faas;
       informers_NewSharedInformerFactoryWithOptions profile] /\
    kubeinformers.defaultResync kube = 5 * time.Minute /\
    informers.defaultResync faas = 5 * time.Minute /\
    informers.defaultResync profile = 5 * time.Minute.

(** C4 of a run that has read the configuration: the kube and the
    Function informer factory are created with the scope. *)
Definition scopedFactories (cfg : config.BootstrapConfig) (tr : list Event)
  : Prop :=
  exists kube faas,
    In (kubeinformers_NewSharedInformerFactoryWithOptions kube) tr /\
    In (informers_NewSharedInformerFactoryWithOptions faas) tr /\
    kubeinformers.namespace kube = functionScope cfg /\
    informers.namespace faas = functionScope cfg.

(** C4 of a run that has got to the wiring: the Deployment and Endpoints
    informers of the kube factory - and in operator mode the Function
    informer of the Function factory - are started with the scope, and
    in controller mode the function lookup is constructed with the
    default function namespace. *)
Definition scopedCaches (cfg : config.BootstrapConfig) (op : bool)
           (tr : list Event) : Prop :=
  exists kube faas,
    In (kubeinformers_NewSharedInformerFactoryWithOptions kube) tr /\
    In (informers_NewSharedInformerFactoryWithOptions faas) tr /\
    kubeinformers.namespace kube = functionScope cfg /\
    informers.namespace faas = functionScope cfg /\
    In (go_Informer_Run (cache.OfDeployments {| v1apps.factory := kube |})) tr /\
    In (go_Informer_Run (cache.OfEndpoints {| v1core.factory := kube |})) tr /\
    if op
    then In (go_Informer_Run (cache.OfFunctions {| v1.factory := faas |})) tr
    else exists l,
        In (k8s_NewFunctionLookup l) tr /\
        k8s.DefaultNamespace l = config.DefaultFunctionNamespace cfg.

(** C9 of a run that has read the configuration: the Profile informer
    factory is created for the profiles namespace, and the function
    factory is constructed with a Profile lister of that factory. *)
Definition profileFactoryCreated (cfg : config.BootstrapConfig)
           (tr : list Event) : Prop :=
  exists profile f,
    In (informers_NewSharedInformerFactoryWithOptions profile) tr /\
    informers.namespace profile = config.ProfilesNamespace cfg /\
    In (k8s_NewFunctionFactory f) tr /\
    v1.profileFactory (v1.informer (k8s.Profiles f)) = profile.

(** C9 of a run that has got to the wiring: the Profile informer of that
    factory is started and its cache has synced. *)
Definition profilesMirrored (cfg : config.BootstrapConfig) (tr : list Event)
  : Prop :=
  exists profile,
    In (informers_NewSharedInformerFactoryWithOptions profile) tr /\
    informers.namespace profile = config.ProfilesNamespace cfg /\
    In (go_Informer_Run
          (cache.OfProfiles {| v1.profileFactory := profile |})) tr /\
    In (cache_WaitForNamedCacheSync "faas-netes:profiles"
          (cache.OfProfiles {| v1.profileFactory := profile |}) true) tr.

(** C5 as stated: the worker count handed to [Run] depends on the world
    (its configuration, flags or environment). *)
Definition workersConfigurable : Prop :=
  exists w1 w2 c1 c2 n1 n2,
    In (ctrl_Run c1 n1) (trace (main w1)) /\
    In (ctrl_Run c2 n2) (trace (main w2)) /\ n1 <> n2.

(** The [DeploymentConfig] that [main] builds from the configuration. *)
Definition deployConfigOf (cfg : config.BootstrapConfig) : k8s.DeploymentConfig :=
  {| k8s.RuntimeHTTPPort := 8080;
     k8s.HTTPProbe := config.HTTPProbe cfg;
     k8s.SetNonRootUser := config.SetNonRootUser cfg;
     k8s.ReadinessProbe :=
       {| k8s.InitialDelaySeconds :=
            int32 (config.ReadinessProbeInitialDelaySeconds cfg);
          k8s.TimeoutSeconds := int32 (config.ReadinessProbeTimeoutSeconds cfg);
          k8s.PeriodSeconds := int32 (config.ReadinessProbePeriodSeconds cfg) |};
     k8s.LivenessProbe :=
       {| k8s.InitialDelaySeconds :=
            int32 (config.LivenessProbeInitialDelaySeconds cfg);
          k8s.TimeoutSeconds := int32 (config.LivenessProbeTimeoutSeconds cfg);
          k8s.PeriodSeconds := int32 (config.LivenessProbePeriodSeconds cfg) |};
     k8s.ImagePullPolicy := config.ImagePullPolicy cfg;
     k8s.ProfilesNamespace := config.ProfilesNamespace cfg |}.

(** *** The claims as they are stated, where the code differs *)

(** C1 as stated: whenever [startInformers] returns, all four kinds are
    mirrored, in either mode. *)
Definition allKindsMirrored (w : World) (setup : serverSetup.t) (op : bool)
  : Prop :=
  forall ci, outcome (startInformers w setup op) = Returned ci ->
    forall k, mirrors (trace (startInformers w setup op)) k.

(** C8 as stated: condition (a) is "the current time is before the date". *)
Definition beforeExpiry (t : time.Time) : Prop :=
  t < time.Date 2022 time.March 14 0 0 0 0.

(** What the code checks: the current time is not after the date. *)
Definition notAfterExpiry (t : time.Time) : Prop :=
  t <= time.Date 2022 time.March 14 0 0 0 0.

(** C10 as stated, for the metrics client [q] of a run in [w]. *)
Definition invalidPortGivesZero (w : World) : Prop :=
  forall q v,
    In (k8s_NewPrometheusQuery q) (trace (main w)) ->
    lookupEnv w "prometheus_port" = Some v ->
    v <> EmptyString -> isInteger v = false ->
    k8s.Port q = 0.

(** What the code does with the two environment variables. *)
Definition metricsClientFromEnv (w : World) (q : k8s.PrometheusQuery) : Prop :=
  (match lookupEnv w "prometheus_host" with
   | None => k8s.Host q = "prometheus"
   | Some v => if len v =? 0 then k8s.Host q = "prometheus" else k8s.Host q = v
   end) /\
  (match lookupEnv w "prometheus_port" with
   | None => k8s.Port q = 9090
   | Some v =>
       if len v =? 0 then k8s.Port q = 9090
       else
         k8s.Port q = fst (strconv.Atoi v) /\
         (snd (strconv.Atoi v) = Some strconv.ErrSyntax -> k8s.Port q = 0) /\
         (snd (strconv.Atoi v) = Some strconv.ErrRange ->
          k8s.Port q = 2 ^ 63 - 1 \/ k8s.Port q = - 2 ^ 63) /\
         (isInteger v = false -> len v < 19 -> k8s.Port q = 0)
   end).
(* ================================================================= *)
(** ** Vocabulary for the rest of main.go *)

(** *** The license that is verified *)

(** The license [main] hands to the license library: the trimmed content
    of the license file where --license-file is given, the value of
    --license otherwise. *)
Definition effectiveLicense (w : World) (fl : Flags) : result string :=
  if 0 <? len (licenseFile fl) then
    match readFile w (licenseFile fl) with
    | Ok res => Ok (trimSpace w res)
    | Err err => Err err
    end
  else Ok (license fl).

(** The calls [main] has made when it reads the license file. *)
Definition untilLicenseFile (w : World) (fl : Flags) : list Event :=
  [flag_Parse;
   log_Printf "Public key: %s" [str (PublicKey w)];
   log_Printf "Version: %s\tcommit: %s\n"
              [str (snd (releaseInfo w)); str (fst (releaseInfo w))];
   ioutil_ReadFile (licenseFile fl)].

(** *** Worlds for the examples of this part

    A start before the expiry date whose answers are given one by one. *)
Module Scenario.

Definition flags (lic file : string) (op : bool) : Flags :=
{| kubeconfig := "/home/ada/.kube/config";
   masterURL := "https://10.96.0.1:443";
   license := lic;
   licenseFile := file;
   operator := op;
   verbose := true |}.

Definition restConfig : rest.Config :=
{| rest.Host := "https://10.96.0.1:443"; rest.QPS := 5; rest.Burst := 10 |}.

Definition world (fl : ParsedFlags) (file : result string)
         (token : result licensev1.LicenseToken)
         (kubeErr faasErr : option string)
         (conf : result config.BootstrapConfig)
         (env : string -> option string)
         (sync : cache.SharedIndexInformer -> bool)
         (run : option string) : World :=
{| now := Example.newYear;
   PublicKey := "public-key";
   commandLine := fl;
   releaseInfo := ("0a1b2c3", "0.14.2");
   buildVersion := "0.14.2";
   gitCommit := "0a1b2c3";
   readFile := fun _ => file;
   trimSpace := fun s => if String.eqb s "   " then EmptyString else s;
   loadLicenseToken := fun _ _ => token;
   buildConfigFromFlags := fun _ _ => Ok restConfig;
   kubernetesNewForConfig := fun _ => kubeErr;
   clientsetNewForConfig := fun _ => faasErr;
   readConfig := conf;
   lookupEnv := env;
   waitForCacheSync := sync;
   controllerRun := run |}.

Definition noEnv : string -> option string := fun _ => None.

(** Both --license and --license-file are given. *)
Definition bothFlags (op : bool) : ParsedFlags :=
FlagsOk (flags "literal.license" "/var/secrets/license" op).

Definition licenseOnly (op : bool) : ParsedFlags :=
FlagsOk (flags "literal.license" EmptyString op).

(** The license file cannot be read. *)
Definition unreadableFile : World :=
world (bothFlags false) (Err "open /var/secrets/license: permission denied")
      (Ok Example.token) None None (Ok (Example.cfg false)) noEnv
      Example.allSync None.

(** The license file holds blanks only. *)
Definition blankFile : World :=
world (bothFlags false) (Ok "   ")
      (Ok Example.token) None None (Ok (Example.cfg false)) noEnv
      Example.allSync None.

(** The license file holds a license. *)
Definition fileLicense (op : bool) : World :=
world (bothFlags op) (Ok "license.from.file")
      (Ok Example.token) None None (Ok (Example.cfg false)) noEnv
      Example.allSync None.

(** The license library rejects the license. *)
Definition rejectedLicense : World :=
world (licenseOnly false) (Err "no file") (Err "token is expired")
      None None (Ok (Example.cfg false)) noEnv Example.allSync None.

(** The license is for another product. *)
Definition otherProduct : World :=
world (licenseOnly false) (Err "no file")
      (Ok {| licensev1.Name := "Ada";
             licensev1.Email := "ada@example.com";
             licensev1.Products := ["inlets-pro"];
             licensev1.Expires := time.Date 2022 time.March 1 0 0 0 0 |})
      None None (Ok (Example.cfg false)) noEnv Example.allSync None.

(** The Kubernetes client cannot be built. *)
Definition noKubeClient : World :=
world (licenseOnly true) (Err "no file") (Ok Example.token)
      (Some "invalid configuration: no server found") None
      (Ok (Example.cfg false)) noEnv Example.allSync None.

(** A readiness delay of 2^32 + 5 seconds. *)
Definition longDelay : config.BootstrapConfig :=
{| config.HTTPProbe := true;
   config.SetNonRootUser := false;
   config.ReadinessProbeInitialDelaySeconds := 4294967301;
   config.ReadinessProbeTimeoutSeconds := 1;
   config.ReadinessProbePeriodSeconds := 2;
   config.LivenessProbeInitialDelaySeconds := 2;
   config.LivenessProbeTimeoutSeconds := 1;
   config.LivenessProbePeriodSeconds := 2;
   config.ImagePullPolicy := "Always";
   config.ProfilesNamespace := "openfaas";
   config.DefaultFunctionNamespace := "openfaas-fn";
   config.ClusterRole := false;
   config.FaaSConfig :=
     {| providertypes.TCPPort := 8081;
        providertypes.ReadTimeout := 60 * time.Second;
        providertypes.WriteTimeout := 60 * time.Second |} |}.

Definition longDelayWorld : World :=
world (licenseOnly false) (Err "no file") (Ok Example.token) None None
      (Ok longDelay) noEnv Example.allSync None.

End Scenario.

(** *** The cluster clients *)








(** The handlers of a [FaaSHandlers] value, in the order of its fields. *)
Definition handlersOf (hs : FaaSHandlers.t) : list HandlerFunc :=
  [FaaSHandlers.FunctionProxy hs; FaaSHandlers.DeleteHandler hs;
   FaaSHandlers.DeployHandler hs; FaaSHandlers.FunctionReader hs;
   FaaSHandlers.ReplicaReader hs; FaaSHandlers.ReplicaUpdater hs;
   FaaSHandlers.UpdateHandler hs; FaaSHandlers.HealthHandler hs;
   FaaSHandlers.InfoHandler hs; FaaSHandlers.SecretHandler hs;
   FaaSHandlers.LogHandler hs; FaaSHandlers.ListNamespaceHandler hs].





(** *** Calls that fail *)

(** How [main] ends the process when the call [e] has failed in [w]. *)
Definition failure (w : World) (e : Event) : option Exit :=
  match e with
  | flag_Parse =>
      match commandLine w with
      | FlagsExit code => Some (os_Exit code)
      | FlagsOk _ => None
      end
  | ioutil_ReadFile path =>
      match readFile w path with
      | Err err => Some (panic (text err))
      | Ok _ => None
      end
  | clientcmd_BuildConfigFromFlags m k =>
      match buildConfigFromFlags w m k with
      | Err err => Some (log_Fatalf "Error building kubeconfig: %s" [str err])
      | Ok _ => None
      end
  | kubernetes_NewForConfig c =>
      match kubernetesNewForConfig w c with
      | Some err =>
          Some (log_Fatalf "Error building Kubernetes clientset: %s" [str err])
      | None => None
      end
  | clientset_NewForConfig c =>
      match clientsetNewForConfig w c with
      | Some err =>
          Some (log_Fatalf "Error building OpenFaaS clientset: %s" [str err])
      | None => None
      end
  | config_Read =>
      match readConfig w with
      | Err err => Some (log_Fatalf "Error reading config: %s" [str err])
      | Ok _ => None
      end
  | cache_WaitForNamedCacheSync _ _ false =>
      Some (log_Fatalf "failed to wait for cache to sync" [])
  | ctrl_Run _ _ =>
      match controllerRun w with
      | Some err => Some (glog_Fatalf "Error running controller: %s" [str err])
      | None => None
      end
  | _ => None
  end.

(** No call of [tr] but the last has failed, and if the last has, the
    process ended as [failure] says. *)
Fixpoint failsLast (w : World) (out : Outcome unit) (tr : list Event) : Prop :=
  match tr with
  | [] => True
  | [e] => forall x, failure w e = Some x -> out = Exited x
  | e :: tr' => failure w e = None /\ failsLast w out tr'
  end.

(** *** Probe timings *)

Definition inInt32 (x : Z) : Prop := - 2 ^ 31 <= x < 2 ^ 31.

(** The six probe timings of the configuration, and of a
    [DeploymentConfig], in the same order. *)
Definition configuredTimings (cfg : config.BootstrapConfig) : list Z :=
  [config.ReadinessProbeInitialDelaySeconds cfg;
   config.ReadinessProbeTimeoutSeconds cfg;
   config.ReadinessProbePeriodSeconds cfg;
   config.LivenessProbeInitialDelaySeconds cfg;
   config.LivenessProbeTimeoutSeconds cfg;
   config.LivenessProbePeriodSeconds cfg].

Definition probeTimings (d : k8s.DeploymentConfig) : list Z :=
  [k8s.InitialDelaySeconds (k8s.ReadinessProbe d);
   k8s.TimeoutSeconds (k8s.ReadinessProbe d);
   k8s.PeriodSeconds (k8s.ReadinessProbe d);
   k8s.InitialDelaySeconds (k8s.LivenessProbe d);
   k8s.TimeoutSeconds (k8s.LivenessProbe d);
   k8s.PeriodSeconds (k8s.LivenessProbe d)].

(** [set] is the configured value [conf] brought into the int32 range. *)
Definition narrowed (conf set : Z) : Prop :=
  inInt32 set /\ (exists k, set = conf + k * 2 ^ 32) /\
  (inInt32 conf -> set = conf).

(** *** The metrics client in use *)

Definition queriesOfHandler (h : HandlerFunc) : list k8s.PrometheusQuery :=
  match h with
  | handlers_MakeReplicaReader _ _ q => [q]
  | _ => []
  end.

(** The metrics clients a call hands on: to the replica reader, alone or
    among the served handlers, and to the operator's server. *)
Definition queriesOf (e : Event) : list k8s.PrometheusQuery :=
  match e with
  | make_handler h => queriesOfHandler h
  | faasProvider_Serve hs _ => flat_map queriesOfHandler (handlersOf hs)
  | server_New s | go_srv_Start s => [server.query s]
  | _ => []
  end.

Definition isNewPrometheusQuery (e : Event) : bool :=
  match e with k8s_NewPrometheusQuery _ => true | _ => false end.

(** How many times a metrics client is constructed. *)
Definition queryConstructions (tr : list Event) : nat :=
  List.length (filter isNewPrometheusQuery tr).

(** *** The informers of startInformers *)


(** The informers that are started, in the order of their start. *)
Definition informersRun (tr : list Event) : list cache.SharedIndexInformer :=
  flat_map (fun e => match e with
                     | go_Informer_Run i => [i]
                     | _ => []
                     end) tr.

(** The informers [startInformers] starts from the factories of the
    setup, in its order. *)
Definition informersOfSetup (setup : serverSetup.t) (operator : bool)
  : list cache.SharedIndexInformer :=
  ((if operator
    then [cache.OfFunctions
            {| v1.factory := serverSetup.faasInformerFactory setup |}]
    else [])
   ++ [cache.OfDeployments
         {| v1apps.factory := serverSetup.kubeInformerFactory setup |};
       cache.OfEndpoints
         {| v1core.factory := serverSetup.kubeInformerFactory setup |};
       cache.OfProfiles
         {| v1.profileFactory := serverSetup.profileInformerFactory setup |}])%list.

(** The informers among the returned [customInformers]. *)
Definition informersReturned (ci : customInformers)
  : list cache.SharedIndexInformer :=
  (match FunctionsInformer ci with
   | Some f => [cache.OfFunctions f]
   | None => []
   end
   ++ [cache.OfDeployments (DeploymentInformer ci);
       cache.OfEndpoints (EndpointsInformer ci)])%list.

(** *** The handlers that are served *)

(** The constructor a handler was made by. *)
Definition constructorOf (h : HandlerFunc) : string :=
  match h with
  | proxy_NewHandlerFunc _ _ => "proxy.NewHandlerFunc"
  | handlers_MakeDeleteHandler _ _ => "handlers.MakeDeleteHandler"
  | handlers_MakeDeployHandler _ _ => "handlers.MakeDeployHandler"
  | handlers_MakeFunctionReader _ _ => "handlers.MakeFunctionReader"
  | handlers_MakeReplicaReader _ _ _ => "handlers.MakeReplicaReader"
  | handlers_MakeReplicaUpdater _ _ => "handlers.MakeReplicaUpdater"
  | handlers_MakeUpdateHandler _ _ => "handlers.MakeUpdateHandler"
  | handlers_MakeHealthHandler => "handlers.MakeHealthHandler"
  | handlers_MakeInfoHandler _ _ => "handlers.MakeInfoHandler"
  | handlers_MakeSecretHandler _ _ => "handlers.MakeSecretHandler"
  | logs_NewLogHandlerFunc _ _ => "logs.NewLogHandlerFunc"
  | handlers_MakeNamespacesLister _ _ _ => "handlers.MakeNamespacesLister"
  end.

(** The namespaces a handler is made with. *)
Definition namespacesOf (h : HandlerFunc) : list string :=
  match h with
  | proxy_NewHandlerFunc _ l => [k8s.DefaultNamespace l]
  | handlers_MakeDeleteHandler ns _ | handlers_MakeDeployHandler ns _
  | handlers_MakeFunctionReader ns _ | handlers_MakeReplicaReader ns _ _
  | handlers_MakeReplicaUpdater ns _ | handlers_MakeUpdateHandler ns _
  | handlers_MakeSecretHandler ns _ | handlers_MakeNamespacesLister ns _ _ =>
      [ns]
  | logs_NewLogHandlerFunc r _ => [k8s.functionNamespace r]
  | handlers_MakeHealthHandler | handlers_MakeInfoHandler _ _ => []
  end.

(** What the served handlers and the provider's configuration are, for
    the configuration [cfg]: each field holds a handler of its own
    constructor, every handler that takes a namespace has the default
    function namespace, the namespace lister knows the cluster role, the
    log handler has the write timeout, and the provider is configured by
    the FaaSConfig of [cfg]. *)
Definition servedFor (cfg : config.BootstrapConfig) (hs : FaaSHandlers.t)
           (c : providertypes.FaaSConfig) : Prop :=
  map constructorOf (handlersOf hs)
  = ["proxy.NewHandlerFunc"; "handlers.MakeDeleteHandler";
     "handlers.MakeDeployHandler"; "handlers.MakeFunctionReader";
     "handlers.MakeReplicaReader"; "handlers.MakeReplicaUpdater";
     "handlers.MakeUpdateHandler"; "handlers.MakeHealthHandler";
     "handlers.MakeInfoHandler"; "handlers.MakeSecretHandler";
     "logs.NewLogHandlerFunc"; "handlers.MakeNamespacesLister"] /\
  Forall (fun ns => ns = config.DefaultFunctionNamespace cfg)
         (flat_map namespacesOf (handlersOf hs)) /\
  (forall ns role kc,
     FaaSHandlers.ListNamespaceHandler hs
     = handlers_MakeNamespacesLister ns role kc ->
     role = config.ClusterRole cfg) /\
  (forall r t, FaaSHandlers.LogHandler hs = logs_NewLogHandlerFunc r t ->
     t = providertypes.WriteTimeout (config.FaaSConfig cfg)) /\
  (forall c' l, FaaSHandlers.FunctionProxy hs = proxy_NewHandlerFunc c' l ->
     c' = config.FaaSConfig cfg) /\
  c = config.FaaSConfig cfg.

(** *** The caches behind the handlers *)

Definition informersOfHandler (h : HandlerFunc)
  : list cache.SharedIndexInformer :=
  match h with
  | proxy_NewHandlerFunc _ l =>
      [cache.OfEndpoints (v1core.informer (k8s.EndpointLister l))]
  | handlers_MakeFunctionReader _ l | handlers_MakeReplicaReader _ l _ =>
      [cache.OfDeployments (v1apps.informer l)]
  | handlers_MakeDeployHandler _ f | handlers_MakeUpdateHandler _ f =>
      [cache.OfProfiles (v1.informer (k8s.Profiles f))]
  | _ => []
  end.

(** The informers whose caches a lookup, a handler, the controller's
    function factory or the server reads, through the listers and
    informers the call is given. *)
Definition informersReadBy (e : Event) : list cache.SharedIndexInformer :=
  match e with
  | k8s_NewFunctionLookup l =>
      [cache.OfEndpoints (v1core.informer (k8s.EndpointLister l))]
  | make_handler h => informersOfHandler h
  | faasProvider_Serve hs _ => flat_map informersOfHandler (handlersOf hs)
  | controller_NewController c | ctrl_Run c _ =>
      [cache.OfProfiles
         (v1.informer (k8s.Profiles (controller.Factory (controller.factory c))))]
  | server_New s | go_srv_Start s =>
      [cache.OfEndpoints (server.endpointsInformer s);
       cache.OfDeployments (v1apps.informer (server.deploymentLister s))]
  | _ => []
  end.

(** *** The end of startup *)

(** The last call of a run that has started its mode. *)
Definition startedMode (fl : Flags) (cfg : config.BootstrapConfig)
           (tr : list Event) : Prop :=
  if operator fl
  then exists c, last tr flag_Parse = ctrl_Run c 1
  else exists hs, last tr flag_Parse
                  = faasProvider_Serve hs (config.FaaSConfig cfg).

(** The operator has built the controller [c] and then a server, has
    started that server and then run [c]: these are its last four calls.
    The server holds the clients of the controller and reads the caches
    of the controller's kube informer factory. *)
Definition operatorStarted (c : controller.Controller) (tr : list Event) : Prop :=
  exists pre s,
    tr = (pre ++ [controller_NewController c; server_New s;
                  go_srv_Start s; ctrl_Run c 1])%list /\
    server.kube s = controller.kubeclientset c /\
    server.client s = controller.faasclientset c /\
    v1core.factory (server.endpointsInformer s)
    = controller.kubeInformerFactory c /\
    v1apps.factory (v1apps.informer (server.deploymentLister s))
    = controller.kubeInformerFactory c.

Definition isSetupSignalHandler (e : Event) : bool :=
  match e with signals_SetupSignalHandler => true | _ => false end.

(** How many times the signal handler is set up. *)
Definition signalHandlers (tr : list Event) : nat :=
  List.length (filter isSetupSignalHandler tr).

(** *** Decimal numerals *)

(** The decimal digits of a natural number [n] before [acc], the most
    significant first; [fuel] bounds their number. *)
Fixpoint decimalDigits (fuel : nat) (n : Z) (acc : string) : string :=
  match fuel with
  | O => acc
  | S fuel' =>
      let acc' := String (ascii_of_N (Z.to_N (48 + n mod 10))) acc in
      if n <? 10 then acc' else decimalDigits fuel' (n / 10) acc'
  end.

(** The decimal numeral of an integer of at most 17 digits, with a minus
    sign when it is negative. *)
Definition decimal (z : Z) : string :=
  if z <? 0 then String "-" (decimalDigits 17 (- z) EmptyString)
  else decimalDigits 17 z EmptyString.

(* ================================================================= *)
(** ** setupLogging *)

(** The fragment of package [flag] that setupLogging uses, after the Go
    sources (flag/flag.go).  A flag set holds its flags by name: [formal]
    is a map in Go and here the list of its entries, in which a name
    occurs once.  A flag's value is bound to variables of the program -
    it holds pointers to them - and two flags may be bound to the same
    variable; [H] is the state of those variables. *)
Module flag.

(** The interface [flag.Value]: [String()] reads the state, [Set(s)]
    changes it - whatever the value is bound to - and returns an error
    or none. *)
Record Value (H : Type) := {
  valueString : H -> string;
  valueSet : string -> H -> H * option string
}.
Arguments valueString {H} v h.
Arguments valueSet {H} v s h.

Record Flag (H : Type) := { Name : string; value : Value H }.
Arguments Name {H} f.
Arguments value {H} f.

Definition FlagSet (H : Type) : Type := list (Flag H).

Section FlagSets.

Context {H : Type}.

(** [f.formal[name]]: nil when there is no such flag. *)
Fixpoint Lookup (f : FlagSet H) (name : string) : option (Flag H) :=
  match f with
  | [] => None
  | fl :: f' =>
      if String.eqb (Name fl) name then Some fl else Lookup f' name
  end.

Fixpoint insertByName (fl : Flag H) (sorted : list (Flag H))
  : list (Flag H) :=
  match sorted with
  | [] => [fl]
  | g :: rest =>
      if String.leb (Name fl) (Name g) then fl :: sorted
      else g :: insertByName fl rest
  end.

(** [sortFlags]: the flags in lexicographical order of their names. *)
Definition sortFlags (formal : FlagSet H) : list (Flag H) :=
  fold_right insertByName [] formal.

(** [f.VisitAll(fn)]: [fn] is called for every flag, in that order;
    [fn] changes the state. *)
Definition VisitAll (f : FlagSet H) (fn : Flag H -> H -> H) (h : H) : H :=
  fold_left (fun h fl => fn fl h) (sortFlags f) h.

End FlagSets.

(** Variables of the kinds main.go and the logging packages bind flags
    to, by name, and what they hold. *)
Inductive builtin :=
| stringValue (s : string)
| boolValue (b : bool).

Definition Memory : Type := string -> builtin.

(** [*p = v]. *)
Definition assign (m : Memory) (p : string) (v : builtin) : Memory :=
  fun q => if String.eqb p q then v else m q.

(** [strconv.ParseBool]. *)
Definition ParseBool (s : string) : option bool :=
  if existsb (String.eqb s) ["1"; "t"; "T"; "TRUE"; "true"; "True"]
  then Some true
  else if existsb (String.eqb s) ["0"; "f"; "F"; "FALSE"; "false"; "False"]
       then Some false
       else None.

(** The value of [StringVar(&p, ...)]: a pointer to the string [p]. *)
Definition stringVar (p : string) : Value Memory :=
  {| valueString m :=
       match m p with stringValue s => s | boolValue _ => EmptyString end;
     valueSet s m := (assign m p (stringValue s), None) |}.

(** The value of [BoolVar(&p, ...)]: a pointer to the bool [p].  [Set]
    stores what ParseBool gives, false next to a parse error. *)
Definition boolVar (p : string) : Value Memory :=
  {| valueString m :=
       match m p with
       | boolValue b => if b then "true" else "false"
       | stringValue _ => EmptyString
       end;
     valueSet s m :=
       match ParseBool s with
       | Some b => (assign m p (boolValue b), None)
       | None => (assign m p (boolValue false), Some "parse error")
       end |}.

End flag.

Section SetupLogging.

Context {H : Type}.

(** What the function literal of setupLogging does for the flag [f1] of
    the command line, in the state [h]: the error of [Set] is dropped. *)
Definition syncFlag (klogFlags : flag.FlagSet H) (f1 : flag.Flag H) (h : H)
  : H :=
  match flag.Lookup klogFlags (flag.Name f1) with
  | Some f2 =>
      let value := flag.valueString (flag.value f1) h in
      let '(h', _) := flag.valueSet (flag.value f2) value h in
      h'
  | None => h
  end.

(** [setupLogging]: [CommandLine] is flag.CommandLine, [InitFlags] the
    new flag set "klog" once glog.InitFlags has registered the logging
    flags in it, and [h] the state of the program's variables then; the
    result is their state after the sync. *)
Definition setupLogging (CommandLine InitFlags : flag.FlagSet H) (h : H) : H :=
  let klogFlags := InitFlags in
  flag.VisitAll CommandLine (syncFlag klogFlags) h.

(** The state after [f2.Value.Set(f1.Value.String())] in the state [h]. *)
Definition setFrom (f1 f2 : flag.Flag H) (h : H) : H :=
  fst (flag.valueSet (flag.value f2)
         (flag.valueString (flag.value f1) h) h).

(** Every sync that setupLogging can make - of a flag of the command
    line with the logging flag of its name - keeps [P]. *)
Definition keptBySyncs (CommandLine klogFlags : flag.FlagSet H)
           (P : H -> Prop) : Prop :=
  forall f1 f2 h,
    In f1 CommandLine ->
    flag.Lookup klogFlags (flag.Name f1) = Some f2 ->
    P h -> P (setFrom f1 f2 h).

End SetupLogging.

Module Logging.

(** The flags main.go defines, with the variables they are bound to. *)
Definition ownFlags : flag.FlagSet flag.Memory :=
[ {| flag.Name := "kubeconfig"; flag.value := flag.stringVar "kubeconfig" |};
  {| flag.Name := "verbose"; flag.value := flag.boolVar "verbose" |};
  {| flag.Name := "master"; flag.value := flag.stringVar "masterURL" |};
  {| flag.Name := "operator"; flag.value := flag.boolVar "operator" |};
  {| flag.Name := "license"; flag.value := flag.stringVar "license" |};
  {| flag.Name := "license-file"; flag.value := flag.stringVar "licenseFile" |} ].

(** A command line on which another package has defined logging flags
    of its own. *)
Definition withLoggingFlags : flag.FlagSet flag.Memory :=
({| flag.Name := "add_dir_header";
    flag.value := flag.boolVar "cli.addDirHeader" |}
 :: {| flag.Name := "log_dir"; flag.value := flag.stringVar "cli.logDir" |}
 :: ownFlags).

(** Logging flags as klog v1.0.0 registers them: add_dir_header and
    skip_headers are bound to one variable. *)
Definition klogFlags : flag.FlagSet flag.Memory :=
[ {| flag.Name := "log_dir"; flag.value := flag.stringVar "logging.logDir" |};
  {| flag.Name := "log_file"; flag.value := flag.stringVar "logging.logFile" |};
  {| flag.Name := "logtostderr"; flag.value := flag.boolVar "logging.toStderr" |};
  {| flag.Name := "add_dir_header";
     flag.value := flag.boolVar "logging.skipHeaders" |};
  {| flag.Name := "skip_headers";
     flag.value := flag.boolVar "logging.skipHeaders" |} ].

(** The variables once the command line
    [--operator --license-file /var/secrets/license -add_dir_header
     -log_dir=/var/log] has been parsed. *)
Definition parsed : flag.Memory :=
fun p =>
  if String.eqb p "operator" then flag.boolValue true
  else if String.eqb p "verbose" then flag.boolValue false
  else if String.eqb p "licenseFile"
       then flag.stringValue "/var/secrets/license"
  else if String.eqb p "cli.addDirHeader" then flag.boolValue true
  else if String.eqb p "cli.logDir" then flag.stringValue "/var/log"
  else if String.eqb p "logging.toStderr" then flag.boolValue true
  else if String.eqb p "logging.skipHeaders" then flag.boolValue false
  else flag.stringValue EmptyString.

End Logging.

(* ================================================================= *)
(** ** The program logic

    The rules follow the syntax of a process: a bind is re-associated
    until it starts with a call, a return or an exit, and a branch is
    settled by case analysis on what the world answers.  Two uses: with
    one invariant of the history kept throughout ([invariant]), and with
    the exact history, which gives one goal per path of the process
    ([all_runs]). *)

Lemma bind_assoc {A B C} (p : Proc A) (f : A -> Proc B) (g : B -> Proc C) :
  bind (bind p f) g = bind p (fun x => bind (f x) g).
Proof.
  destruct p as [tr [a | x]]; simpl; [| reflexivity].
  destruct (f a) as [tr' [b | x]]; simpl; [| reflexivity].
  destruct (g b) as [tr'' o]. now rewrite app_assoc.
Qed.

Lemma bind_ret_l {A B} (a : A) (k : A -> Proc B) : bind (ret a) k = k a.
Proof. unfold bind, ret. now destruct (k a). Qed.

Lemma bind_call {B} (e : Event) (k : unit -> Proc B) :
  bind (call e) k = (e :: trace (k tt), outcome (k tt)).
Proof. unfold bind, call. now destruct (k tt). Qed.

Section Rules.

Context {A B : Type}.
Variable I : list Event -> Prop.
Variable R : B -> list Event -> Prop.
Variable Q : Exit -> list Event -> Prop.

Lemma ex_assoc {C} (p : Proc C) (f : C -> Proc A) (g : A -> Proc B) :
  triple I (bind p (fun x => bind (f x) g)) R Q ->
  triple I (bind (bind p f) g) R Q.
Proof. now rewrite bind_assoc. Qed.

Lemma ex_ret (a : A) (k : A -> Proc B) :
  triple I (k a) R Q -> triple I (bind (ret a) k) R Q.
Proof. now rewrite bind_ret_l. Qed.

Lemma ex_exit (x : Exit) (k : A -> Proc B) :
  (forall h, I h -> Q x h) -> triple I (bind (exit x) k) R Q.
Proof. intros H h Hh. simpl. rewrite app_nil_r. auto. Qed.

(** A call moves the history on; what is known of it becomes [M]. *)
Lemma ex_call (M : list Event -> Prop) (e : Event) (k : unit -> Proc B) :
  (forall h, I h -> M (h ++ [e])%list) ->
  triple M (k tt) R Q ->
  triple I (bind (call e) k) R Q.
Proof.
  intros HM Hk h Hh. rewrite bind_call. simpl.
  specialize (Hk _ (HM h Hh)).
  now rewrite <- app_assoc in Hk.
Qed.

Lemma end_ret (b : B) : (forall h, I h -> R b h) -> triple I (ret b) R Q.
Proof. intros H h Hh. simpl. rewrite app_nil_r. auto. Qed.

Lemma end_exit (x : Exit) :
  (forall h, I h -> Q x h) -> triple I (exit x : Proc B) R Q.
Proof. intros H h Hh. simpl. rewrite app_nil_r. auto. Qed.

End Rules.

Lemma end_call I (e : Event) R Q :
  (forall h, I h -> R tt (h ++ [e])%list) -> triple I (call e) R Q.
Proof. intros H h Hh. simpl. auto. Qed.

(** A process run from the empty history. *)
Lemma triple_run {A} (I : list Event -> Prop) (p : Proc A) R Q :
  triple I p R Q -> I [] ->
  match outcome p with
  | Returned a => R a (trace p)
  | Exited x => Q x (trace p)
  end.
Proof. intros H H0. exact (H [] H0). Qed.

(** What holds on every path of [p] holds of its outcome and trace. *)
Lemma run_spec {A} (p : Proc A) (F : Outcome A -> list Event -> Prop) :
  triple (fun h => h = rev []) p
         (fun a h => F (Returned a) h) (fun x h => F (Exited x) h) ->
  F (outcome p) (trace p).
Proof.
  intros H. pose proof (triple_run _ _ _ _ H eq_refl) as H1.
  destruct (outcome p); exact H1.
Qed.

(** An invariant of the calls holds of the whole trace. *)
Lemma run_inv {A} (p : Proc A) (P : Event -> Prop) :
  triple (Forall P) p (fun _ => Forall P) (fun _ => Forall P) ->
  Forall P (trace p).
Proof.
  intros H. pose proof (triple_run _ _ _ _ H (Forall_nil _)) as H1.
  destruct (outcome p); exact H1.
Qed.

Lemma Forall_snoc {X} (P : X -> Prop) (h : list X) (e : X) :
  P e -> Forall P h -> Forall P (h ++ [e])%list.
Proof. intros He Hh. apply Forall_app. split; [assumption | now constructor]. Qed.

(** The scrutinee that decides a nest of matches. *)
Ltac head_scrutinee t :=
  lazymatch t with
  | match ?x with _ => _ end => head_scrutinee x
  | negb ?b => head_scrutinee b
  | _ => t
  end.

(** Unfolds the function of main.go, or the wrapper of an external call,
    that a process starts with.  The arguments of the run functions are
    kept as local definitions, which keeps the recorded calls small. *)
Ltac name_arg s :=
  first [ is_var s | let s' := fresh "arg" in set (s' := s) ].

Ltac unfold_head p :=
  lazymatch p with
  | when _ _ => unfold when at 1
  | make _ => unfold make at 1
  | flag_parse _ => unfold flag_parse at 1
  | ReadFile _ _ => unfold ReadFile at 1
  | LoadLicenseToken _ _ _ => unfold LoadLicenseToken at 1
  | BuildConfigFromFlags _ _ _ => unfold BuildConfigFromFlags at 1
  | kubernetes_newForConfig _ _ => unfold kubernetes_newForConfig at 1
  | clientset_newForConfig _ _ => unfold clientset_newForConfig at 1
  | LookupEnv _ _ => unfold LookupEnv at 1
  | startInformers _ ?s _ => name_arg s; unfold startInformers at 1
  | runController _ ?s ?q =>
      name_arg s; name_arg q; unfold runController at 1
  | runOperator _ ?s ?c ?q =>
      name_arg s; name_arg c; name_arg q; unfold runOperator at 1
  | main _ => unfold main at 1
  end.

(** Case analysis on what decides the branch taken. *)
Ltac branch_on x :=
  let s := head_scrutinee x in destruct s eqn:?; cbn [negb].

(** Runs a process along its syntax.  [on_call] applies the rule for a call
    that is followed by more, [step] proves its side condition, [last]
    proves the obligation of a call that ends the process and [leaf] the
    obligation of a return or an exit. *)
Ltac symex_gen on_call step last leaf :=
  lazymatch goal with
  | |- triple _ (bind (bind _ _) _) _ _ =>
      apply ex_assoc; symex_gen on_call step last leaf
  | |- triple _ (bind (ret _) _) _ _ =>
      apply ex_ret; cbv beta; symex_gen on_call step last leaf
  | |- triple _ (bind (exit _) _) _ _ => apply ex_exit; leaf
  | |- triple _ (bind (call _) _) _ _ =>
      on_call; [ step | cbv beta; symex_gen on_call step last leaf ]
  | |- triple _ (bind (match ?x with _ => _ end) _) _ _ =>
      branch_on x; symex_gen on_call step last leaf
  | |- triple _ (bind ?p _) _ _ =>
      unfold_head p; symex_gen on_call step last leaf
  | |- triple _ (call _) _ _ => apply end_call; last
  | |- triple _ (ret _) _ _ => apply end_ret; leaf
  | |- triple _ (exit _) _ _ => apply end_exit; leaf
  | |- triple _ (match ?x with _ => _ end) _ _ =>
      branch_on x; symex_gen on_call step last leaf
  | |- triple _ ?p _ _ => unfold_head p; symex_gen on_call step last leaf
  end.

(** With one invariant kept along the whole run. *)
Ltac keep_invariant :=
  idtac;
  lazymatch goal with
  | |- triple ?I _ _ _ => apply (ex_call I _ _ I)
  end.

Ltac symex step leaf := symex_gen keep_invariant step step leaf.

(** With the exact history: the calls made so far, latest first. *)
Ltac record_call :=
  idtac;
  lazymatch goal with
  | |- triple (fun h => h = rev ?acc) (bind (call ?e) _) _ _ =>
      apply (ex_call _ _ _ (fun h => h = rev (e :: acc)))
  end.

Ltac symrun leaf :=
  symex_gen record_call
    ltac:(intros ? ->; reflexivity)
    ltac:(intros ? ->; cbv [rev app]; leaf)
    ltac:(intros ? ->; cbv [rev app]; leaf).

(** Every way [p] can run, as one goal per path with its trace. *)
Ltac all_runs p leaf :=
  pattern (outcome p), (trace p); apply run_spec; symrun leaf.

(** Membership in a list that is written out, by the position. *)
Ltac index_of x l :=
  lazymatch l with
  | x :: _ => constr:(O)
  | _ :: ?t => let n := index_of x t in constr:(S n)
  end.

Ltac in_list :=
  lazymatch goal with
  | |- In ?x ?l =>
      first [ let n := index_of x l in exact (nth_error_In l n eq_refl)
            | cbn [In]; solve [repeat (first [left; reflexivity | right])] ]
  end.

(** The local definitions of a path, replaced by their values. *)
Ltac reveal := repeat match goal with x := _ |- _ => subst x end.

(** An informer of the kind was run and synced, in a trace written out. *)
Ltac show_mirrors :=
  match goal with
  | |- mirrors ?tr _ =>
      match tr with
      | context [cache_WaitForNamedCacheSync ?n ?i true] =>
          exists n, i; split; [reflexivity | split; in_list]
      end
  | |- synced _ ?tr =>
      match tr with
      | context [cache_WaitForNamedCacheSync ?n ?i true] =>
          exists n, i; split; [reflexivity | in_list]
      end
  end.

Ltac elim_in H :=
  cbn [In] in H;
  repeat (destruct H as [H | H]; [ try discriminate H | ]);
  try contradiction.

(** On a path that has parsed the flags, they are those of [Hfl]. *)
Ltac same_flags Hfl :=
  try lazymatch type of Hfl with
      | FlagsOk _ = FlagsOk _ => inversion Hfl; subst
      | FlagsExit _ = FlagsOk _ => discriminate Hfl
      end.

(** Proves [Forall P (trace p)] by keeping [Forall P] along every path;
    [prove] shows [P] of the call just made. *)
Ltac invariant prove :=
  apply run_inv;
  symex ltac:(intros; apply Forall_snoc; [ prove | assumption ])
        ltac:(intros; assumption).

(** On a path that has read the configuration, it is that of [Hcfg]. *)
Ltac same_config Hcfg :=
  try lazymatch type of Hcfg with
      | Ok _ = Ok _ => inversion Hcfg; subst
      | Err _ = Ok _ => discriminate Hcfg
      end.

(** Facts of a path, from the tests it has passed. *)
Ltac path_facts :=
  repeat match goal with
         | H : (_ && _) = true |- _ => apply andb_true_iff in H; destruct H
         | H : (_ && _) = false |- _ => apply andb_false_iff in H
         | H : (_ =? _) = true |- _ => apply Z.eqb_eq in H
         | H : (_ =? _) = false |- _ => apply Z.eqb_neq in H
         | H : (_ <? _) = true |- _ => apply Z.ltb_lt in H
         | H : (_ <? _) = false |- _ => apply Z.ltb_ge in H
         | H : time.After _ _ = true |- _ =>
             unfold time.After in H; apply Z.ltb_lt in H
         | H : time.After _ _ = false |- _ =>
             unfold time.After in H; apply Z.ltb_ge in H
         end.

(** A path whose tests contradict what is assumed of the world. *)
Ltac off_path :=
  exfalso; path_facts;
  first [ congruence
        | lia
        | match goal with
          | H : _ \/ _ |- _ => destruct H; first [congruence | lia]
          end ].

(** Equations between answers: taken apart, or found contradictory. *)
Ltac settle :=
  repeat match goal with
         | H : FlagsOk _ = FlagsOk _ |- _ => inversion H; subst; clear H
         | H : Ok _ = Ok _ |- _ => inversion H; subst; clear H
         | H : Err _ = Err _ |- _ => inversion H; subst; clear H
         | H : Some _ = Some _ |- _ => inversion H; subst; clear H
         | H : (_, _) = (_, _) |- _ => inversion H; subst; clear H
         end.

(** Runs a process as [symex_gen] does, in a world of which something is
    assumed: after each case analysis the equations are settled and the
    branch is dropped if [prune] refutes it. *)
Ltac symex_in on_call step last leaf prune :=
  lazymatch goal with
  | |- triple _ (bind (bind _ _) _) _ _ =>
      apply ex_assoc; symex_in on_call step last leaf prune
  | |- triple _ (bind (ret _) _) _ _ =>
      apply ex_ret; cbv beta; symex_in on_call step last leaf prune
  | |- triple _ (bind (exit _) _) _ _ => apply ex_exit; leaf
  | |- triple _ (bind (call _) _) _ _ =>
      on_call; [ step | cbv beta; symex_in on_call step last leaf prune ]
  | |- triple _ (bind (match ?x with _ => _ end) _) _ _ =>
      branch_on x; settle;
      first [ solve [prune] | symex_in on_call step last leaf prune ]
  | |- triple _ (bind ?p _) _ _ =>
      unfold_head p; symex_in on_call step last leaf prune
  | |- triple _ (call _) _ _ => apply end_call; last
  | |- triple _ (ret _) _ _ => apply end_ret; leaf
  | |- triple _ (exit _) _ _ => apply end_exit; leaf
  | |- triple _ (match ?x with _ => _ end) _ _ =>
      branch_on x; settle;
      first [ solve [prune] | symex_in on_call step last leaf prune ]
  | |- triple _ ?p _ _ => unfold_head p; symex_in on_call step last leaf prune
  end.

(** The runs of [p] that the assumptions allow, one goal per path. *)
Ltac runs_in p leaf :=
  pattern (outcome p), (trace p); apply run_spec;
  symex_in record_call
    ltac:(intros ? ->; reflexivity)
    ltac:(intros ? ->; cbv [rev app]; leaf)
    ltac:(intros ? ->; cbv [rev app]; leaf)
    ltac:(off_path).

(** Membership in a list that is written out, by the position of the
    first element that is convertible. *)
Ltac index_conv x l :=
  lazymatch l with
  | ?y :: ?t =>
      match goal with
      | _ => let _ := match goal with _ => unify x y end in constr:(O)
      | _ => let n := index_conv x t in constr:(S n)
      end
  end.

Ltac in_list_conv :=
  lazymatch goal with
  | |- In ?x ?l =>
      let n := index_conv x l in exact (nth_error_In l n eq_refl)
  end.

(** Lengths of Go strings. *)
(** A sync of the example command line with the example logging flags
    writes to a variable of the logging package only. *)
Ltac example_sync Hin Hlk :=
  cbn in Hin;
  repeat (destruct Hin as [<- | Hin]; [ cbn in Hlk; try discriminate Hlk | ]);
  try contradiction;
  try (injection Hlk as <-; unfold setFrom; cbn;
       repeat match goal with
              | |- context [flag.ParseBool ?s] => destruct (flag.ParseBool s)
              end; cbn).

Lemma len_nonneg (s : string) : 0 <= len s.
Proof. unfold len. lia. Qed.

(* ================================================================= *)
(** ** The model on concrete inputs *)

Example expiry_date_is_unix_1647216000 :
  time.Date 2022 time.March 14 0 0 0 0 = 1647216000 * time.Second.
Proof. reflexivity. Qed.

Example Atoi_of_a_port : strconv.Atoi "9090" = (9090, None).
Proof. reflexivity. Qed.

Example Atoi_of_a_signed_number : strconv.Atoi "-12" = (-12, None).
Proof. reflexivity. Qed.

Example Atoi_of_letters : strconv.Atoi "abc" = (0, Some strconv.ErrSyntax).
Proof. reflexivity. Qed.

Example Atoi_of_a_lone_sign : strconv.Atoi "+" = (0, Some strconv.ErrSyntax).
Proof. reflexivity. Qed.

Example Atoi_of_the_largest_int :
  strconv.Atoi "9223372036854775807" = (9223372036854775807, None).
Proof. vm_compute. reflexivity. Qed.

Example Atoi_out_of_range :
  strconv.Atoi "9223372036854775808"
  = (9223372036854775807, Some strconv.ErrRange).
Proof. vm_compute. reflexivity. Qed.

Example Atoi_of_long_letters :
  strconv.Atoi "not-a-number-at-all-x" = (0, Some strconv.ErrSyntax).
Proof. vm_compute. reflexivity. Qed.

Example int32_wraps : int32 (2 ^ 31) = - 2 ^ 31.
Proof. reflexivity. Qed.

Example hasProduct_finds_the_sku :
  hasProduct sku ["openfaas-oem"; "openfaas-pro"] = true.
Proof. reflexivity. Qed.

Example hasProduct_of_other_products : hasProduct sku ["openfaas-oem"] = false.
Proof. reflexivity. Qed.

(** The example controller serves, the example operator runs its loop. *)
Example controller_example_returns :
  outcome (main Example.controllerWorld) = Returned tt /\
  List.length (trace (main Example.controllerWorld)) = 39%nat.
Proof. vm_compute. split; reflexivity. Qed.

Example operator_example_returns :
  outcome (main Example.operatorWorld) = Returned tt /\
  List.length (trace (main Example.operatorWorld)) = 32%nat.
Proof. vm_compute. split; reflexivity. Qed.

(** Without a license nothing but the flags and a log line happen. *)
Example unlicensed_example :
  main (Build_World Example.newYear "public-key"
          (FlagsOk (Build_Flags EmptyString EmptyString EmptyString
                                EmptyString false false))
          ("0a1b2c3", "0.14.2") "0.14.2" "0a1b2c3"
          (fun _ => Err "open: no such file or directory") (fun s => s)
          (fun _ _ => Err "token is malformed")
          (fun _ _ => Err "no cluster") (fun _ => None) (fun _ => None)
          (Err "no config") (fun _ => None) Example.allSync None)
  = ([flag_Parse; log_Printf "Public key: %s" [str "public-key"]],
     Exited (log_Fatalf
               "A license is required via --license or --license-file" [])).
Proof. reflexivity. Qed.

(* ================================================================= *)
(** ** C1: which resource kinds are mirrored *)

(** A return of [startInformers]: three kinds are always mirrored, the
    Function kind exactly in operator mode. *)
Lemma startInformers_runs (w : World) (setup : serverSetup.t) (op : bool) :
  forall ci, outcome (startInformers w setup op) = Returned ci ->
    mirrors (trace (startInformers w setup op)) Deployments /\
    mirrors (trace (startInformers w setup op)) Endpoints /\
    mirrors (trace (startInformers w setup op)) Profiles /\
    (watches (trace (startInformers w setup op)) Functions -> op = true) /\
    (op = true -> mirrors (trace (startInformers w setup op)) Functions) /\
    (FunctionsInformer ci = None <-> op = false).
Proof.
  all_runs (startInformers w setup op) idtac; try discriminate.
  - intros ci [= <-]. repeat split.
    all: intros; try discriminate; try reflexivity; show_mirrors.
  - intros ci [= <-]. repeat split.
    all: intros; try discriminate; try reflexivity; try show_mirrors.
    destruct H as [i [Hk Hin]]. elim_in Hin.
    all: injection Hin as <-; discriminate Hk.
Qed.

Lemma mirrors_watches (tr : list Event) (k : ResourceKind) :
  mirrors tr k -> watches tr k.
Proof. intros (n & i & Hk & Hrun & _). now exists i. Qed.

Lemma runController_no_function_informer
      (w : World) (setup : serverSetup.t) (q : k8s.PrometheusQuery) :
  ~ watches (trace (runController w setup q)) Functions.
Proof.
  assert (H : Forall (fun e => match e with
                               | go_Informer_Run i => cache.kind i <> Functions
                               | _ => True
                               end)
                     (trace (runController w setup q))).
  { invariant ltac:(cbn; auto; discriminate). }
  intros (i & Hk & Hin).
  rewrite Forall_forall in H. exact (H _ Hin Hk).
Qed.

Lemma runOperator_mirrors_all
      (w : World) (setup : serverSetup.t) (cfg : config.BootstrapConfig)
      (q : k8s.PrometheusQuery) :
  outcome (runOperator w setup cfg q) = Returned tt ->
  forall k, mirrors (trace (runOperator w setup cfg q)) k.
Proof.
  all_runs (runOperator w setup cfg q) idtac; try discriminate.
  intros _ k. reveal. destruct k; show_mirrors.
Qed.

(** C1, as amended.  When [startInformers] returns it has started and
    synced the Deployment, Endpoints and Profile informers in both modes,
    and the Function informer exactly in operator mode (outside it the
    returned [FunctionsInformer] is nil); the imperative controller never
    starts a Function informer, and an operator that returns has mirrored
    all four kinds. *)
Theorem mirrored_kinds_by_mode (w : World) (setup : serverSetup.t) :
  (forall op ci, outcome (startInformers w setup op) = Returned ci ->
     mirrors (trace (startInformers w setup op)) Deployments /\
     mirrors (trace (startInformers w setup op)) Endpoints /\
     mirrors (trace (startInformers w setup op)) Profiles /\
     (mirrors (trace (startInformers w setup op)) Functions <-> op = true) /\
     (watches (trace (startInformers w setup op)) Functions <-> op = true) /\
     (FunctionsInformer ci = None <-> op = false)) /\
  (forall q, ~ watches (trace (runController w setup q)) Functions) /\
  (forall cfg q, outcome (runOperator w setup cfg q) = Returned tt ->
     forall k, mirrors (trace (runOperator w setup cfg q)) k).
Proof.
  split; [| split].
  - intros op ci Hret.
    destruct (startInformers_runs w setup op ci Hret)
      as (HD & HE & HP & Hw & Hm & Hnil).
    repeat split; auto.
    + intros H. apply Hw. now apply mirrors_watches.
    + intros H. apply mirrors_watches. auto.
    + apply Hnil.
    + apply Hnil.
  - apply runController_no_function_informer.
  - apply runOperator_mirrors_all.
Qed.

(** In the example setup the imperative controller starts no Function
    informer, while [startInformers] returns in operator mode having
    mirrored the Function kind. *)
Lemma mirrored_kinds_by_mode_witness :
  ~ watches (trace (runController Example.controllerWorld Example.setup
                                 Example.query)) Functions /\
  mirrors (trace (startInformers Example.operatorWorld Example.setup true))
          Functions.
Proof.
  destruct (mirrored_kinds_by_mode Example.operatorWorld Example.setup)
    as [Hstart _].
  destruct (mirrored_kinds_by_mode Example.controllerWorld Example.setup)
    as [_ [Hctl _]].
  split.
  - exact (Hctl Example.query).
  - destruct (Hstart true _ eq_refl) as (_ & _ & _ & [_ Hf] & _).
    exact (Hf eq_refl).
Defined.

(** C1 as stated fails: in controller mode [startInformers] returns
    without having started any Function informer. *)
Lemma controller_mode_has_no_function_informer :
  ~ allKindsMirrored Example.controllerWorld Example.setup false.
Proof.
  intros H.
  assert (Hret : exists ci,
             outcome (startInformers Example.controllerWorld Example.setup false)
             = Returned ci) by (eexists; reflexivity).
  destruct Hret as [ci Hret].
  pose proof (H ci Hret Functions) as Hm.
  apply mirrors_watches in Hm.
  destruct (startInformers_runs _ _ _ ci Hret) as (_ & _ & _ & Hw & _).
  discriminate (Hw Hm).
Qed.

(* ================================================================= *)
(** ** C2: nothing is wired before the caches have synced *)

Lemma wiredAfterSyncb_sound (need : list ResourceKind) :
  forall tr seen hist,
    wiredAfterSyncb need seen tr = true ->
    (forall k, In k seen -> synced k hist) ->
    forall pre e post,
      tr = (pre ++ e :: post)%list -> wires e = true ->
      forall k, In k need -> synced k (hist ++ pre)%list.
Proof.
  induction tr as [| e0 tr IH]; intros seen hist Hb Hseen pre e post Heq He k Hk.
  - destruct pre; discriminate.
  - cbn [wiredAfterSyncb] in Hb. apply andb_true_iff in Hb as [Hnow Hrest].
    destruct pre as [| e1 pre]; cbn in Heq; injection Heq as -> ->.
    + rewrite He in Hnow. rewrite app_nil_r.
      rewrite forallb_forall in Hnow. specialize (Hnow k Hk).
      apply existsb_exists in Hnow as [k' [Hin Heqb]].
      assert (k = k') as -> by (destruct k, k'; discriminate || reflexivity).
      auto.
    + replace (hist ++ e1 :: pre)%list with ((hist ++ [e1]) ++ pre)%list
        by (rewrite <- app_assoc; reflexivity).
      eapply IH; eauto.
      intros k0 Hk0.
      assert (Hold : forall k1, In k1 seen -> synced k1 (hist ++ [e1])%list).
      { intros k1 H1. destruct (Hseen k1 H1) as [n [i [Hki Hin]]].
        exists n, i. split; [assumption | apply in_or_app; now left]. }
      destruct e1; auto.
      destruct ok; auto.
      destruct Hk0 as [<- | Hk0]; auto.
      exists controllerName, i. split; [reflexivity |].
      apply in_or_app; right; now left.
Qed.

Lemma wiredAfterSyncb_ok (op : bool) (tr : list Event) :
  wiredAfterSyncb (started op) [] tr = true -> wiredAfterSync op tr.
Proof.
  intros Hb pre e post Heq He k Hk.
  exact (wiredAfterSyncb_sound _ tr [] [] Hb
           (fun k H => match H with end) pre e post Heq He k Hk).
Qed.

Lemma main_wiredAfterSync (w : World) (fl : Flags) :
  commandLine w = FlagsOk fl ->
  wiredAfterSync (operator fl) (trace (main w)).
Proof.
  intros Hfl.
  all_runs (main w) idtac.
  all: same_flags Hfl.
  all: apply wiredAfterSyncb_ok.
  all: try match goal with H : operator _ = _ |- _ => rewrite H end.
  all: vm_compute; reflexivity.
Qed.

(** A path on which the sync of kind [k] has succeeded contradicts [Hk]. *)
Ltac sync_failed Hk :=
  match goal with
  | H : waitForCacheSync _ _ = true |- _ =>
      rewrite Hk in H by reflexivity; discriminate H
  end.

Lemma main_sync_failure (w : World) (fl : Flags) (k : ResourceKind) :
  commandLine w = FlagsOk fl ->
  In k (started (operator fl)) ->
  (forall i, cache.kind i = k -> waitForCacheSync w i = false) ->
  Forall (fun e => wires e = false) (trace (main w)) /\
  exists x, outcome (main w) = Exited x /\
    (In signals_SetupSignalHandler (trace (main w)) ->
     x = log_Fatalf "failed to wait for cache to sync" []).
Proof.
  intros Hfl Hin Hk.
  all_runs (main w) idtac.
  all: same_flags Hfl.
  all: try match goal with H : operator _ = _ |- _ => rewrite H in Hin end.
  all: try (exfalso; elim_in Hin; subst k; sync_failed Hk).
  all: split; [repeat constructor |].
  all: eexists; split; [reflexivity |].
  all: intros Hs; first [reflexivity | exfalso; elim_in Hs].
Qed.

(** C2.  In a run of [main] in the mode the flags select, every call that
    builds or starts a handler, the router or the reconciler comes after
    the successful cache sync of every informer that mode starts; and if
    the sync of one of those informers fails, no such call is made at all
    and the process ends - once [startInformers] has been entered, by
    log.Fatalf "failed to wait for cache to sync". *)
Theorem cache_sync_gates_wiring (w : World) (fl : Flags) :
  commandLine w = FlagsOk fl ->
  wiredAfterSync (operator fl) (trace (main w)) /\
  (forall k, In k (started (operator fl)) ->
     (forall i, cache.kind i = k -> waitForCacheSync w i = false) ->
     Forall (fun e => wires e = false) (trace (main w)) /\
     exists x, outcome (main w) = Exited x /\
       (In signals_SetupSignalHandler (trace (main w)) ->
        x = log_Fatalf "failed to wait for cache to sync" [])).
Proof.
  intros Hfl. split.
  - now apply main_wiredAfterSync.
  - intros k Hk Hfail. now apply (main_sync_failure w fl k).
Qed.

(** In the example where the Endpoints informer never syncs, nothing is
    wired. *)
Lemma cache_sync_gates_wiring_witness :
  wiredAfterSync false (trace (main Example.unsyncedWorld)) /\
  Forall (fun e => wires e = false) (trace (main Example.unsyncedWorld)).
Proof.
  destruct (cache_sync_gates_wiring Example.unsyncedWorld
              (Example.flags false) eq_refl) as [Hord Hfail].
  split; [exact Hord |].
  apply (Hfail Endpoints).
  - simpl. auto.
  - intros i Hi. unfold Example.unsyncedWorld, Example.world; simpl.
    unfold Example.endpointsNeverSync. now rewrite Hi.
Defined.

(* ================================================================= *)
(** ** C3: the two modes *)

Lemma in_same_call (x : Event) (l : list Event) :
  In x l -> In x (filter (sameCall x) l).
Proof.
  intros H. apply filter_In. split; [assumption |].
  unfold sameCall. apply Nat.eqb_refl.
Qed.

(** Keeps, of a membership in a trace written out, the calls to the same
    function. *)
Ltac narrow H :=
  apply in_same_call in H;
  cbv [filter sameCall callId Nat.eqb] in H;
  cbn [In] in H;
  repeat (destruct H as [H | H]; [ try discriminate H | ]);
  try contradiction.

Ltac prove_mode :=
  lazymatch goal with
  | |- operatorMode _ =>
      split; [ repeat constructor
             | let Hin := fresh "Hin" in
               intros ? ? Hin; narrow Hin;
               (injection Hin as <- <-; repeat split; in_list) ]
  | |- controllerMode _ _ =>
      split; [ repeat constructor
             | let Hin := fresh "Hin" in
               intros ? ? Hin; narrow Hin;
               (injection Hin as <- <-; eexists;
                (split; [ in_list | repeat split; eexists; reflexivity ])) ]
  end.

Ltac prove_shared :=
  split;
  [ let Hin := fresh "Hin" in
    intros ? Hin; narrow Hin;
    (injection Hin as <-;
     cbn [fromCreatedFactory v1apps.factory v1core.factory v1.factory
          v1.profileFactory]; in_list)
  | cbv [constructions filter isNewFunctionFactory List.length]; lia ].

(** C3, as amended.  The operator flag selects exactly one of two
    modes.  With the flag false the imperative controller runs, with no
    reconcile loop: no controller is built or run, and the handlers it
    serves are a deploy and an update handler that are given the function
    factory, and a delete handler that is given the namespace and the
    Kubernetes client only, not the factory.  With the flag true the
    operator runs and the imperative controller does not: the controller
    whose loop is run was built from the informer factories and the
    function factory of [main], and a run that returns has run that loop
    with the Function informer started.  In both modes the informers
    that are run come from the factories [main] created, and the
    function factory handed on is the one construction of the run. *)
Theorem mode_selected_by_operator_flag (w : World) :
  dualMode givenClientOnly w.
Proof.
  unfold dualMode. intros fl Hfl.
  all_runs (main w) idtac.
  all: same_flags Hfl.
  all: try match goal with H : operator _ = _ |- _ => rewrite H end.
  all: split; [ | split ].
  all: lazymatch goal with
       | |- if operator ?f then _ else _ => destruct (operator f); prove_mode
       | |- operatorMode _ => prove_mode
       | |- controllerMode _ _ => prove_mode
       | |- sharedSetup _ => prove_shared
       | |- _ = Returned tt -> _ =>
           intros Hret; first [ discriminate Hret | idtac ]
       end.
  all: try match goal with H : operator _ = _ |- _ => rewrite H end.
  all: try (destruct (operator fl)).
  all: try (split; [| apply mirrors_watches; show_mirrors]).
  all: repeat eexists; in_list.
Qed.

(** The example controller runs in controller mode and serves, the
    example operator runs in operator mode and runs the controller, and
    each constructs the function factory once. *)
Lemma mode_selected_by_operator_flag_witness :
  (controllerMode givenClientOnly (trace (main Example.controllerWorld)) /\
   exists hs c,
     In (faasProvider_Serve hs c) (trace (main Example.controllerWorld))) /\
  (operatorMode (trace (main Example.operatorWorld)) /\
   exists c, In (ctrl_Run c 1) (trace (main Example.operatorWorld))) /\
  constructions (trace (main Example.controllerWorld)) = 1%nat /\
  constructions (trace (main Example.operatorWorld)) = 1%nat.
Proof.
  destruct (mode_selected_by_operator_flag Example.controllerWorld
              (Example.flags false) eq_refl) as (Hctl & _ & Hserve).
  destruct (mode_selected_by_operator_flag Example.operatorWorld
              (Example.flags true) eq_refl) as (Hop & _ & Hrun).
  split; [ split; [exact Hctl | exact (Hserve eq_refl)] |].
  split; [ split; [exact Hop | exact (proj1 (Hrun eq_refl))] |].
  split; vm_compute; reflexivity.
Defined.

(** C3 as stated fails: the delete handler that the imperative controller
    serves was not given the function factory. *)
Lemma delete_handler_not_given_factory :
  ~ dualMode givenFactory Example.controllerWorld.
Proof.
  intros H.
  destruct (H (Example.flags false) eq_refl) as [[_ Hserve] _].
  assert (Hin : exists hs c ns kc,
             In (faasProvider_Serve hs c) (trace (main Example.controllerWorld))
             /\ FaaSHandlers.DeleteHandler hs = handlers_MakeDeleteHandler ns kc).
  { do 4 eexists. split.
    - vm_compute. repeat (first [left; reflexivity | right]).
    - reflexivity. }
  destruct Hin as (hs & c & ns & kc & Hin & Hdel).
  destruct (Hserve hs c Hin) as (f & _ & _ & _ & Hgiven).
  rewrite Hdel in Hgiven. exact Hgiven.
Qed.

(* ================================================================= *)
(** ** C4, C5, C6, C7, C9: what every recorded call satisfies *)

Lemma main_namespaceScoped (w : World) (cfg : config.BootstrapConfig) :
  readConfig w = Ok cfg -> Forall (namespaceScoped cfg) (trace (main w)).
Proof.
  intros Hcfg.
  invariant ltac:(same_config Hcfg; reveal; cbn; auto; try congruence).
Qed.

Lemma main_profilesScoped (w : World) (cfg : config.BootstrapConfig) :
  readConfig w = Ok cfg -> Forall (profilesScoped cfg) (trace (main w)).
Proof.
  intros Hcfg.
  invariant ltac:(same_config Hcfg; reveal; cbn; auto; try congruence).
Qed.

Lemma main_resyncFiveMinutes (w : World) :
  Forall resyncFiveMinutes (trace (main w)).
Proof.
  invariant ltac:(reveal; cbn; auto).
Qed.

Lemma main_single_worker (w : World) :
  Forall (fun e => match e with ctrl_Run _ n => n = 1 | _ => True end)
         (trace (main w)).
Proof.
  invariant ltac:(cbn; auto).
Qed.

Lemma main_deployConfig (w : World) (cfg : config.BootstrapConfig) :
  readConfig w = Ok cfg ->
  Forall (fun e => forall f, In f (factoriesOf e) ->
                             k8s.Config f = deployConfigOf cfg)
         (trace (main w)).
Proof.
  intros Hcfg.
  invariant ltac:(same_config Hcfg; reveal; cbn;
                  intros; repeat match goal with
                                 | H : _ \/ _ |- _ => destruct H
                                 | H : False |- _ => destruct H
                                 end; subst; reflexivity).
Qed.

Lemma main_constructs_once (w : World) :
  constructions (trace (main w)) = 1%nat \/
  (constructions (trace (main w)) = 0%nat /\
   Forall (fun e => factoriesOf e = []) (trace (main w))).
Proof.
  all_runs (main w) idtac.
  all: first [ left; vm_compute; reflexivity
             | right; split; [vm_compute; reflexivity | repeat constructor] ].
Qed.

Lemma main_scopedFactories (w : World) (cfg : config.BootstrapConfig) :
  readConfig w = Ok cfg ->
  configured (trace (main w)) = true ->
  scopedFactories cfg (trace (main w)).
Proof.
  intros Hcfg.
  runs_in (main w) idtac.
  all: cbv [configured existsb orb]; intros Hconf; try discriminate Hconf.
  all: unfold scopedFactories; do 2 eexists.
  all: split; [in_list_conv |]; split; [in_list_conv |].
  all: split; reflexivity.
Qed.

Lemma main_scopedCaches (w : World) (cfg : config.BootstrapConfig) (fl : Flags) :
  readConfig w = Ok cfg ->
  commandLine w = FlagsOk fl ->
  outcome (main w) = Returned tt \/ wired (trace (main w)) = true ->
  scopedCaches cfg (operator fl) (trace (main w)).
Proof.
  intros Hcfg Hfl.
  runs_in (main w) idtac.
  all: cbv [wired existsb wires orb]; intros [Hret | Hwired];
    try discriminate.
  all: unfold scopedCaches; do 2 eexists.
  all: split; [in_list_conv |]; split; [in_list_conv |].
  all: split; [reflexivity |]; split; [reflexivity |].
  all: split; [in_list_conv |]; split; [in_list_conv |].
  all: first [ in_list_conv
             | eexists; split; [in_list_conv | reflexivity] ].
Qed.

(** C4.  With the configuration [cfg] read at startup, the scope is the
    empty one (all namespaces) when ClusterRole is set and
    DefaultFunctionNamespace otherwise.  Once the configuration has been
    read and printed, the kube and the Function informer factory have
    been created with that scope; in a run that returns, or that has got
    as far as wiring, the Deployment and the Endpoints informer of the
    kube factory - and in operator mode the Function informer - have
    been started with that scope, and in controller mode the function
    lookup has been constructed with DefaultFunctionNamespace.  No call
    of any run is given another scope: every kube informer factory,
    every such informer that is run or waited for, every function lookup
    (also inside the proxy handler) and the operator's server conform. *)
Theorem namespace_scope_decided_at_startup
        (w : World) (cfg : config.BootstrapConfig) (fl : Flags) :
  readConfig w = Ok cfg ->
  commandLine w = FlagsOk fl ->
  functionScope cfg = (if config.ClusterRole cfg then EmptyString
                       else config.DefaultFunctionNamespace cfg) /\
  Forall (namespaceScoped cfg) (trace (main w)) /\
  (configured (trace (main w)) = true ->
   scopedFactories cfg (trace (main w))) /\
  (outcome (main w) = Returned tt \/ wired (trace (main w)) = true ->
   scopedCaches cfg (operator fl) (trace (main w))).
Proof.
  intros Hcfg Hfl. split; [reflexivity |].
  split; [now apply main_namespaceScoped |].
  split; [now apply main_scopedFactories | now apply main_scopedCaches].
Qed.

(** The example operator, with ClusterRole set, returns having started
    the Deployment, Endpoints and Function informers for all namespaces;
    the example controller, without it, returns having started the
    Deployment and Endpoints informers for openfaas-fn and constructed
    the function lookup with openfaas-fn. *)
Lemma namespace_scope_decided_at_startup_witness :
  (functionScope (Example.cfg true) = EmptyString /\
   scopedCaches (Example.cfg true) true (trace (main Example.operatorWorld))) /\
  (functionScope (Example.cfg false) = "openfaas-fn" /\
   scopedCaches (Example.cfg false) false
                (trace (main Example.controllerWorld))).
Proof.
  destruct (namespace_scope_decided_at_startup Example.operatorWorld
              (Example.cfg true) (Example.flags true) eq_refl eq_refl)
    as (_ & _ & _ & Hop).
  destruct (namespace_scope_decided_at_startup Example.controllerWorld
              (Example.cfg false) (Example.flags false) eq_refl eq_refl)
    as (_ & _ & _ & Hctl).
  split; (split; [reflexivity |]).
  - exact (Hop (or_introl eq_refl)).
  - exact (Hctl (or_introl eq_refl)).
Defined.

(** C5, as amended.  Whatever the configuration, flags and environment,
    the bootstrap hands the constant 1 to the controller's [Run] as the
    number of reconcile workers. *)
Theorem reconciler_runs_one_worker
        (w : World) (c : controller.Controller) (n : Z) :
  In (ctrl_Run c n) (trace (main w)) -> n = 1.
Proof.
  intros Hin. pose proof (main_single_worker w) as H.
  rewrite Forall_forall in H. exact (H _ Hin).
Qed.

(** C5 as stated fails: no two runs hand different worker counts to
    [Run], so the count is not configurable. *)
Lemma worker_count_not_configurable : ~ workersConfigurable.
Proof.
  intros (w1 & w2 & c1 & c2 & n1 & n2 & H1 & H2 & Hne).
  pose proof (main_single_worker w1) as F1.
  pose proof (main_single_worker w2) as F2.
  rewrite Forall_forall in F1, F2.
  apply Hne. rewrite (F1 _ H1), (F2 _ H2). reflexivity.
Qed.

(** The controller the example operator runs. *)
Lemma reconciler_runs_one_worker_witness :
  exists c n, In (ctrl_Run c n) (trace (main Example.operatorWorld)) /\ n = 1.
Proof.
  assert (Hin : exists c n,
             In (ctrl_Run c n) (trace (main Example.operatorWorld))).
  { do 2 eexists. vm_compute. repeat (first [left; reflexivity | right]). }
  destruct Hin as (c & n & Hin).
  exists c, n. split; [exact Hin |].
  exact (reconciler_runs_one_worker Example.operatorWorld c n Hin).
Defined.

(** C6.  With the configuration [cfg] read at startup, [main] constructs
    the function factory, and with it the [DeploymentConfig], exactly
    once - or, on a run that ends before that, never, and then no call is
    given a factory.  The [DeploymentConfig] of every function factory
    that any call is given - at construction, by a handler constructor,
    by the served handlers, by the controller - is the one built at
    startup: RuntimeHTTPPort 8080, the probe timings of [cfg] converted to
    int32, and its HTTP-probe toggle, non-root setting, image pull policy
    and profiles namespace. *)
Theorem deployment_config_built_once
        (w : World) (cfg : config.BootstrapConfig) :
  readConfig w = Ok cfg ->
  (constructions (trace (main w)) = 1%nat \/
   (constructions (trace (main w)) = 0%nat /\
    Forall (fun e => factoriesOf e = []) (trace (main w)))) /\
  k8s.RuntimeHTTPPort (deployConfigOf cfg) = 8080 /\
  Forall (fun e => forall f, In f (factoriesOf e) ->
                             k8s.Config f = deployConfigOf cfg)
         (trace (main w)).
Proof.
  intros Hcfg. split; [apply main_constructs_once |].
  split; [reflexivity | now apply main_deployConfig].
Qed.

(** In the example controller the factory is constructed exactly once. *)
Lemma deployment_config_built_once_witness :
  constructions (trace (main Example.controllerWorld)) = 1%nat /\
  Forall (fun e => forall f, In f (factoriesOf e) ->
                             k8s.Config f = deployConfigOf (Example.cfg false))
         (trace (main Example.controllerWorld)).
Proof.
  destruct (deployment_config_built_once Example.controllerWorld
              (Example.cfg false) eq_refl) as (_ & _ & Hall).
  split; [vm_compute; reflexivity | exact Hall].
Defined.

Lemma main_threeFactories (w : World) :
  configured (trace (main w)) = true ->
  threeFactoriesEveryFiveMinutes (trace (main w)).
Proof.
  all_runs (main w) idtac.
  all: cbv [configured existsb orb]; intros Hconf; try discriminate Hconf.
  all: unfold threeFactoriesEveryFiveMinutes; do 3 eexists.
  all: split; [ cbv [informerFactories filter isInformerFactory];
                reflexivity |].
  all: repeat split.
Qed.

Lemma main_returned_configured (w : World) :
  outcome (main w) = Returned tt \/ wired (trace (main w)) = true ->
  configured (trace (main w)) = true.
Proof.
  all_runs (main w) idtac.
  all: cbv [wired configured existsb wires orb]; intros [H | H];
    first [ discriminate H | reflexivity ].
Qed.

(** C7.  Once the configuration has been read and printed - so in every
    run that returns or gets as far as wiring - [main] has created
    exactly three informer factories, for Kubernetes resources, for
    Function resources and for Profile resources in this order, and each
    with a resync interval of five minutes (300 seconds).  No informer
    factory of any run is created with, and no informer is run with,
    another interval. *)
Theorem resync_interval_is_five_minutes (w : World) :
  5 * time.Minute = 300 * time.Second /\
  Forall resyncFiveMinutes (trace (main w)) /\
  (configured (trace (main w)) = true ->
   threeFactoriesEveryFiveMinutes (trace (main w))) /\
  (outcome (main w) = Returned tt \/ wired (trace (main w)) = true ->
   threeFactoriesEveryFiveMinutes (trace (main w))).
Proof.
  split; [reflexivity |]. split; [apply main_resyncFiveMinutes |].
  split; [apply main_threeFactories |].
  intros H. apply main_threeFactories. now apply main_returned_configured.
Qed.

(** The example controller returns, having created the three informer
    factories with a resync interval of five minutes. *)
Lemma resync_interval_is_five_minutes_witness :
  outcome (main Example.controllerWorld) = Returned tt /\
  threeFactoriesEveryFiveMinutes (trace (main Example.controllerWorld)).
Proof.
  split; [reflexivity |].
  destruct (resync_interval_is_five_minutes Example.controllerWorld)
    as (_ & _ & _ & H).
  exact (H (or_introl eq_refl)).
Defined.

Lemma main_profileFactoryCreated (w : World) (cfg : config.BootstrapConfig) :
  readConfig w = Ok cfg ->
  configured (trace (main w)) = true ->
  profileFactoryCreated cfg (trace (main w)).
Proof.
  intros Hcfg.
  runs_in (main w) idtac.
  all: cbv [configured existsb orb]; intros Hconf; try discriminate Hconf.
  all: match goal with
       | |- profileFactoryCreated _ ?tr =>
           match tr with
           | context [k8s_NewFunctionFactory ?f] =>
               exists (v1.profileFactory (v1.informer (k8s.Profiles f))), f
           end
       end.
  all: split; [in_list_conv |]; split; [reflexivity |].
  all: split; [in_list_conv | reflexivity].
Qed.

Lemma main_profilesMirrored (w : World) (cfg : config.BootstrapConfig) :
  readConfig w = Ok cfg ->
  outcome (main w) = Returned tt \/ wired (trace (main w)) = true ->
  profilesMirrored cfg (trace (main w)).
Proof.
  intros Hcfg.
  runs_in (main w) idtac.
  all: cbv [wired existsb wires orb]; intros [Hret | Hwired];
    try discriminate.
  all: match goal with
       | |- profilesMirrored _ ?tr =>
           match tr with
           | context [cache_WaitForNamedCacheSync "faas-netes:profiles"
                        (cache.OfProfiles ?p) true] =>
               exists (v1.profileFactory p)
           end
       end.
  all: split; [in_list_conv |]; split; [reflexivity |].
  all: split; in_list_conv.
Qed.

(** C9.  With the configuration [cfg] read at startup: once the
    configuration has been read and printed, the Profile informer
    factory has been created for ProfilesNamespace and the function
    factory has been constructed with a Profile lister of that factory;
    in a run that returns, or that has got as far as wiring, the Profile
    informer of that factory has been started and its cache has synced.
    This does not depend on ClusterRole: no Profile informer of any run
    is run or waited for in another namespace, while with ClusterRole
    set every other informer that is run watches all namespaces. *)
Theorem profiles_scoped_to_profiles_namespace
        (w : World) (cfg : config.BootstrapConfig) :
  readConfig w = Ok cfg ->
  Forall (profilesScoped cfg) (trace (main w)) /\
  (config.ClusterRole cfg = true ->
   Forall (fun e => match e with
                    | go_Informer_Run i =>
                        cache.kind i <> Profiles -> cache.scope i = EmptyString
                    | _ => True
                    end)
          (trace (main w))) /\
  (configured (trace (main w)) = true ->
   profileFactoryCreated cfg (trace (main w))) /\
  (outcome (main w) = Returned tt \/ wired (trace (main w)) = true ->
   profilesMirrored cfg (trace (main w))).
Proof.
  intros Hcfg. split; [now apply main_profilesScoped |]. split.
  - intros Hrole. pose proof (main_namespaceScoped w cfg Hcfg) as H.
    eapply Forall_impl; [| exact H].
    intros e He. destruct e; try exact I.
    cbn in He. unfold functionScope in He. now rewrite Hrole in He.
  - split; [now apply main_profileFactoryCreated
           | now apply main_profilesMirrored].
Qed.

(** The example operator has ClusterRole set and the example controller
    has not: both return having mirrored the Profiles of the namespace
    openfaas. *)
Lemma profiles_scoped_to_profiles_namespace_witness :
  config.ProfilesNamespace (Example.cfg true) = "openfaas" /\
  config.ProfilesNamespace (Example.cfg false) = "openfaas" /\
  profilesMirrored (Example.cfg true) (trace (main Example.operatorWorld)) /\
  profilesMirrored (Example.cfg false) (trace (main Example.controllerWorld)).
Proof.
  destruct (profiles_scoped_to_profiles_namespace Example.operatorWorld
              (Example.cfg true) eq_refl) as (_ & _ & _ & Hop).
  destruct (profiles_scoped_to_profiles_namespace Example.controllerWorld
              (Example.cfg false) eq_refl) as (_ & _ & _ & Hctl).
  split; [reflexivity |]. split; [reflexivity |].
  split; [exact (Hop (or_introl eq_refl)) | exact (Hctl (or_introl eq_refl))].
Defined.

(* ================================================================= *)
(** ** C8: the expiry date and the license gate *)

(** The facts a path has gathered when it passes the gate. *)
Ltac passed_gate :=
  split;
  [ match goal with
    | H : time.After _ _ = false |- _ =>
        unfold notAfterExpiry; unfold time.After in H;
        apply Z.ltb_ge in H; exact H
    end
  | match goal with
    | Hf : commandLine _ = FlagsOk ?f,
      Hl : loadLicenseToken _ ?lic _ = Ok ?tok |- _ =>
        exists f, lic, tok
    end;
    split; [assumption |];
    split;
    [ match goal with
      | |- 0 < len ?a \/ 0 < len ?b =>
          pose proof (len_nonneg a); pose proof (len_nonneg b)
      end;
      repeat match goal with
             | H : (_ =? _) = false |- _ => apply Z.eqb_neq in H
             | H : (_ =? _) = true |- _ => apply Z.eqb_eq in H
             | H : true && _ = _ |- _ => cbn [andb] in H
             | H : (_ && _) = false |- _ =>
                 apply andb_false_iff in H; destruct H
             end;
      lia
    | split;
      [ first [ left; reflexivity
              | right; eexists; split; [eassumption | reflexivity] ]
      | split; assumption ] ] ].

Lemma main_gated (w : World) : gated notAfterExpiry w.
Proof.
  assert (H : triple
                (fun h => (notAfterExpiry (now w) /\ licensed w) \/
                          Forall (fun e => contactsCluster e = false) h)
                (main w)
                (fun _ _ => notAfterExpiry (now w) /\ licensed w)
                (fun _ h => (notAfterExpiry (now w) /\ licensed w) \/
                            Forall (fun e => contactsCluster e = false) h)).
  { symex_gen keep_invariant
      ltac:(intros h [Hg | Hq];
            [ left; exact Hg
            | first [ right; apply Forall_snoc; [reflexivity | exact Hq]
                    | left; passed_gate ] ])
      ltac:(intros; passed_gate)
      ltac:(intros; first [ assumption | passed_gate ]). }
  pose proof (triple_run _ _ _ _ H (or_intror (Forall_nil _))) as H1.
  unfold gated, haltedBeforeCluster.
  destruct (outcome (main w)) as [a | x].
  - left. exact H1.
  - destruct H1 as [Hg | Hq]; [left; exact Hg | right; eauto].
Qed.

Lemma main_expired (w : World) :
  time.Date 2022 time.March 14 0 0 0 0 < now w ->
  main w = ([], Exited (log_Fatalf
    "This demo has expired. Please email contact@openfaas.com for more information."
    [])).
Proof.
  intros H. unfold main, when.
  replace (time.After (now w) (time.Date 2022 time.March 14 0 0 0 0))
    with true by (symmetry; apply Z.ltb_lt; exact H).
  reflexivity.
Qed.

(** C8, as amended.  Every run of [main] either satisfies all of: (a) the
    current time is not after 2022-03-14 00:00:00 UTC, (b) a license is
    supplied by --license or --license-file, (c) the license (the flag,
    or the trimmed content of the file) loads against the public key,
    (d) its product list contains "openfaas-pro"; or it ends the process
    before any call that contacts the cluster.  After that instant the
    process ends at once, before the flags are parsed, in either mode. *)
Theorem startup_gated_by_expiry_and_license (w : World) :
  gated notAfterExpiry w /\
  (time.Date 2022 time.March 14 0 0 0 0 < now w ->
   main w = ([], Exited (log_Fatalf
     "This demo has expired. Please email contact@openfaas.com for more information."
     []))).
Proof.
  split; [apply main_gated | apply main_expired].
Qed.

(** One nanosecond after the date the example ends at once. *)
Lemma startup_gated_by_expiry_and_license_witness :
  outcome (main (Example.world (time.Date 2022 time.March 14 0 0 0 1)
                               false false None Example.allSync))
  = Exited (log_Fatalf
     "This demo has expired. Please email contact@openfaas.com for more information."
     []).
Proof.
  destruct (startup_gated_by_expiry_and_license
              (Example.world (time.Date 2022 time.March 14 0 0 0 1)
                             false false None Example.allSync)) as [_ H].
  rewrite H; [reflexivity | reflexivity].
Defined.

(** C8 as stated fails: at the very instant 2022-03-14 00:00:00 UTC the
    time is not before the date, yet the licensed example runs on and
    contacts the cluster. *)
Lemma expiry_instant_still_starts :
  ~ gated beforeExpiry Example.expiryInstantWorld.
Proof.
  intros [[Hlt _] | [[x Hx] _]].
  - unfold beforeExpiry in Hlt. cbn [now Example.expiryInstantWorld Example.world] in Hlt.
    exact (Z.lt_irrefl _ Hlt).
  - vm_compute in Hx. discriminate Hx.
Qed.

(* ================================================================= *)
(** ** C10: what [strconv.Atoi] returns next to an error *)

Lemma byte_range (c : ascii) : 0 <= strconv.byte c < 256.
Proof.
  unfold strconv.byte. pose proof (N_ascii_bounded c). lia.
Qed.

Lemma parseUintLoop_error (base cutoff maxVal : Z) (s : string) :
  forall n,
    (snd (strconv.parseUintLoop base cutoff maxVal s n) = Some strconv.ErrSyntax ->
     fst (strconv.parseUintLoop base cutoff maxVal s n) = 0) /\
    (snd (strconv.parseUintLoop base cutoff maxVal s n) = Some strconv.ErrRange ->
     fst (strconv.parseUintLoop base cutoff maxVal s n) = maxVal).
Proof.
  induction s as [| ch rest IH]; intros n; cbn [strconv.parseUintLoop].
  - split; discriminate.
  - repeat match goal with
           | |- context [if ?b then _ else _] => destruct b
           end; cbn [fst snd]; try (split; (reflexivity || discriminate));
      apply IH.
Qed.

Lemma ParseUint_error (s : string) :
  (snd (strconv.ParseUint s 10 0) = Some strconv.ErrSyntax ->
   fst (strconv.ParseUint s 10 0) = 0) /\
  (snd (strconv.ParseUint s 10 0) = Some strconv.ErrRange ->
   fst (strconv.ParseUint s 10 0) = 2 ^ 64 - 1).
Proof.
  unfold strconv.ParseUint.
  destruct (String.length s =? 0)%nat.
  - split; [reflexivity | discriminate].
  - apply parseUintLoop_error.
Qed.

Lemma ParseInt_error (s : string) :
  (snd (strconv.ParseInt s 10 0) = Some strconv.ErrSyntax ->
   fst (strconv.ParseInt s 10 0) = 0) /\
  (snd (strconv.ParseInt s 10 0) = Some strconv.ErrRange ->
   fst (strconv.ParseInt s 10 0) = 2 ^ 63 - 1 \/
   fst (strconv.ParseInt s 10 0) = - 2 ^ 63).
Proof.
  unfold strconv.ParseInt.
  destruct s as [| c0 rest]; [split; [reflexivity | discriminate] |].
  set (s' := if (strconv.byte c0 =? 43) || (strconv.byte c0 =? 45)
             then rest else String c0 rest).
  pose proof (ParseUint_error s') as [_ Hrange].
  destruct (strconv.ParseUint s' 10 0) as [un err].
  cbn [fst snd] in Hrange.
  destruct err as [[|] |].
  - split; [reflexivity | discriminate].
  - specialize (Hrange eq_refl). subst un.
    change (if 0 =? 0 then strconv.intSize else 0) with 64.
    destruct (strconv.byte c0 =? 45); cbn [negb andb fst snd].
    + split; [discriminate | intros _; right; reflexivity].
    + split; [discriminate | intros _; left; reflexivity].
  - change (if 0 =? 0 then strconv.intSize else 0) with 64.
    repeat match goal with
           | |- context [if ?b then _ else _] => destruct b
           end; cbn [fst snd]; split; try discriminate;
      intros _; (left; reflexivity) || (right; reflexivity).
Qed.

(** What [Atoi] returns next to each of its two errors. *)
Lemma Atoi_error (s : string) :
  (snd (strconv.Atoi s) = Some strconv.ErrSyntax -> fst (strconv.Atoi s) = 0) /\
  (snd (strconv.Atoi s) = Some strconv.ErrRange ->
   fst (strconv.Atoi s) = 2 ^ 63 - 1 \/ fst (strconv.Atoi s) = - 2 ^ 63).
Proof.
  unfold strconv.Atoi.
  destruct ((0 <? Z.of_nat (String.length s))
            && (Z.of_nat (String.length s) <? 19)).
  - destruct s as [| c0 rest]; [split; [reflexivity | discriminate] |].
    repeat match goal with
           | |- context [if ?b then _ else _] => destruct b
           | |- context [match ?x with Some _ => _ | None => _ end] =>
               destruct x
           end; cbn [fst snd]; split; (reflexivity || discriminate).
  - apply ParseInt_error.
Qed.

Lemma atoiFast_not_digits (s : string) :
  allDigits s = false -> forall n, strconv.atoiFast s n = None.
Proof.
  induction s as [| c rest IH]; cbn [allDigits strconv.atoiFast];
    [discriminate |].
  intros H n. unfold isDigit in H. pose proof (byte_range c) as Hc.
  destruct (9 <? (strconv.byte c - 48) mod 256) eqn:E; [reflexivity |].
  apply Z.ltb_ge in E.
  assert (Hd : 48 <= strconv.byte c <= 57).
  { destruct (Z_lt_ge_dec (strconv.byte c) 48) as [Hlt | Hge].
    - replace ((strconv.byte c - 48) mod 256) with (strconv.byte c + 208) in E;
        [lia |].
      apply (Zmod_unique _ _ (-1)); lia.
    - rewrite Z.mod_small in E by lia. lia. }
  replace ((48 <=? strconv.byte c) && (strconv.byte c <=? 57)) with true in H
    by (symmetry; apply andb_true_iff; split; apply Z.leb_le; lia).
  cbn [andb] in H. now apply IH.
Qed.

(** A short string that is no integer literal: a syntax error, value 0. *)
Lemma Atoi_short_not_integer (s : string) :
  isInteger s = false -> 0 < len s -> len s < 19 ->
  strconv.Atoi s = (0, Some strconv.ErrSyntax).
Proof.
  intros Hint Hpos Hshort. unfold strconv.Atoi. fold (len s).
  replace ((0 <? len s) && (len s <? 19)) with true
    by (symmetry; apply andb_true_iff; split; apply Z.ltb_lt; lia).
  destruct s as [| c0 rest]; [reflexivity |].
  unfold isInteger in Hint.
  rewrite (orb_comm (strconv.byte c0 =? 45)).
  destruct ((strconv.byte c0 =? 43) || (strconv.byte c0 =? 45)) eqn:Hs;
    cbn [andb].
  - destruct (String.length rest <? 1)%nat eqn:Hl; [reflexivity |].
    apply Nat.ltb_ge in Hl.
    replace (len rest =? 0) with false in Hint
      by (symmetry; apply Z.eqb_neq; unfold len; lia).
    cbn [negb andb] in Hint.
    now rewrite (atoiFast_not_digits rest Hint).
  - now rewrite (atoiFast_not_digits _ Hint).
Qed.

Lemma main_metricsClient (w : World) :
  Forall (fun e => match e with
                   | k8s_NewPrometheusQuery q => metricsClientFromEnv w q
                   | _ => True
                   end)
         (trace (main w)).
Proof.
  invariant ltac:(cbn beta iota; auto).
  all: unfold metricsClientFromEnv; cbn [k8s.Host k8s.Port]; split.
  all: match goal with
       | |- match ?x with _ => _ end => destruct x as [v |]
       end; try reflexivity.
  all: pose proof (len_nonneg v).
  all: destruct (len v =? 0) eqn:E;
    [ apply Z.eqb_eq in E; replace (0 <? len v) with false
        by (symmetry; apply Z.ltb_ge; lia); reflexivity
    | apply Z.eqb_neq in E; replace (0 <? len v) with true
        by (symmetry; apply Z.ltb_lt; lia) ].
  all: try reflexivity.
  all: split; [reflexivity |].
  all: split; [apply Atoi_error |].
  all: split; [apply Atoi_error |].
  all: intros Hint Hshort;
    rewrite (Atoi_short_not_integer v Hint) by lia; reflexivity.
Qed.

(** C10, as amended.  The metrics client is built with host "prometheus"
    and port 9090 where the respective variable is unset or empty, and
    otherwise with the value of prometheus_host and with whatever
    [strconv.Atoi] returns for prometheus_port, its error discarded: 0
    next to a syntax error - in particular for every string of fewer
    than 19 bytes that is no integer literal - and the largest or
    smallest [int] next to a range error. *)
Theorem metrics_client_from_environment
        (w : World) (q : k8s.PrometheusQuery) :
  In (k8s_NewPrometheusQuery q) (trace (main w)) ->
  metricsClientFromEnv w q.
Proof.
  intros Hin. pose proof (main_metricsClient w) as H.
  rewrite Forall_forall in H. exact (H _ Hin).
Qed.

Lemma overflowPort_query :
  In (k8s_NewPrometheusQuery
        {| k8s.Host := "prometheus"; k8s.Port := 9223372036854775807 |})
     (trace (main Example.overflowPortWorld)).
Proof.
  vm_compute. repeat (first [left; reflexivity | right]).
Qed.

(** With prometheus_port "99999999999999999999x" the port is the largest
    [int], next to a range error. *)
Lemma metrics_client_from_environment_witness :
  metricsClientFromEnv Example.overflowPortWorld
    {| k8s.Host := "prometheus"; k8s.Port := 9223372036854775807 |}
  /\ snd (strconv.Atoi "99999999999999999999x") = Some strconv.ErrRange.
Proof.
  split.
  - apply metrics_client_from_environment. exact overflowPort_query.
  - vm_compute. reflexivity.
Defined.

(** C10 as stated fails: prometheus_port "99999999999999999999x" is not
    empty and is no integer, yet the port is 9223372036854775807. *)
Lemma overflowing_port_is_not_zero :
  ~ invalidPortGivesZero Example.overflowPortWorld.
Proof.
  intros H.
  assert (Hport : k8s.Port {| k8s.Host := "prometheus";
                              k8s.Port := 9223372036854775807 |} = 0).
  { apply (H _ "99999999999999999999x" overflowPort_query).
    - reflexivity.
    - discriminate.
    - vm_compute. reflexivity. }
  discriminate Hport.
Qed.

(* ================================================================= *)
(** ** hasProduct *)

Lemma hasProduct_In (s : string) (l : list string) :
  hasProduct s l = true <-> In s l.
Proof.
  induction l as [| p l IH]; cbn [hasProduct In].
  - split; [discriminate | contradiction].
  - destruct (String.eqb p s) eqn:E.
    + apply String.eqb_eq in E. split; auto.
    + apply String.eqb_neq in E. rewrite IH.
      split; [auto | intros [H | H]; [contradiction | exact H]].
Qed.

(** X1.  [hasProduct] is membership: it answers true exactly when the
    sku is an element of the list - so never for the empty list - and it
    finds the sku in a list put together from two exactly when it finds
    it in one of them. *)
Theorem hasProduct_is_membership (s : string) (l1 l2 : list string) :
  (hasProduct s l1 = true <-> In s l1) /\
  hasProduct s [] = false /\
  hasProduct s (l1 ++ l2) = hasProduct s l1 || hasProduct s l2.
Proof.
  split; [apply hasProduct_In |]. split; [reflexivity |].
  induction l1 as [| p l1 IH]; cbn [hasProduct app orb]; [reflexivity |].
  destruct (String.eqb p s); [reflexivity | exact IH].
Qed.

(* ================================================================= *)
(** ** main: the license *)

Lemma main_verified_license (w : World) :
  Forall (fun e => match e with
                   | licensev1_LoadLicenseToken lic pk =>
                       pk = PublicKey w /\ 0 < len lic /\
                       exists fl, commandLine w = FlagsOk fl /\
                                  effectiveLicense w fl = Ok lic
                   | _ => True
                   end)
         (trace (main w)).
Proof.
  invariant ltac:(cbn beta iota; auto).
  all: split; [reflexivity |].
  all: split; [ match goal with
                | |- 0 < len ?s => pose proof (len_nonneg s)
                end; path_facts; lia |].
  all: eexists; split; [reflexivity |].
  all: unfold effectiveLicense.
  all: repeat match goal with H : _ = _ |- _ => rewrite H end.
  all: reflexivity.
Qed.

(** X2.  The license that is verified is never empty, is verified against the
    linked public key, and is the trimmed content of the license file
    whenever --license-file is given - the value of --license is used
    only without a license file. *)
Theorem license_file_overrides_flag (w : World) (lic pk : string) :
  In (licensev1_LoadLicenseToken lic pk) (trace (main w)) ->
  pk = PublicKey w /\ 0 < len lic /\
  exists fl, commandLine w = FlagsOk fl /\ effectiveLicense w fl = Ok lic.
Proof.
  intros Hin. pose proof (main_verified_license w) as H.
  rewrite Forall_forall in H. exact (H _ Hin).
Qed.

(** With both flags given, the license from the file is verified. *)
Lemma license_file_overrides_flag_witness :
  effectiveLicense (Scenario.fileLicense false)
                   (Scenario.flags "literal.license" "/var/secrets/license" false)
  = Ok "license.from.file".
Proof.
  destruct (license_file_overrides_flag (Scenario.fileLicense false)
              "license.from.file" "public-key") as (_ & _ & fl & Hfl & Heff).
  - vm_compute. auto 10.
  - injection Hfl as <-. exact Heff.
Defined.

(** X3.  A license file that is given but cannot be used ends the process by
    a panic right after the file is read, whether or not --license is
    given as well: with the read error when the file cannot be read, and
    with the request for a license when its content is blank.  The
    license library is not called. *)
Theorem unusable_license_file_panics (w : World) (fl : Flags) :
  now w <= time.Date 2022 time.March 14 0 0 0 0 ->
  commandLine w = FlagsOk fl ->
  0 < len (licenseFile fl) ->
  match readFile w (licenseFile fl) with
  | Err err =>
      trace (main w) = untilLicenseFile w fl /\
      outcome (main w) = Exited (panic (text err))
  | Ok res =>
      len (trimSpace w res) = 0 ->
      trace (main w) = untilLicenseFile w fl /\
      outcome (main w) = Exited (panic (text
        "provide an argument of -license or -license-file to continue using this product"))
  end.
Proof.
  intros Hnow Hfl Hfile.
  destruct (readFile w (licenseFile fl)) as [res | err] eqn:Hread;
    [intros Hblank |].
  all: runs_in (main w) idtac.
  all: unfold untilLicenseFile.
  all: match goal with
       | H : releaseInfo _ = _ |- _ => rewrite H
       end.
  all: split; reflexivity.
Qed.

(** Both flags are given: an unreadable file and a blank file each end
    the process by a panic, and the literal license is never verified. *)
Lemma unusable_license_file_panics_witness :
  outcome (main Scenario.unreadableFile)
  = Exited (panic (text "open /var/secrets/license: permission denied")) /\
  outcome (main Scenario.blankFile)
  = Exited (panic (text
      "provide an argument of -license or -license-file to continue using this product")).
Proof.
  split.
  - apply (unusable_license_file_panics Scenario.unreadableFile
             (Scenario.flags "literal.license" "/var/secrets/license" false));
      vm_compute; (reflexivity || discriminate).
  - apply (unusable_license_file_panics Scenario.blankFile
             (Scenario.flags "literal.license" "/var/secrets/license" false));
      vm_compute; (reflexivity || discriminate).
Defined.

Lemma main_Fprintf_Stderr_only_on_rejection (w : World) :
  Forall (fun e => match e with
                   | fmt_Fprintf_Stderr _ _ =>
                       exists fl lic err,
                         commandLine w = FlagsOk fl /\
                         effectiveLicense w fl = Ok lic /\
                         loadLicenseToken w lic (PublicKey w) = Err err
                   | _ => True
                   end)
         (trace (main w)).
Proof.
  invariant ltac:(cbn beta iota; auto).
  all: match goal with
       | Hl : loadLicenseToken _ ?lic _ = Err ?err |- _ => exists f, lic, err
       end.
  all: split; [reflexivity |].
  all: split; [ unfold effectiveLicense;
                repeat match goal with H : _ = _ |- _ => rewrite H end;
                reflexivity | assumption ].
Qed.

(** X4.  When the license library rejects the license in effect, [main]
    prints the error and then the public key with fmt.Fprintf on
    os.Stderr and ends the run by its own call os.Exit(1): the two
    prints are its last calls, right after the load of the license, and
    the first of their kind.  And [main] calls fmt.Fprintf on os.Stderr
    on no other occasion: every such call of a run means that the
    license in effect was rejected.  (What packages log and glog print,
    and the exits of their Fatalf, are calls of their own kind.) *)
Theorem rejected_license_is_reported_and_exits
        (w : World) (fl : Flags) (lic err : string) :
  now w <= time.Date 2022 time.March 14 0 0 0 0 ->
  commandLine w = FlagsOk fl ->
  effectiveLicense w fl = Ok lic ->
  0 < len lic ->
  loadLicenseToken w lic (PublicKey w) = Err err ->
  outcome (main w) = Exited (os_Exit 1) /\
  (exists pre,
     trace (main w)
     = (pre ++ [licensev1_LoadLicenseToken lic (PublicKey w);
                fmt_Fprintf_Stderr "%s\n" [str err];
                fmt_Fprintf_Stderr "PublicKey: %s\n" [str (PublicKey w)]])%list /\
     Forall (fun e => match e with
                      | fmt_Fprintf_Stderr _ _ => False
                      | _ => True
                      end) pre) /\
  forall w' format args,
    In (fmt_Fprintf_Stderr format args) (trace (main w')) ->
    exists fl' lic' err',
      commandLine w' = FlagsOk fl' /\
      effectiveLicense w' fl' = Ok lic' /\
      loadLicenseToken w' lic' (PublicKey w') = Err err'.
Proof.
  intros Hnow Hfl Heff Hlen Hload. split; [| split].
  3: { intros w' format args Hin.
       pose proof (main_Fprintf_Stderr_only_on_rejection w') as H.
       rewrite Forall_forall in H. exact (H _ Hin). }
  all: unfold effectiveLicense in Heff.
  all: destruct (0 <? len (licenseFile fl)) eqn:Hfile;
    [ destruct (readFile w (licenseFile fl)) as [res | err0] eqn:Hread;
      [| discriminate Heff] |].
  all: injection Heff as <-.
  all: runs_in (main w) idtac.
  all: try reflexivity.
  all: match goal with
       | |- exists pre, ?tr = _ /\ _ =>
           match tr with
           | [?a; ?b; ?c; ?d; _; _; _] => exists [a; b; c; d]
           | [?a; ?b; ?c; _; _; _] => exists [a; b; c]
           end
       end.
  all: split; [reflexivity | repeat constructor].
Qed.

(** The rejected license of the example: two lines on standard error,
    then os.Exit(1). *)
Lemma rejected_license_is_reported_and_exits_witness :
  outcome (main Scenario.rejectedLicense) = Exited (os_Exit 1) /\
  exists pre,
    trace (main Scenario.rejectedLicense)
    = (pre ++ [licensev1_LoadLicenseToken "literal.license" "public-key";
               fmt_Fprintf_Stderr "%s\n" [str "token is expired"];
               fmt_Fprintf_Stderr "PublicKey: %s\n" [str "public-key"]])%list.
Proof.
  destruct (rejected_license_is_reported_and_exits Scenario.rejectedLicense
              (Scenario.flags "literal.license" EmptyString false)
              "literal.license" "token is expired") as (Hout & Htr & _).
  - vm_compute. discriminate.
  - reflexivity.
  - reflexivity.
  - reflexivity.
  - reflexivity.
  - split; [exact Hout |].
    destruct Htr as (pre & Hpre & _). exists pre. exact Hpre.
Defined.

(** X5.  A license that the library accepts but that does not list the
    product "openfaas-pro" ends the process by a panic that names the
    product, right after the license is loaded: the licensee is not
    logged and no cluster configuration is built. *)
Theorem license_for_other_product_panics
        (w : World) (fl : Flags) (lic : string) (tok : licensev1.LicenseToken) :
  now w <= time.Date 2022 time.March 14 0 0 0 0 ->
  commandLine w = FlagsOk fl ->
  effectiveLicense w fl = Ok lic ->
  0 < len lic ->
  loadLicenseToken w lic (PublicKey w) = Ok tok ->
  ~ In "openfaas-pro" (licensev1.Products tok) ->
  outcome (main w)
  = Exited (panic (fmt_Errorf
      "this license is not valid for %q, contact support@openfaas.com"
      [str "openfaas-pro"])) /\
  last (trace (main w)) flag_Parse
  = licensev1_LoadLicenseToken lic (PublicKey w).
Proof.
  intros Hnow Hfl Heff Hlen Hload Hprod.
  assert (Hhas : hasProduct sku (licensev1.Products tok) = false).
  { destruct (hasProduct sku (licensev1.Products tok)) eqn:E; [| reflexivity].
    apply hasProduct_In in E. contradiction. }
  unfold effectiveLicense in Heff.
  destruct (0 <? len (licenseFile fl)) eqn:Hfile;
    [ destruct (readFile w (licenseFile fl)) as [res | err] eqn:Hread;
      [| discriminate Heff] |].
  all: injection Heff as <-.
  all: runs_in (main w) idtac.
  all: split; reflexivity.
Qed.

(** The license of the example is for inlets-pro only. *)
Lemma license_for_other_product_panics_witness :
  outcome (main Scenario.otherProduct)
  = Exited (panic (fmt_Errorf
      "this license is not valid for %q, contact support@openfaas.com"
      [str "openfaas-pro"])).
Proof.
  refine (proj1 (license_for_other_product_panics Scenario.otherProduct
                   (Scenario.flags "literal.license" EmptyString false)
                   "literal.license" _ _ eq_refl eq_refl _ eq_refl _)).
  - vm_compute. discriminate.
  - reflexivity.
  - cbn. intros [H | []]. discriminate H.
Defined.

(* ================================================================= *)
(** ** main: the cluster clients *)




(* ================================================================= *)
(** ** main: a failed call ends the process *)

Lemma failsLast_sound (w : World) (out : Outcome unit) (tr : list Event) :
  failsLast w out tr ->
  forall pre e post x,
    tr = (pre ++ e :: post)%list -> failure w e = Some x ->
    post = [] /\ out = Exited x.
Proof.
  induction tr as [| e0 tr IH]; intros H pre e post x Heq Hfail.
  - destruct pre; discriminate Heq.
  - destruct tr as [| e1 tr].
    + destruct pre as [| p pre]; cbn in Heq.
      * injection Heq as <- <-. split; [reflexivity | exact (H x Hfail)].
      * injection Heq as _ Heq. destruct pre; discriminate Heq.
    + destruct H as [Hnone Hrest].
      destruct pre as [| p pre]; cbn in Heq.
      * injection Heq as <- _. rewrite Hfail in Hnone. discriminate Hnone.
      * injection Heq as _ Heq. exact (IH Hrest pre e post x Heq Hfail).
Qed.

Lemma main_failsLast (w : World) :
  failsLast w (outcome (main w)) (trace (main w)).
Proof.
  all_runs (main w) idtac.
  all: cbn [failsLast failure].
  all: repeat match goal with
              | |- context [match ?x with _ => _ end] =>
                  match goal with H : x = _ |- _ => rewrite H end
              end.
  all: repeat split; intros; congruence.
Qed.

(** X7.  Fail-fast: a call that fails is the last call the process makes.  A
    flag-parsing exit, an unreadable license file, an error from
    BuildConfigFromFlags, from either NewForConfig, from reading the
    configuration or from the controller's Run, and a cache sync that
    returns false: each ends the process at once, in the way [failure]
    tells, and nothing is called after it. *)
Theorem failed_call_ends_the_process
        (w : World) (pre post : list Event) (e : Event) (x : Exit) :
  trace (main w) = (pre ++ e :: post)%list ->
  failure w e = Some x ->
  post = [] /\ outcome (main w) = Exited x.
Proof.
  intros Heq Hfail.
  exact (failsLast_sound w _ _ (main_failsLast w) pre e post x Heq Hfail).
Qed.

(** When the Kubernetes client cannot be built, the OpenFaaS client is
    not built either: the failed call is the seventh and last. *)
Lemma failed_call_ends_the_process_witness :
  skipn 7 (trace (main Scenario.noKubeClient)) = [] /\
  outcome (main Scenario.noKubeClient)
  = Exited (log_Fatalf "Error building Kubernetes clientset: %s"
                       [str "invalid configuration: no server found"]).
Proof.
  apply (failed_call_ends_the_process Scenario.noKubeClient
           (firstn 6 (trace (main Scenario.noKubeClient)))
           (skipn 7 (trace (main Scenario.noKubeClient)))
           (kubernetes_NewForConfig
              {| rest.Host := "https://10.96.0.1:443";
                 rest.QPS := 100; rest.Burst := 250 |})).
  - vm_compute. reflexivity.
  - reflexivity.
Defined.

(* ================================================================= *)
(** ** main: the probe timings of the DeploymentConfig *)

Lemma int32_narrowed (x : Z) : narrowed x (int32 x).
Proof.
  unfold narrowed, inInt32, int32.
  pose proof (Z.mod_pos_bound (x + 2 ^ 31) (2 ^ 32) eq_refl) as Hb.
  split; [lia |]. split.
  - exists (- ((x + 2 ^ 31) / 2 ^ 32)).
    pose proof (Z.div_mod (x + 2 ^ 31) (2 ^ 32)) as Hd. lia.
  - intros Hx. rewrite Z.mod_small by lia. lia.
Qed.

(** X8.  Each of the six probe timings of the [DeploymentConfig] that the
    function factory is built with is the configured value brought into
    the int32 range: the configured value itself when that fits in 32
    bits, and otherwise a value that differs from it by a multiple of
    2^32. *)
Theorem probe_timings_are_narrowed_to_int32
        (w : World) (cfg : config.BootstrapConfig) (f : k8s.FunctionFactory) :
  readConfig w = Ok cfg ->
  In (k8s_NewFunctionFactory f) (trace (main w)) ->
  Forall2 narrowed (configuredTimings cfg) (probeTimings (k8s.Config f)).
Proof.
  intros Hcfg Hin.
  pose proof (main_deployConfig w cfg Hcfg) as H.
  rewrite Forall_forall in H.
  rewrite (H _ Hin f (or_introl eq_refl)).
  unfold configuredTimings, probeTimings, deployConfigOf; cbn.
  repeat constructor; apply int32_narrowed.
Qed.

(** A configured readiness delay of 2^32 + 5 seconds reaches the
    function factory as 5 seconds. *)
Lemma probe_timings_are_narrowed_to_int32_witness :
  exists f,
    In (k8s_NewFunctionFactory f) (trace (main Scenario.longDelayWorld)) /\
    k8s.InitialDelaySeconds (k8s.ReadinessProbe (k8s.Config f)) = 5 /\
    Forall2 narrowed (configuredTimings Scenario.longDelay)
            (probeTimings (k8s.Config f)).
Proof.
  eexists. split; [| split].
  - apply (nth_error_In _ 13). vm_compute. reflexivity.
  - reflexivity.
  - apply (probe_timings_are_narrowed_to_int32 Scenario.longDelayWorld).
    + reflexivity.
    + apply (nth_error_In _ 13). vm_compute. reflexivity.
Defined.

(* ================================================================= *)
(** ** main: the metrics client in use *)

Lemma main_queries (w : World) (e : Event) (q : k8s.PrometheusQuery) :
  In e (trace (main w)) -> In q (queriesOf e) ->
  In (k8s_NewPrometheusQuery q) (trace (main w)).
Proof.
  revert e q.
  all_runs (main w) idtac.
  all: intros e q He Hq.
  all: destruct e; cbn [queriesOf] in Hq; try contradiction Hq.
  all: narrow He.
  all: try (injection He as <-; cbn in Hq; contradiction Hq).
  all: inversion He; subst; clear He; cbn in Hq.
  all: destruct Hq as [<- | []]; reveal; in_list.
Qed.

Lemma main_one_query (w : World) :
  (queryConstructions (trace (main w)) <= 1)%nat.
Proof.
  all_runs (main w) idtac.
  all: cbv [queryConstructions filter isNewPrometheusQuery List.length]; lia.
Qed.

Lemma filter_counts {X} (f : X -> bool) (x : X) (l : list X) :
  In x l -> f x = true -> (1 <= List.length (filter f l))%nat.
Proof.
  intros Hin Hf.
  assert (H : In x (filter f l)) by (apply filter_In; auto).
  destruct (filter f l); [contradiction | cbn; lia].
Qed.

(** X9.  The metrics client that the replica reader of the controller
    (alone and among the served handlers) and the server of the operator
    are given is the one [main] constructed with NewPrometheusQuery: that
    call is made exactly once in such a run, with that client, whose
    host and port are those the environment variables prometheus_host
    and prometheus_port decide. *)
Theorem metrics_client_in_use_is_the_one_built
        (w : World) (e : Event) (q : k8s.PrometheusQuery) :
  In e (trace (main w)) -> In q (queriesOf e) ->
  In (k8s_NewPrometheusQuery q) (trace (main w)) /\
  queryConstructions (trace (main w)) = 1%nat /\
  metricsClientFromEnv w q.
Proof.
  intros He Hq.
  pose proof (main_queries w e q He Hq) as Hin.
  pose proof (main_metricsClient w) as Hall.
  rewrite Forall_forall in Hall.
  split; [exact Hin |]. split; [| exact (Hall _ Hin)].
  pose proof (main_one_query w) as Hle.
  pose proof (filter_counts isNewPrometheusQuery _ _ Hin eq_refl) as Hge.
  unfold queryConstructions in *. lia.
Qed.

(** The server of the example operator holds the default metrics
    client, the one construction of that run. *)
Lemma metrics_client_in_use_is_the_one_built_witness :
  exists e, In e (trace (main Example.operatorWorld)) /\
            In Example.query (queriesOf e) /\
            queryConstructions (trace (main Example.operatorWorld)) = 1%nat /\
            metricsClientFromEnv Example.operatorWorld Example.query.
Proof.
  eexists. split; [| split].
  - apply (nth_error_In _ 29). vm_compute. reflexivity.
  - left. reflexivity.
  - eapply (metrics_client_in_use_is_the_one_built Example.operatorWorld).
    + apply (nth_error_In _ 29). vm_compute. reflexivity.
    + left. reflexivity.
Defined.

(* ================================================================= *)
(** ** startInformers *)


(** X11.  [startInformers] returns exactly when the cache of every informer it
    is to start syncs.  It then has started all of them, and hands back
    the Deployment and the Endpoints informer and, in operator mode, the
    Function informer it has started and synced - all but the Profile
    informer. *)
Theorem startInformers_returns_iff_all_sync
        (w : World) (setup : serverSetup.t) (op : bool) :
  (Forall (fun i => waitForCacheSync w i = true) (informersOfSetup setup op)
   <-> exists ci, outcome (startInformers w setup op) = Returned ci) /\
  forall ci, outcome (startInformers w setup op) = Returned ci ->
    informersRun (trace (startInformers w setup op))
    = informersOfSetup setup op /\
    (informersReturned ci
     ++ [cache.OfProfiles
           {| v1.profileFactory := serverSetup.profileInformerFactory setup |}])%list
    = informersOfSetup setup op.
Proof.
  all_runs (startInformers w setup op) idtac.
  all: reveal; cbn [informersRun flat_map app informersOfSetup].
  all: split;
    [ split;
      [ intros Hall;
        repeat match goal with
               | H : Forall _ (_ :: _) |- _ => inversion H; subst; clear H
               end;
        first [ eexists; reflexivity | congruence ]
      | intros [ci Hci];
        first [ discriminate Hci | repeat constructor; assumption ] ]
    | intros ci Hci; first [ discriminate Hci | injection Hci as <- ];
      split; reflexivity ].
Qed.

(* ================================================================= *)
(** ** runController: the handlers that are served *)

Lemma main_served (w : World) (cfg : config.BootstrapConfig) :
  readConfig w = Ok cfg ->
  Forall (fun e => match e with
                   | faasProvider_Serve hs c => servedFor cfg hs c
                   | _ => True
                   end)
         (trace (main w)).
Proof.
  intros Hcfg.
  apply run_inv.
  symex_in keep_invariant
    ltac:(intros; apply Forall_snoc; [ exact I | assumption ])
    ltac:(intros; apply Forall_snoc;
          [ first [ exact I
                  | reveal; unfold servedFor; cbn;
                    repeat split; repeat constructor; congruence ]
          | assumption ])
    ltac:(intros; assumption)
    ltac:(off_path).
Qed.

(** X12.  The imperative controller serves twelve handlers, each in the field
    of its own kind (the update route is an update handler, not a second
    deploy handler, and so on).  Every one that takes a namespace is made
    with the default function namespace - also when the cluster role is
    set, which only the namespace lister is told - the log handler has
    the provider's write timeout, and the provider is served with the
    FaaSConfig of the configuration read at startup. *)
Theorem handlers_served_for_config
        (w : World) (cfg : config.BootstrapConfig)
        (hs : FaaSHandlers.t) (c : providertypes.FaaSConfig) :
  readConfig w = Ok cfg ->
  In (faasProvider_Serve hs c) (trace (main w)) ->
  servedFor cfg hs c.
Proof.
  intros Hcfg Hin. pose proof (main_served w cfg Hcfg) as H.
  rewrite Forall_forall in H. exact (H _ Hin).
Qed.

(** The handlers the example controller serves. *)
Lemma handlers_served_for_config_witness :
  exists hs c,
    In (faasProvider_Serve hs c) (trace (main Example.controllerWorld)) /\
    servedFor (Example.cfg false) hs c.
Proof.
  do 2 eexists. split.
  - apply (nth_error_In _ 38). vm_compute. reflexivity.
  - apply (handlers_served_for_config Example.controllerWorld).
    + reflexivity.
    + apply (nth_error_In _ 38). vm_compute. reflexivity.
Defined.

(* ================================================================= *)
(** ** main: the caches behind the handlers *)

(** X13.  Every cache that a call reads through - the Endpoints cache of the
    function lookup and the proxy, the Deployment cache of the function
    and replica readers, the Profile cache of the function factory given
    to the deploy and update handlers and to the controller, the
    Endpoints and Deployment caches of the operator's server - belongs to
    an informer that [main] has started and whose wait for the sync has
    answered true. *)
Theorem handlers_read_synced_caches
        (w : World) (e : Event) (i : cache.SharedIndexInformer) :
  In e (trace (main w)) -> In i (informersReadBy e) ->
  exists name,
    In (go_Informer_Run i) (trace (main w)) /\
    In (cache_WaitForNamedCacheSync name i true) (trace (main w)).
Proof.
  revert e i.
  all_runs (main w) idtac.
  all: intros e i He Hi.
  all: destruct e; cbn [informersReadBy] in Hi; try contradiction Hi.
  all: narrow He.
  all: inversion He; subst; clear He; cbn in Hi.
  all: try contradiction Hi.
  all: repeat match goal with
              | H : _ \/ _ |- _ => destruct H as [<- | H]
              | H : False |- _ => destruct H
              end.
  all: eexists; split; in_list_conv.
Qed.

(** The handlers the example controller serves read synced caches. *)
Lemma handlers_read_synced_caches_witness :
  exists e i name,
    In e (trace (main Example.controllerWorld)) /\
    In i (informersReadBy e) /\
    In (cache_WaitForNamedCacheSync name i true)
       (trace (main Example.controllerWorld)).
Proof.
  assert (H : exists e i, In e (trace (main Example.controllerWorld)) /\
                          In i (informersReadBy e)).
  { do 2 eexists. split.
    - apply (nth_error_In _ 38). vm_compute. reflexivity.
    - left. reflexivity. }
  destruct H as (e & i & He & Hi).
  destruct (handlers_read_synced_caches Example.controllerWorld e i He Hi)
    as (name & _ & Hwait).
  exists e, i, name. auto.
Defined.

(* ================================================================= *)
(** ** runOperator: the controller and the server *)

(** X14.  Whenever the controller's Run is called, the last four calls of the
    process are: NewController, server.New, the start of that server, and
    Run on that controller with one worker.  The server is given the
    clients of the controller and the Endpoints informer and Deployment
    lister of the controller's kube informer factory. *)
Theorem operator_runs_what_it_built
        (w : World) (c : controller.Controller) (n : Z) :
  In (ctrl_Run c n) (trace (main w)) ->
  operatorStarted c (trace (main w)).
Proof.
  all_runs (main w) idtac.
  all: intros Hin; narrow Hin.
  all: injection Hin as <- <-.
  all: unfold operatorStarted.
  all: match goal with
       | |- exists pre s, ?tr = _ /\ _ =>
           let n := eval cbv in (List.length tr - 4)%nat in
           exists (firstn n tr);
           match tr with
           | context [go_srv_Start ?s] => exists s
           end
       end.
  all: repeat split.
Qed.

(** The controller the example operator runs. *)
Lemma operator_runs_what_it_built_witness :
  exists c, operatorStarted c (trace (main Example.operatorWorld)).
Proof.
  eexists.
  eapply (operator_runs_what_it_built Example.operatorWorld _ 1).
  apply (nth_error_In _ 31). vm_compute. reflexivity.
Defined.

(* ================================================================= *)
(** ** The signal handler *)

(** X15.  The signal handler is set up at most once in a run, and exactly once
    in every run that starts an informer. *)
Theorem signal_handler_is_set_up_once (w : World) :
  (signalHandlers (trace (main w)) <= 1)%nat /\
  (informersRun (trace (main w)) <> [] ->
   signalHandlers (trace (main w)) = 1%nat).
Proof.
  all_runs (main w) idtac.
  all: cbv [signalHandlers filter isSetupSignalHandler List.length
            informersRun flat_map app].
  all: split; [ lia | intros Hrun; first [ reflexivity | now elim Hrun ] ].
Qed.

(* ================================================================= *)
(** ** main: a decimal prometheus_port *)

Lemma atoiFast_app (s t : string) :
  forall a, strconv.atoiFast (s ++ t) a
            = match strconv.atoiFast s a with
              | Some b => strconv.atoiFast t b
              | None => None
              end.
Proof.
  induction s as [| c s IH]; intros a; cbn [append strconv.atoiFast].
  - reflexivity.
  - destruct (9 <? (strconv.byte c - 48) mod 256); [reflexivity | apply IH].
Qed.

Lemma byte_of_digit (m : Z) :
  0 <= m < 10 -> strconv.byte (ascii_of_N (Z.to_N (48 + m))) = 48 + m.
Proof.
  intros Hm. unfold strconv.byte.
  rewrite N_ascii_embedding by lia. lia.
Qed.

Lemma length_snoc (s : string) (c : ascii) :
  String.length (s ++ String c EmptyString) = S (String.length s).
Proof. induction s as [| c0 s IH]; cbn; [reflexivity | now rewrite IH]. Qed.

Lemma append_snoc (s acc : string) (c : ascii) :
  (s ++ String c acc)%string = ((s ++ String c EmptyString) ++ acc)%string.
Proof. induction s as [| c0 s IH]; cbn; [reflexivity | now rewrite IH]. Qed.

Lemma append_empty (s : string) : (s ++ EmptyString)%string = s.
Proof. induction s as [| c s IH]; cbn; [reflexivity | now rewrite IH]. Qed.

(** The digits of [n] are characters that [atoiFast] reads back. *)
Lemma decimalDigits_read (fuel : nat) :
  forall n acc, 0 <= n < 10 ^ Z.of_nat (S fuel) ->
    exists s,
      decimalDigits (S fuel) n acc = (s ++ acc)%string /\
      (1 <= String.length s <= S fuel)%nat /\
      forall a, strconv.atoiFast s a
                = Some (a * 10 ^ Z.of_nat (String.length s) + n).
Proof.
  induction fuel as [| fuel IH]; intros n acc Hn.
  all: cbn [decimalDigits].
  all: set (c := ascii_of_N (Z.to_N (48 + n mod 10))).
  all: pose proof (Z.mod_pos_bound n 10 eq_refl) as Hmod.
  all: assert (Hd : forall a, strconv.atoiFast (String c EmptyString) a
                              = Some (a * 10 + n mod 10))
    by (intros a; unfold c; cbn [strconv.atoiFast];
        rewrite byte_of_digit by lia;
        replace (48 + n mod 10 - 48) with (n mod 10) by lia;
        rewrite Z.mod_small by lia;
        replace (9 <? n mod 10) with false by (symmetry; apply Z.ltb_ge; lia);
        reflexivity).
  all: destruct (n <? 10) eqn:Hlt;
    [ apply Z.ltb_lt in Hlt | apply Z.ltb_ge in Hlt ].
  1, 3: exists (String c EmptyString); split; [reflexivity |];
    split; [cbn; lia |];
    intros a; rewrite Hd; rewrite Z.mod_small by lia;
    change (Z.of_nat (String.length (String c EmptyString))) with 1;
    f_equal; lia.
  - change (10 ^ Z.of_nat 1) with 10 in Hn. lia.
  - assert (Hq : 0 <= n / 10 < 10 ^ Z.of_nat (S fuel)).
    { split; [apply Z.div_pos; lia |].
      apply Z.div_lt_upper_bound; [lia |].
      replace (Z.of_nat (S (S fuel))) with (Z.of_nat (S fuel) + 1) in Hn by lia.
      rewrite Z.pow_add_r in Hn by lia. lia. }
    destruct (IH (n / 10) (String c acc) Hq) as (s & Hs & Hlen & Hread).
    exists (s ++ String c EmptyString)%string. split; [| split].
    + cbn [decimalDigits] in Hs. rewrite Hs. apply append_snoc.
    + rewrite length_snoc. lia.
    + intros a. rewrite atoiFast_app, Hread, Hd, length_snoc. f_equal.
      replace (Z.of_nat (S (String.length s)))
        with (Z.of_nat (String.length s) + 1) by lia.
      rewrite Z.pow_add_r by lia.
      pose proof (Z.div_mod n 10). lia.
Qed.

Lemma atoiFast_first_is_digit (c : ascii) (s : string) (a v : Z) :
  strconv.atoiFast (String c s) a = Some v ->
  48 <= strconv.byte c <= 57.
Proof.
  cbn [strconv.atoiFast]. pose proof (byte_range c) as Hc.
  destruct (9 <? (strconv.byte c - 48) mod 256) eqn:E; [discriminate |].
  intros _. apply Z.ltb_ge in E.
  destruct (Z_lt_ge_dec (strconv.byte c) 48) as [Hlt | Hge].
  - replace ((strconv.byte c - 48) mod 256) with (strconv.byte c + 208) in E;
      [lia |].
    apply (Zmod_unique _ _ (-1)); lia.
  - rewrite Z.mod_small in E by lia. lia.
Qed.

(** [Atoi] reads the decimal numeral of [z] back, without an error. *)
Lemma Atoi_decimal (z : Z) :
  - 10 ^ 17 < z < 10 ^ 17 -> strconv.Atoi (decimal z) = (z, None).
Proof.
  intros Hz. unfold decimal.
  destruct (z <? 0) eqn:Hneg.
  - apply Z.ltb_lt in Hneg.
    destruct (decimalDigits_read 16 (- z) EmptyString) as (s & Hs & Hlen & Hread).
    { change (Z.of_nat 17) with 17. lia. }
    rewrite Hs.
    rewrite append_empty. unfold strconv.Atoi. cbn [String.length].
    replace ((0 <? Z.of_nat (S (String.length s)))
             && (Z.of_nat (S (String.length s)) <? 19)) with true
      by (symmetry; apply andb_true_iff; split; apply Z.ltb_lt; lia).
    change (strconv.byte "-") with 45. cbn [Z.eqb Pos.eqb orb andb].
    replace (String.length s <? 1)%nat with false
      by (symmetry; apply Nat.ltb_ge; lia).
    rewrite Hread. f_equal; lia.
  - apply Z.ltb_ge in Hneg.
    destruct (decimalDigits_read 16 z EmptyString) as (s & Hs & Hlen & Hread).
    { change (Z.of_nat 17) with 17. lia. }
    rewrite Hs.
    rewrite append_empty. unfold strconv.Atoi.
    replace ((0 <? Z.of_nat (String.length s))
             && (Z.of_nat (String.length s) <? 19)) with true
      by (symmetry; apply andb_true_iff; split; apply Z.ltb_lt; lia).
    destruct s as [| c s]; [cbn in Hlen; lia |].
    pose proof (atoiFast_first_is_digit c s 0 _ (Hread 0)) as Hc.
    replace (strconv.byte c =? 45) with false by (symmetry; apply Z.eqb_neq; lia).
    replace (strconv.byte c =? 43) with false by (symmetry; apply Z.eqb_neq; lia).
    cbn [orb andb]. rewrite Hread. f_equal; lia.
Qed.

Lemma decimalDigits_length (fuel : nat) :
  forall n acc,
    (String.length acc <= String.length (decimalDigits fuel n acc))%nat.
Proof.
  induction fuel as [| fuel IH]; intros n acc; cbn [decimalDigits]; [lia |].
  destruct (n <? 10); [cbn; lia |].
  eapply Nat.le_trans; [| apply IH]. cbn. lia.
Qed.

Lemma decimalDigits_not_empty (fuel : nat) (n : Z) (acc : string) :
  (1 <= String.length (decimalDigits (S fuel) n acc))%nat.
Proof.
  cbn [decimalDigits]. destruct (n <? 10); [cbn; lia |].
  eapply Nat.le_trans; [| apply decimalDigits_length]. cbn. lia.
Qed.

Lemma decimal_not_empty (z : Z) : 0 < len (decimal z).
Proof.
  unfold decimal, len. destruct (z <? 0); [cbn [String.length]; lia |].
  pose proof (decimalDigits_not_empty 16 z EmptyString). lia.
Qed.

(** X16.  A prometheus_port that is the decimal numeral of an integer of at
    most 17 digits - negative or not, in the range of ports or not -
    becomes the port of the metrics client as it is: [main] does not
    check the range. *)
Theorem decimal_port_is_used_as_is
        (w : World) (z : Z) (q : k8s.PrometheusQuery) :
  - 10 ^ 17 < z < 10 ^ 17 ->
  lookupEnv w "prometheus_port" = Some (decimal z) ->
  In (k8s_NewPrometheusQuery q) (trace (main w)) ->
  k8s.Port q = z.
Proof.
  intros Hz Henv Hin.
  pose proof (main_metricsClient w) as H.
  rewrite Forall_forall in H. destruct (H _ Hin) as [_ Hport].
  rewrite Henv in Hport.
  pose proof (decimal_not_empty z) as Hlen.
  replace (len (decimal z) =? 0) with false in Hport
    by (symmetry; apply Z.eqb_neq; lia).
  destruct Hport as [-> _]. rewrite (Atoi_decimal z Hz). reflexivity.
Qed.

(** prometheus_port 9091 gives port 9091, and -1 gives port -1. *)
Lemma decimal_port_is_used_as_is_witness :
  decimal 9091 = "9091" /\ decimal (-1) = "-1" /\
  (exists q, In (k8s_NewPrometheusQuery q)
               (trace (main (Example.world Example.newYear false false
                                           (Some "9091") Example.allSync))) /\
             k8s.Port q = 9091) /\
  (exists q, In (k8s_NewPrometheusQuery q)
               (trace (main (Example.world Example.newYear false false
                                           (Some "-1") Example.allSync))) /\
             k8s.Port q = -1).
Proof.
  split; [reflexivity |]. split; [reflexivity |]. split.
  - eexists. split.
    + apply (nth_error_In _ 16). vm_compute. reflexivity.
    + apply (decimal_port_is_used_as_is
               (Example.world Example.newYear false false (Some "9091")
                              Example.allSync) 9091).
      * lia.
      * reflexivity.
      * apply (nth_error_In _ 16). vm_compute. reflexivity.
  - eexists. split.
    + apply (nth_error_In _ 16). vm_compute. reflexivity.
    + apply (decimal_port_is_used_as_is
               (Example.world Example.newYear false false (Some "-1")
                              Example.allSync) (-1)).
      * lia.
      * reflexivity.
      * apply (nth_error_In _ 16). vm_compute. reflexivity.
Defined.

(* ================================================================= *)
(** ** main: when startup succeeds *)

Ltac never_unsynced :=
  match goal with
  | Hall : forall i, waitForCacheSync _ i = true,
    H : waitForCacheSync _ _ = false |- _ =>
      rewrite Hall in H; discriminate H
  end.

Ltac never_stopped :=
  match goal with
  | Hrun : ?a = ?a -> Some _ = None |- _ => discriminate (Hrun eq_refl)
  end.

(** X17.  Startup succeeds - [main] returns, having served the handlers or run
    the controller as its last call - whenever the time is not after the
    expiry date, the flags parse, the license in effect is not empty,
    loads and lists the product, the client configuration, both clients
    and the configuration can be obtained, every cache syncs and, in
    operator mode, the controller's Run returns no error. *)
Theorem startup_succeeds
        (w : World) (fl : Flags) (lic : string) (tok : licensev1.LicenseToken)
        (c0 : rest.Config) (cfg : config.BootstrapConfig) :
  now w <= time.Date 2022 time.March 14 0 0 0 0 ->
  commandLine w = FlagsOk fl ->
  effectiveLicense w fl = Ok lic ->
  0 < len lic ->
  loadLicenseToken w lic (PublicKey w) = Ok tok ->
  In "openfaas-pro" (licensev1.Products tok) ->
  buildConfigFromFlags w (masterURL fl) (kubeconfig fl) = Ok c0 ->
  kubernetesNewForConfig w
    {| rest.Host := rest.Host c0; rest.QPS := 100; rest.Burst := 250 |} = None ->
  clientsetNewForConfig w
    {| rest.Host := rest.Host c0; rest.QPS := 100; rest.Burst := 250 |} = None ->
  readConfig w = Ok cfg ->
  (forall i, waitForCacheSync w i = true) ->
  (operator fl = true -> controllerRun w = None) ->
  outcome (main w) = Returned tt /\ startedMode fl cfg (trace (main w)).
Proof.
  intros Hnow Hfl Heff Hlen Hload Hprod Hbuild Hkube Hfaas Hcfg Hsync Hrun.
  apply hasProduct_In in Hprod. fold sku in Hprod.
  unfold effectiveLicense in Heff.
  destruct (0 <? len (licenseFile fl)) eqn:Hfile;
    [ destruct (readFile w (licenseFile fl)) as [res | err] eqn:Hread;
      [| discriminate Heff] |].
  all: injection Heff as <-.
  all: pattern (outcome (main w)), (trace (main w)); apply run_spec;
    symex_in record_call
      ltac:(intros ? ->; reflexivity)
      ltac:(intros ? ->; cbv [rev app])
      ltac:(intros ? ->; cbv [rev app])
      ltac:(first [ off_path | never_unsynced | never_stopped ]).
  all: unfold startedMode.
  all: match goal with H : operator _ = _ |- _ => rewrite H end.
  all: split; [reflexivity | eexists; reflexivity].
Qed.

(** The licensed example starts in both modes. *)
Lemma startup_succeeds_witness :
  outcome (main (Scenario.fileLicense false)) = Returned tt /\
  outcome (main (Scenario.fileLicense true)) = Returned tt.
Proof.
  split.
  - refine (proj1 (startup_succeeds (Scenario.fileLicense false)
                     (Scenario.flags "literal.license" "/var/secrets/license" false)
                     "license.from.file" Example.token Scenario.restConfig
                     (Example.cfg false) _ eq_refl eq_refl _ eq_refl _
                     eq_refl eq_refl eq_refl eq_refl _ _)).
    + vm_compute. discriminate.
    + reflexivity.
    + left. reflexivity.
    + reflexivity.
    + discriminate.
  - refine (proj1 (startup_succeeds (Scenario.fileLicense true)
                     (Scenario.flags "literal.license" "/var/secrets/license" true)
                     "license.from.file" Example.token Scenario.restConfig
                     (Example.cfg false) _ eq_refl eq_refl _ eq_refl _
                     eq_refl eq_refl eq_refl eq_refl _ _)).
    + vm_compute. discriminate.
    + reflexivity.
    + left. reflexivity.
    + reflexivity.
    + reflexivity.
Defined.

(** X18.  Conversely, a run of [main] that returns has met every one of those
    conditions: the time was not after the expiry date, the flags
    parsed, the license in effect was not empty, loaded and listed the
    product, the client configuration, both clients and the
    configuration were obtained, every wait for a cache sync answered
    true, and in operator mode the controller's Run returned no error. *)
Theorem return_means_startup_succeeded (w : World) :
  outcome (main w) = Returned tt ->
  now w <= time.Date 2022 time.March 14 0 0 0 0 /\
  exists fl lic tok c0 cfg,
    commandLine w = FlagsOk fl /\
    effectiveLicense w fl = Ok lic /\ 0 < len lic /\
    loadLicenseToken w lic (PublicKey w) = Ok tok /\
    In "openfaas-pro" (licensev1.Products tok) /\
    buildConfigFromFlags w (masterURL fl) (kubeconfig fl) = Ok c0 /\
    kubernetesNewForConfig w
      {| rest.Host := rest.Host c0; rest.QPS := 100; rest.Burst := 250 |}
    = None /\
    clientsetNewForConfig w
      {| rest.Host := rest.Host c0; rest.QPS := 100; rest.Burst := 250 |}
    = None /\
    readConfig w = Ok cfg /\
    Forall (fun e => match e with
                     | cache_WaitForNamedCacheSync _ i ok =>
                         ok = true /\ waitForCacheSync w i = true
                     | _ => True
                     end) (trace (main w)) /\
    (operator fl = true -> controllerRun w = None) /\
    startedMode fl cfg (trace (main w)).
Proof.
  all_runs (main w) idtac.
  all: intros Hret; try discriminate Hret; clear Hret.
  all: split; [ path_facts; assumption |].
  all: match goal with
       | Hl : loadLicenseToken _ ?lic _ = Ok ?tok,
         Hb : buildConfigFromFlags _ _ _ = Ok ?c0,
         Hc : readConfig _ = Ok ?cfg |- _ =>
           exists f, lic, tok, c0, cfg
       end.
  all: split; [reflexivity |].
  all: split; [ unfold effectiveLicense;
                repeat match goal with
                       | H : (0 <? _) = _ |- _ => rewrite H
                       | H : readFile _ _ = _ |- _ => rewrite H
                       end; reflexivity |].
  all: split; [ match goal with
                | |- 0 < len ?s => pose proof (len_nonneg s)
                end;
                repeat match goal with
                       | H : (len _ =? 0) = false |- _ => apply Z.eqb_neq in H
                       end; lia |].
  all: split; [assumption |].
  all: split; [ apply hasProduct_In; assumption |].
  all: split; [assumption |].
  all: split; [assumption |].
  all: split; [assumption |].
  all: split; [reflexivity |].
  all: split; [ repeat constructor; assumption |].
  all: split; [ intros; first [ assumption | congruence ] |].
  all: unfold startedMode;
    match goal with H : operator _ = _ |- _ => rewrite H end;
    eexists; reflexivity.
Qed.

(** The example controller returns, so its license lists the product. *)
Lemma return_means_startup_succeeded_witness :
  now Example.controllerWorld <= time.Date 2022 time.March 14 0 0 0 0 /\
  exists tok,
    loadLicenseToken Example.controllerWorld "signed.license.token"
                     "public-key" = Ok tok /\
    In "openfaas-pro" (licensev1.Products tok).
Proof.
  destruct (return_means_startup_succeeded Example.controllerWorld eq_refl)
    as (Hnow & fl & lic & tok & c0 & cfg & Hfl & Heff & _ & Hload & Hprod & _).
  split; [exact Hnow |].
  exists tok. split; [| exact Hprod].
  injection Hfl as <-. injection Heff as <-. exact Hload.
Defined.

(* ================================================================= *)
(** ** setupLogging *)

Section FlagLemmas.

Context {H : Type}.

Lemma Lookup_none (f : flag.FlagSet H) (name : string) :
  flag.Lookup f name = None <-> ~ In name (map flag.Name f).
Proof.
  induction f as [| g f IH]; cbn [flag.Lookup map In].
  - split; [intros _ [] | reflexivity].
  - destruct (String.eqb (flag.Name g) name) eqn:E.
    + apply String.eqb_eq in E. split; [discriminate | intros Hn; elim Hn; auto].
    + apply String.eqb_neq in E. rewrite IH. split.
      * intros Hn [He | Hin]; [exact (E He) | exact (Hn Hin)].
      * intros Hn Hin. apply Hn. now right.
Qed.

Lemma insertByName_In (fl x : flag.Flag H) (l : list (flag.Flag H)) :
  In x (flag.insertByName fl l) <-> x = fl \/ In x l.
Proof.
  induction l as [| g l IH]; cbn [flag.insertByName In].
  - intuition congruence.
  - destruct (String.leb (flag.Name fl) (flag.Name g)); cbn [In].
    + intuition congruence.
    + rewrite IH. intuition congruence.
Qed.

Lemma sortFlags_In (f : flag.FlagSet H) (x : flag.Flag H) :
  In x (flag.sortFlags f) <-> In x f.
Proof.
  induction f as [| g f IH]; [cbn; tauto |].
  change (flag.sortFlags (g :: f))
    with (flag.insertByName g (flag.sortFlags f)).
  rewrite insertByName_In, IH. cbn [In]. intuition congruence.
Qed.

Lemma insertByName_NoDup (fl : flag.Flag H) (l : list (flag.Flag H)) :
  ~ In (flag.Name fl) (map flag.Name l) ->
  NoDup (map flag.Name l) ->
  NoDup (map flag.Name (flag.insertByName fl l)).
Proof.
  induction l as [| g l IH]; cbn [flag.insertByName map]; intros Hn Hd.
  - constructor; [intros [] | constructor].
  - destruct (String.leb (flag.Name fl) (flag.Name g)); cbn [map].
    + constructor; assumption.
    + inversion Hd as [| ? ? Hg Hl]; subst. constructor.
      * intros Hin. apply in_map_iff in Hin. destruct Hin as (y & Hy & Hin).
        apply insertByName_In in Hin. destruct Hin as [-> | Hin].
        -- apply Hn. left. now symmetry.
        -- apply Hg. rewrite <- Hy. now apply in_map.
      * apply IH; [| assumption]. intros Hin. apply Hn. now right.
Qed.

Lemma sortFlags_NoDup (f : flag.FlagSet H) :
  NoDup (map flag.Name f) -> NoDup (map flag.Name (flag.sortFlags f)).
Proof.
  induction f as [| g f IH]; intros Hd.
  - constructor.
  - inversion Hd as [| ? ? Hg Hf]; subst.
    change (flag.sortFlags (g :: f))
      with (flag.insertByName g (flag.sortFlags f)).
    apply insertByName_NoDup; [| exact (IH Hf)].
    intros Hin. apply Hg. apply in_map_iff in Hin.
    destruct Hin as (y & Hy & Hin). apply (proj1 (sortFlags_In f y)) in Hin.
    rewrite <- Hy. now apply in_map.
Qed.

Lemma syncFlag_setFrom (klog : flag.FlagSet H) (f1 f2 : flag.Flag H) (h : H) :
  flag.Lookup klog (flag.Name f1) = Some f2 ->
  syncFlag klog f1 h = setFrom f1 f2 h.
Proof.
  intros E. unfold syncFlag, setFrom. rewrite E.
  now destruct (flag.valueSet (flag.value f2)
                  (flag.valueString (flag.value f1) h) h).
Qed.

(** What every sync of a flag of [l] keeps, the visit of [l] keeps. *)
Lemma visit_keeps (klog : flag.FlagSet H) (P : H -> Prop)
      (l : list (flag.Flag H)) :
  keptBySyncs l klog P ->
  forall h, P h -> P (fold_left (fun h fl => syncFlag klog fl h) l h).
Proof.
  induction l as [| f1 l IH]; intros Hkeep h Hh; cbn [fold_left];
    [exact Hh |].
  apply IH.
  - intros g1 g2 h' Hin. apply Hkeep. now right.
  - destruct (flag.Lookup klog (flag.Name f1)) as [f2 |] eqn:E.
    + rewrite (syncFlag_setFrom klog f1 f2 h E).
      exact (Hkeep f1 f2 h (or_introl eq_refl) E Hh).
    + unfold syncFlag. now rewrite E.
Qed.

(** What the sync of [f1] brings about, in the states that satisfy [I],
    and the syncs of the other names keep, holds after the visit of a
    list with [f1] in it. *)
Lemma visit_brings (klog : flag.FlagSet H) (I Q : H -> Prop)
      (f1 f2 : flag.Flag H) (l : list (flag.Flag H)) :
  NoDup (map flag.Name l) -> In f1 l ->
  flag.Lookup klog (flag.Name f1) = Some f2 ->
  keptBySyncs l klog I ->
  (forall h, I h -> Q (setFrom f1 f2 h)) ->
  (forall g1 g2 h, In g1 l -> flag.Name g1 <> flag.Name f1 ->
                   flag.Lookup klog (flag.Name g1) = Some g2 ->
                   I h -> Q h -> Q (setFrom g1 g2 h)) ->
  forall h, I h -> Q (fold_left (fun h fl => syncFlag klog fl h) l h).
Proof.
  induction l as [| g l IH]; intros Hd Hin Hlk HI Hset Hkeep h Hh;
    [contradiction |].
  inversion Hd as [| ? ? Hg Hl]; subst. cbn [fold_left].
  assert (HIg : I (syncFlag klog g h)).
  { destruct (flag.Lookup klog (flag.Name g)) as [g2 |] eqn:E.
    - rewrite (syncFlag_setFrom klog g g2 h E).
      exact (HI g g2 h (or_introl eq_refl) E Hh).
    - unfold syncFlag. now rewrite E. }
  assert (HIl : keptBySyncs l klog I).
  { intros g1 g2 h' Hin'. apply HI. now right. }
  destruct Hin as [-> | Hin].
  - assert (Hboth : (fun h' => I h' /\ Q h')
                      (fold_left (fun h fl => syncFlag klog fl h) l
                                 (syncFlag klog f1 h))).
    { apply visit_keeps.
      - intros g1 g2 h' Hin' Hlk' [Hi Hq]. split.
        + exact (HIl g1 g2 h' Hin' Hlk' Hi).
        + apply Hkeep; [now right | | exact Hlk' | exact Hi | exact Hq].
          intros Heq. apply Hg. rewrite <- Heq. now apply in_map.
      - split; [exact HIg |].
        rewrite (syncFlag_setFrom klog f1 f2 h Hlk). now apply Hset. }
    exact (proj2 Hboth).
  - apply IH; auto.
    intros g1 g2 h' Hin'. apply Hkeep. now right.
Qed.

End FlagLemmas.

(** X19.  setupLogging changes the state of the program only by calling
    Set on logging flags whose name is also the name of a flag of the
    command line, with what that flag's String() shows: whatever all
    those calls keep, setupLogging keeps.  And for every such name the
    call is made: what it brings about holds afterwards, provided the
    calls for the other common names keep it.  Flags are not changed one
    by one: logging flags bound to one variable change together. *)
Theorem setupLogging_syncs_by_name
        {H : Type} (CommandLine klog : flag.FlagSet H) (h : H) :
  NoDup (map flag.Name CommandLine) ->
  (forall P : H -> Prop,
      keptBySyncs CommandLine klog P ->
      P h -> P (setupLogging CommandLine klog h)) /\
  (forall (I Q : H -> Prop) f1 f2,
      In f1 CommandLine ->
      flag.Lookup klog (flag.Name f1) = Some f2 ->
      keptBySyncs CommandLine klog I -> I h ->
      (forall h', I h' -> Q (setFrom f1 f2 h')) ->
      (forall g1 g2 h', In g1 CommandLine ->
                        flag.Name g1 <> flag.Name f1 ->
                        flag.Lookup klog (flag.Name g1) = Some g2 ->
                        I h' -> Q h' -> Q (setFrom g1 g2 h')) ->
      Q (setupLogging CommandLine klog h)).
Proof.
  intros Hd. unfold setupLogging, flag.VisitAll. split.
  - intros P Hkeep Hh. apply visit_keeps; [| exact Hh].
    intros f1 f2 h' Hin. apply Hkeep. now apply sortFlags_In.
  - intros I Q f1 f2 Hin Hlk HI Hh Hset Hkeep.
    apply (visit_brings klog I Q f1 f2).
    + now apply sortFlags_NoDup.
    + now apply sortFlags_In.
    + exact Hlk.
    + intros g1 g2 h' Hin'. apply HI. now apply sortFlags_In.
    + exact Hset.
    + intros g1 g2 h' Hin'. apply Hkeep. now apply sortFlags_In.
    + exact Hh.
Qed.

(** With -add_dir_header and -log_dir=/var/log on the command line, the
    variable that the logging flags add_dir_header and skip_headers
    share becomes true - so skip_headers shows true as well - while
    logtostderr keeps its value. *)
Lemma setupLogging_syncs_by_name_witness :
  setupLogging Logging.withLoggingFlags Logging.klogFlags Logging.parsed
               "logging.skipHeaders" = flag.boolValue true /\
  setupLogging Logging.withLoggingFlags Logging.klogFlags Logging.parsed
               "logging.toStderr" = flag.boolValue true.
Proof.
  assert (Hd : NoDup (map flag.Name Logging.withLoggingFlags)).
  { cbn. repeat constructor; cbn; intuition discriminate. }
  destruct (setupLogging_syncs_by_name Logging.withLoggingFlags
              Logging.klogFlags Logging.parsed Hd) as [Hkeep Hbring].
  split.
  - apply (Hbring (fun m => m "cli.addDirHeader" = flag.boolValue true)
                  (fun m => m "logging.skipHeaders" = flag.boolValue true)
                  {| flag.Name := "add_dir_header";
                     flag.value := flag.boolVar "cli.addDirHeader" |}
                  {| flag.Name := "add_dir_header";
                     flag.value := flag.boolVar "logging.skipHeaders" |}).
    + left. reflexivity.
    + reflexivity.
    + intros f1 f2 h' Hin Hlk Hi. example_sync Hin Hlk; exact Hi.
    + reflexivity.
    + intros h' Hi. unfold setFrom. cbn. rewrite Hi. reflexivity.
    + intros g1 g2 h' Hin Hne Hlk Hi Hq.
      example_sync Hin Hlk; first [ exact Hq | now elim Hne ].
  - apply Hkeep; [| reflexivity].
    intros f1 f2 h' Hin Hlk Hp. example_sync Hin Hlk; exact Hp.
Defined.

(** X20.  If no flag of the command line has the name of a logging flag,
    setupLogging calls no Set and leaves the state of the program as it
    was.  The six flags that main.go defines are no logging flags: the
    sync has an effect only through flags that another package has
    defined on the command line. *)
Theorem setupLogging_without_common_names
        {H : Type} (CommandLine klog : flag.FlagSet H) (h : H) :
  (forall name, In name (map flag.Name CommandLine) ->
                ~ In name (map flag.Name klog)) ->
  setupLogging CommandLine klog h = h.
Proof.
  intros Hnone.
  assert (Hvisit : forall l h0,
             (forall f1, In f1 l -> flag.Lookup klog (flag.Name f1) = None) ->
             fold_left (fun h fl => syncFlag klog fl h) l h0 = h0).
  { induction l as [| f1 l IH]; intros h0 Hl; cbn [fold_left];
      [reflexivity |].
    assert (Hs : syncFlag klog f1 h0 = h0).
    { unfold syncFlag. now rewrite (Hl f1 (or_introl eq_refl)). }
    rewrite Hs. apply IH. intros f Hin. apply Hl. now right. }
  unfold setupLogging, flag.VisitAll. apply Hvisit.
  intros f1 Hin. apply Lookup_none. apply Hnone.
  apply in_map. now apply sortFlags_In.
Qed.

(** With the flags of main.go alone on the command line the variables
    of the program keep their values. *)
Lemma setupLogging_without_common_names_witness :
  setupLogging Logging.ownFlags Logging.klogFlags Logging.parsed
  = Logging.parsed.
Proof.
  apply setupLogging_without_common_names.
  cbn. intuition (subst; discriminate).
Defined.
